(** * AI Ops Assistant: plan -> execute -> verify -> replan pipeline

    A shallow embedding of the agents of [ai_ops_assistant]
    ([agents/planner.py], [agents/executor.py], [agents/verifier.py] and
    the [/run] handler of [main.py]) together with the properties of the
    pipeline that the design document states.

    The Python code works on JSON-shaped values (dicts, lists, strings,
    numbers, booleans, [None]) and inspects them dynamically ([.get],
    truthiness, [isinstance]); the embedding keeps that: a [value] type,
    Python's operations on it, and a state-and-exception monad for the
    calls that reach the outside world (tools, the LLM, the clock). *)

From Stdlib Require Import ZArith String Ascii List Permutation Lia.
From stdpp Require Import base decidable countable gmap strings list pretty.

Open Scope string_scope.
Open Scope list_scope.
Open Scope Z_scope.

(** ** JSON-shaped Python values *)

(** Numbers are integers: floating point is outside the embedding.  A
    Python [str] is represented by its UTF-8 bytes.  [strip] and [split]
    recognise every whitespace character of Python by its encoding, of
    one, two or three bytes; [len] of a string and the iteration over a
    string go byte by byte and are exact on ASCII text.  A [dict] keeps
    its insertion order, as Python's does. *)
#[warnings="-register-all"]
Inductive value : Type :=
| VNone
| VBool (b : bool)
| VInt (n : Z)
| VStr (s : string)
| VList (l : list value)
| VDict (d : list (string * value)).

Abbreviation dict := (list (string * value)).

(** An exception is represented by its message, [str(exc)]. *)
Definition exn : Type := string.

Inductive outcome (A : Type) : Type :=
| Ok (a : A)
| Raised (e : exn).
Arguments Ok {A} a.
Arguments Raised {A} e.

Module Py.

(** [d.get(k)] with its optional default. *)
Fixpoint lookup (d : dict) (k : string) : option value :=
  match d with
  | [] => None
  | (k', v) :: rest => if String.eqb k' k then Some v else lookup rest k
  end.

Definition get_default (d : dict) (k : string) (default : value) : value :=
  match lookup d k with Some v => v | None => default end.

Definition get (d : dict) (k : string) : value := get_default d k VNone.

(** [k in d] *)
Definition contains (d : dict) (k : string) : bool :=
  match lookup d k with Some _ => true | None => false end.

(** [d[k] = v]: an existing key keeps its position. *)
Fixpoint set (d : dict) (k : string) (v : value) : dict :=
  match d with
  | [] => [(k, v)]
  | (k', v') :: rest =>
      if String.eqb k' k then (k', v) :: rest else (k', v') :: set rest k v
  end.

(** Truth value of an object, as in [if x:] and [x or y]. *)
Definition truthy (v : value) : bool :=
  match v with
  | VNone => false
  | VBool b => b
  | VInt n => negb (n =? 0)
  | VStr s => negb (String.eqb s "")
  | VList l => match l with [] => false | _ => true end
  | VDict d => match d with [] => false | _ => true end
  end.

Definition or (a b : value) : value := if truthy a then a else b.

(** [x is not None] *)
Definition is_not_none (v : value) : bool :=
  match v with VNone => false | _ => true end.

(** [x == "literal"] *)
Definition eq_str (v : value) (s : string) : bool :=
  match v with VStr s' => String.eqb s' s | _ => false end.

Definition type_name (v : value) : string :=
  match v with
  | VNone => "NoneType" | VBool _ => "bool" | VInt _ => "int"
  | VStr _ => "str" | VList _ => "list" | VDict _ => "dict"
  end.

(** Hashable values and the key they denote: [True == 1] and
    [False == 0] hash alike, lists and dicts are unhashable. *)
Inductive hkey : Type :=
| KNone
| KNum (n : Z)
| KStr (s : string).

Definition hash_key (v : value) : outcome hkey :=
  match v with
  | VNone => Ok KNone
  | VBool b => Ok (KNum (if b then 1 else 0))
  | VInt n => Ok (KNum n)
  | VStr s => Ok (KStr s)
  | VList _ => Raised "unhashable type: 'list'"
  | VDict _ => Raised "unhashable type: 'dict'"
  end.

(** [for x in v]: a list gives its elements, a string its characters,
    a dict its keys; nothing else is iterable. *)
Fixpoint chars (s : string) : list value :=
  match s with
  | EmptyString => []
  | String c rest => VStr (String c EmptyString) :: chars rest
  end.

Definition iter (v : value) : outcome (list value) :=
  match v with
  | VList l => Ok l
  | VStr s => Ok (chars s)
  | VDict d => Ok (map (fun kv => VStr kv.1) d)
  | _ => Raised ("'" +:+ type_name v +:+ "' object is not iterable")
  end.

(** [len(v)] *)
Definition len (v : value) : outcome nat :=
  match v with
  | VList l => Ok (length l)
  | VStr s => Ok (String.length s)
  | VDict d => Ok (length d)
  | _ => Raised ("object of type '" +:+ type_name v +:+ "' has no len()")
  end.

(** [sep.join(parts)] *)
Fixpoint join (sep : string) (parts : list string) : string :=
  match parts with
  | [] => ""
  | [p] => p
  | p :: rest => p +:+ sep +:+ join sep rest
  end.

(** [str.isspace], the test behind [strip] and [split].  The whitespace
    characters of one byte are those of code 9 to 13 and 28 to 32. *)
Definition is_space (c : ascii) : bool :=
  let n := nat_of_ascii c in
  ((9 <=? n)%nat && (n <=? 13)%nat) || ((28 <=? n)%nat && (n <=? 32)%nat).

(** The whitespace characters of two bytes: U+0085 ([C2 85]) and
    U+00A0 ([C2 A0]). *)
Definition is_space2 (a b : ascii) : bool :=
  let x := nat_of_ascii a in
  let y := nat_of_ascii b in
  (x =? 194)%nat && ((y =? 133)%nat || (y =? 160)%nat).

(** The whitespace characters of three bytes: U+1680 ([E1 9A 80]),
    U+2000 to U+200A ([E2 80 80] to [E2 80 8A]), U+2028 ([E2 80 A8]),
    U+2029 ([E2 80 A9]), U+202F ([E2 80 AF]), U+205F ([E2 81 9F]) and
    U+3000 ([E3 80 80]).  There is no other whitespace character. *)
Definition is_space3 (a b c : ascii) : bool :=
  let x := nat_of_ascii a in
  let y := nat_of_ascii b in
  let z := nat_of_ascii c in
  ((x =? 225)%nat && (y =? 154)%nat && (z =? 128)%nat)
  || ((x =? 226)%nat && (y =? 128)%nat
      && (((128 <=? z)%nat && (z <=? 138)%nat)
          || (z =? 168)%nat || (z =? 169)%nat || (z =? 175)%nat))
  || ((x =? 226)%nat && (y =? 129)%nat && (z =? 159)%nat)
  || ((x =? 227)%nat && (y =? 128)%nat && (z =? 128)%nat).

(** The same tests on a text that is read from its end, where the bytes
    of a character come last byte first. *)
Definition space2 (backwards : bool) (a b : ascii) : bool :=
  if backwards then is_space2 b a else is_space2 a b.

Definition space3 (backwards : bool) (a b c : ascii) : bool :=
  if backwards then is_space3 c b a else is_space3 a b c.

(** A text without the whitespace characters it starts with.  In UTF-8
    the first byte of a character of several bytes is never a byte of the
    inside of a character, so these tests on bytes see whole characters. *)
Fixpoint skip_spaces (backwards : bool) (s : string) : string :=
  match s with
  | EmptyString => EmptyString
  | String a rest =>
      if is_space a then skip_spaces backwards rest
      else
        match rest with
        | EmptyString => s
        | String b rest2 =>
            if space2 backwards a b then skip_spaces backwards rest2
            else
              match rest2 with
              | EmptyString => s
              | String c rest3 =>
                  if space3 backwards a b c then skip_spaces backwards rest3
                  else s
              end
        end
  end.

Definition lstrip (s : string) : string := skip_spaces false s.

(** [rstrip] reads the text from its end. *)
Definition rstrip (s : string) : string :=
  String.rev (skip_spaces true (String.rev s)).

Definition strip (s : string) : string := rstrip (lstrip s).

(** [s.split()]: the maximal runs of characters that are not whitespace.
    [cur] is the run being read, reversed. *)
Fixpoint split_go (cur : option string) (s : string) : list string :=
  let word := match cur with Some w => [String.rev w] | None => [] end in
  match s with
  | EmptyString => word
  | String a rest =>
      let more := split_go (Some (String a (default EmptyString cur))) rest in
      if is_space a then word ++ split_go None rest
      else
        match rest with
        | EmptyString => more
        | String b rest2 =>
            if is_space2 a b then word ++ split_go None rest2
            else
              match rest2 with
              | EmptyString => more
              | String c rest3 =>
                  if is_space3 a b c then word ++ split_go None rest3
                  else more
              end
        end
  end.

Definition split (s : string) : list string := split_go None s.

End Py.

Global Instance hkey_eq_dec : EqDecision Py.hkey.
Proof. solve_decision. Defined.

Global Instance hkey_countable : Countable Py.hkey.
Proof.
  refine (inj_countable'
    (fun k => match k with
              | Py.KNone => inl tt
              | Py.KNum n => inr (inl n)
              | Py.KStr s => inr (inr s)
              end)
    (fun x => match x with
              | inl _ => Py.KNone
              | inr (inl n) => Py.KNum n
              | inr (inr s) => Py.KStr s
              end) _).
  intros []; reflexivity.
Defined.

(** ** The outside world *)

(** What the agents reach but do not define: the tools behind
    [TOOL_REGISTRY], the LLM behind [LLMClient.chat_json], the clock, the
    order in which the thread pool runs its workers, and two builtins of
    Python that act on values this file does not print or parse. *)
Class Host : Type := {
  (** state of everything outside the process *)
  W : Type;
  (** a reading of [time.perf_counter()] *)
  instant : Type;
  perf_counter : W -> instant * W;
  (** [int((stop - start) * 1000)] *)
  elapsed_ms : instant -> instant -> Z;
  (** [TOOL_REGISTRY]: a tool receives the step's [args] (unpacked as
      keyword arguments, with the failure of the call itself) and returns its
      output or raises *)
  TOOL_REGISTRY : gmap string (value -> W -> outcome value * W);
  (** [client.chat_json(PLANNER_SYSTEM, build_planner_user_prompt(task, TOOL_SPECS))] *)
  planner_chat_json : string -> W -> outcome value * W;
  (** [client.chat_json(VERIFIER_SYSTEM, build_verifier_user_prompt(task, plan, compact_results))] *)
  verifier_chat_json : string -> dict -> list dict -> W -> outcome value * W;
  (** the order in which the [n] workers submitted to the pool run and
      complete: some permutation of their indices *)
  pool_order : W -> nat -> list nat;
  pool_order_perm : forall w n, Permutation (pool_order w n) (seq 0 n);
  (** [str(x)] for a list or a dict *)
  container_str : value -> string;
  (** [int(s)] for a string, [None] when it raises [ValueError] *)
  int_of_str : string -> option Z;
}.

(** [str(x)], as in an f-string. *)
Definition py_str `{Host} (v : value) : string :=
  match v with
  | VNone => "None"
  | VBool true => "True"
  | VBool false => "False"
  | VInt n => pretty n
  | VStr s => s
  | VList _ | VDict _ => container_str v
  end.

(** ** Calls observed from outside and the monad of the agents *)

Inductive event : Type :=
| EvPlanner (task : string)
| EvVerifier (task : string) (plan : dict) (compact : list dict)
| EvTool (name : string) (args : value).

Record state `{Host} : Type := St {
  world : W;
  (** the calls made so far, oldest first *)
  trace : list event;
}.

Definition M `{Host} (A : Type) : Type := state -> outcome A * state.

Section Monad.
Context `{Host}.

Definition ret {A} (a : A) : M A := fun s => (Ok a, s).

Definition raise {A} (e : exn) : M A := fun s => (Raised e, s).

Definition bind {A B} (m : M A) (k : A -> M B) : M B :=
  fun s =>
    match m s with
    | (Ok a, s') => k a s'
    | (Raised e, s') => (Raised e, s')
    end.

(** [try: m except Exception as exc: ...] hands the outcome to the code
    that follows. *)
Definition try {A} (m : M A) : M (outcome A) :=
  fun s => let (r, s') := m s in (Ok r, s').

Definition lift {A} (r : outcome A) : M A :=
  match r with Ok a => ret a | Raised e => raise e end.

(** An operation of the world, recorded in the trace. *)
Definition external {A} (ev : event) (op : W -> outcome A * W) : M A :=
  fun s =>
    let (r, w') := op (world s) in
    (r, {| world := w'; trace := trace s ++ [ev] |}).

Definition clock : M instant :=
  fun s =>
    let (t, w') := perf_counter (world s) in
    (Ok t, {| world := w'; trace := trace s |}).

End Monad.

Declare Scope py_scope.
Delimit Scope py_scope with py.
Notation "x <- m ;; k" := (bind m (fun x => k))
  (at level 100, m at next level, right associativity) : py_scope.
Open Scope py_scope.

Section Traversals.
Context `{Host}.

(** [[f(x) for x in xs]] *)
Fixpoint mapM {A B} (f : A -> M B) (xs : list A) : M (list B) :=
  match xs with
  | [] => ret []
  | x :: rest => y <- f x ;; ys <- mapM f rest ;; ret (y :: ys)
  end.

(** A loop updating an accumulator. *)
Fixpoint foldM {A B} (f : B -> A -> M B) (acc : B) (xs : list A) : M B :=
  match xs with
  | [] => ret acc
  | x :: rest => acc' <- f acc x ;; foldM f acc' rest
  end.

End Traversals.

(** ** agents/executor.py *)

Section Executor.
Context `{Host}.

(** [name in self.registry] and [self.registry[name]]: the keys of the
    registry are strings, so no other hashable value is one of them. *)
Definition registry_lookup (k : Py.hkey)
  : option (string * (value -> W -> outcome value * W)) :=
  match k with
  | Py.KStr name => pair name <$> TOOL_REGISTRY !! name
  | _ => None
  end.

(** [step.get] on something that is not a dict. *)
Definition as_dict (v : value) : outcome dict :=
  match v with
  | VDict d => Ok d
  | _ => Raised ("'" +:+ Py.type_name v +:+ "' object has no attribute 'get'")
  end.

Definition _run_step (step : dict) : M dict :=
  let tool_name := Py.get step "tool" in
  let args := Py.or (Py.get step "args") (VDict []) in
  start <- clock ;;
  key <- lift (Py.hash_key tool_name) ;;
  match registry_lookup key with
  | None =>
      stop <- clock ;;
      ret [("step_id", Py.get step "id");
           ("tool", tool_name);
           ("args", args);
           ("status", VStr "error");
           ("error", VStr ("Unknown tool: " +:+ py_str tool_name));
           ("duration_ms", VInt (elapsed_ms start stop))]
  | Some (name, fn) =>
      attempt <- try (output <- external (EvTool name args) (fn args) ;;
                      stop <- clock ;;
                      ret [("step_id", Py.get step "id");
                           ("tool", tool_name);
                           ("args", args);
                           ("status", VStr "success");
                           ("output", output);
                           ("duration_ms", VInt (elapsed_ms start stop))]) ;;
      match attempt with
      | Ok result => ret result
      | Raised exc =>
          stop <- clock ;;
          ret [("step_id", Py.get step "id");
               ("tool", tool_name);
               ("args", args);
               ("status", VStr "error");
               ("error", VStr exc);
               ("duration_ms", VInt (elapsed_ms start stop))]
      end
  end.

(** [self._run_step(step)] for an element of the plan's steps. *)
Definition run_step_of (step : value) : M dict :=
  d <- lift (as_dict step) ;; _run_step d.

(** [steps[idx]] in the handler of [execute]. *)
Definition steps_index (steps : value) (items : list value) (idx : nat)
  : outcome value :=
  match steps with
  | VDict _ => Raised (pretty idx)
  | _ => match items !! idx with
         | Some step => Ok step
         | None => Raised "list index out of range"
         end
  end.

(** The body of [for future in as_completed(future_map)]: the slot of
    the result is the index of its step. *)
Definition collect (steps : value) (items : list value)
    (results : list (option dict)) (done : nat * outcome dict)
  : M (list (option dict)) :=
  let (idx, fut) := done in
  match fut with
  | Ok result => ret (<[idx := Some result]> results)
  | Raised exc =>
      sv <- lift (steps_index steps items idx) ;;
      step <- lift (as_dict sv) ;;
      ret (<[idx := Some [("step_id", Py.get step "id");
                          ("tool", Py.get step "tool");
                          ("args", Py.or (Py.get step "args") (VDict []));
                          ("status", VStr "error");
                          ("error", VStr exc)]]> results)
  end.

(** One worker of the pool: its exception is kept in its future. *)
Definition worker (items : list value) (idx : nat) : M (nat * outcome dict) :=
  match items !! idx with
  | Some step => fut <- try (run_step_of step) ;; ret (idx, fut)
  | None => ret (idx, Raised "list index out of range")
  end.

(** With two steps or more every step is submitted to the pool.  A worker
    is one call of [_run_step], taken as a whole; the workers take effect
    in the order the pool gives them ([pool_order], any permutation of the
    indices: the bound of [min(len(steps), 4)] workers only rules some
    orders out), and [as_completed] yields them in that order.  Leaving
    the [with] block waits for all of them, so their effects have all
    taken place when [execute] returns or raises. *)
Definition execute (plan : dict) : M (list dict) :=
  let steps := Py.get_default plan "steps" (VList []) in
  n <- lift (Py.len steps) ;;
  items <- lift (Py.iter steps) ;;
  if (n <=? 1)%nat then
    mapM run_step_of items
  else
    order <- (fun s => (Ok (pool_order (world s) n), s)) ;;
    futures <- mapM (worker items) order ;;
    results <- foldM (collect steps items) (replicate n None) futures ;;
    ret (omap id results).

(** [step["id"]] *)
Definition subscript_id (step : value) : outcome value :=
  match step with
  | VDict d =>
      match Py.lookup d "id" with
      | Some v => Ok v
      | None => Raised "'id'"
      end
  | VStr _ => Raised "string indices must be integers, not 'str'"
  | VList _ => Raised "list indices must be integers or slices, not str"
  | _ => Raised ("'" +:+ Py.type_name step +:+ "' object is not subscriptable")
  end.

(** [{step["id"]: step for step in ...}]: a later step with the same id
    takes the entry. *)
Definition step_map_add (m : gmap Py.hkey value) (step : value)
  : outcome (gmap Py.hkey value) :=
  match subscript_id step with
  | Ok id =>
      match Py.hash_key id with
      | Ok k => Ok (<[k := step]> m)
      | Raised e => Raised e
      end
  | Raised e => Raised e
  end.

Fixpoint build_step_map (m : gmap Py.hkey value) (steps : list value)
  : outcome (gmap Py.hkey value) :=
  match steps with
  | [] => Ok m
  | step :: rest =>
      match step_map_add m step with
      | Ok m' => build_step_map m' rest
      | Raised e => Raised e
      end
  end.

(** The body of the loop of [retry_failed]. *)
Definition retry_one (step_map : gmap Py.hkey value) (result : dict) : M dict :=
  if Py.eq_str (Py.get result "status") "error" then
    k <- lift (Py.hash_key (Py.get result "step_id")) ;;
    match step_map !! k with
    | Some step =>
        if Py.truthy step then run_step_of step else ret result
    | None => ret result
    end
  else ret result.

Definition retry_failed (plan : dict) (step_results : list dict) : M (list dict) :=
  steps <- lift (Py.iter (Py.get_default plan "steps" (VList []))) ;;
  step_map <- lift (build_step_map ∅ steps) ;;
  mapM (retry_one step_map) step_results.

End Executor.

(** ** agents/planner.py *)

Section Planner.
Context `{Host}.

(** One turn of the loop of [_normalize_plan]; [idx] counts from 1. *)
Definition normalize_step (idx : nat) (step : value) : outcome value :=
  match as_dict step with
  | Raised e => Raised e
  | Ok d =>
      let tool := Py.get d "tool" in
      if negb (Py.truthy tool) then
        Raised ("Unknown tool in plan: " +:+ py_str tool)
      else
        match Py.hash_key tool with
        | Raised e => Raised e
        | Ok k =>
            match registry_lookup k with
            | None => Raised ("Unknown tool in plan: " +:+ py_str tool)
            | Some _ =>
                Ok (VDict [("id", Py.or (Py.get d "id") (VStr ("step_" +:+ pretty idx)));
                           ("tool", tool);
                           ("args", Py.or (Py.get d "args") (VDict []));
                           ("purpose", Py.or (Py.get d "purpose") (VStr ""))])
            end
        end
  end.

(** [for idx, step in enumerate(steps, start=idx)] *)
Fixpoint normalize_steps (idx : nat) (steps : list value) : outcome (list value) :=
  match steps with
  | [] => Ok []
  | step :: rest =>
      match normalize_step idx step with
      | Raised e => Raised e
      | Ok s =>
          match normalize_steps (S idx) rest with
          | Raised e => Raised e
          | Ok ss => Ok (s :: ss)
          end
      end
  end.

Definition _normalize_plan (plan : value) (task : string) : outcome dict :=
  match plan with
  | VDict p =>
      match Py.get p "steps" with
      | VList (first :: others) =>
          match normalize_steps 1 (first :: others) with
          | Raised e => Raised e
          | Ok normalized_steps =>
              Ok [("goal", Py.or (Py.get p "goal") (VStr task));
                  ("steps", VList normalized_steps)]
          end
      | _ => Raised "Planner output missing steps"
      end
  | _ => Raised "Planner output is not a JSON object"
  end.

Definition create_plan (task : string) : M dict :=
  plan <- external (EvPlanner task) (planner_chat_json task) ;;
  lift (_normalize_plan plan task).

End Planner.

(** ** agents/verifier.py *)

Section Verifier.
Context `{Host}.

(** [items[:5]] and [items[:3]] *)
Definition slice_to (n : nat) (items : value) : outcome (list value) :=
  match items with
  | VList l => Ok (take n l)
  | VStr s => Ok (take n (Py.chars s))
  | VDict _ => Raised "unhashable type: 'slice'"
  | _ => Raised ("'" +:+ Py.type_name items +:+ "' object is not subscriptable")
  end.

Definition trim_item (item : value) : outcome value :=
  match as_dict item with
  | Raised e => Raised e
  | Ok d => Ok (VDict [("name", Py.get d "name");
                       ("full_name", Py.get d "full_name");
                       ("url", Py.get d "url");
                       ("stars", Py.get d "stars");
                       ("language", Py.get d "language")])
  end.

Fixpoint trim_items (items : list value) : outcome (list value) :=
  match items with
  | [] => Ok []
  | item :: rest =>
      match trim_item item with
      | Raised e => Raised e
      | Ok t =>
          match trim_items rest with
          | Raised e => Raised e
          | Ok ts => Ok (t :: ts)
          end
      end
  end.

Definition compact_output (output : value) : outcome value :=
  match output with
  | VDict o =>
      if Py.contains o "items" then
        match slice_to 5 (Py.get_default o "items" (VList [])) with
        | Raised e => Raised e
        | Ok first =>
            match trim_items first with
            | Raised e => Raised e
            | Ok trimmed_items =>
                Ok (VDict [("query", Py.get o "query");
                           ("total_count", Py.get o "total_count");
                           ("items", VList trimmed_items);
                           ("source_url", Py.get o "source_url")])
            end
        end
      else Ok output
  | _ => Ok output
  end.

Fixpoint _compact_step_results (step_results : list dict) : outcome (list dict) :=
  match step_results with
  | [] => Ok []
  | result :: rest =>
      match compact_output (Py.get result "output") with
      | Raised e => Raised e
      | Ok out =>
          match _compact_step_results rest with
          | Raised e => Raised e
          | Ok compacted =>
              Ok ([("step_id", Py.get result "step_id");
                   ("tool", Py.get result "tool");
                   ("status", Py.get result "status");
                   ("output", out);
                   ("error", Py.get result "error")] :: compacted)
          end
      end
  end.

(** What the first loop of [verify] over the repaired results gathers. *)
Record scan : Type := Scan {
  allowed_sources : list value;
  repo_items : list dict;
  weather_info : option dict;
}.

(** [[item for item in items if isinstance(item, dict)]] *)
Definition dict_items (items : list value) : list dict :=
  omap (fun item => match item with VDict d => Some d | _ => None end) items.

Definition scan_result (acc : scan) (result : dict) : scan :=
  match Py.get result "output" with
  | VDict output =>
      let source_url := Py.get output "source_url" in
      let sources :=
        if Py.truthy source_url then allowed_sources acc ++ [source_url]
        else allowed_sources acc in
      let repos :=
        if Py.eq_str (Py.get result "tool") "github_search" then
          match Py.get_default output "items" (VList []) with
          | VList items => repo_items acc ++ dict_items items
          | _ => repo_items acc
          end
        else repo_items acc in
      let weather :=
        if Py.eq_str (Py.get result "tool") "weather_current" then Some output
        else weather_info acc in
      {| allowed_sources := sources; repo_items := repos; weather_info := weather |}
  | _ => acc
  end.

Definition scan_results (repaired_results : list dict) : scan :=
  fold_left scan_result repaired_results
    {| allowed_sources := []; repo_items := []; weather_info := None |}.

(** The second loop: the truthy [url] of every repository item. *)
Definition repo_urls (items : list dict) : list value :=
  filter (fun u => Is_true (Py.truthy u)) (map (fun item => Py.get item "url") items).

(** [list(dict.fromkeys(xs))]: the first of several equal keys stays, in
    the position of its first insertion. *)
Fixpoint fromkeys_go (seen : list (Py.hkey * value)) (xs : list value)
  : outcome (list value) :=
  match xs with
  | [] => Ok (seen.*2)
  | x :: rest =>
      match Py.hash_key x with
      | Raised e => Raised e
      | Ok k =>
          if bool_decide (k ∈ seen.*1) then fromkeys_go seen rest
          else fromkeys_go (seen ++ [(k, x)]) rest
      end
  end.

Definition fromkeys (xs : list value) : outcome (list value) := fromkeys_go [] xs.

(** The set comprehension that gives [tools_used]. *)
Fixpoint tools_of (steps : list value) : outcome (gset Py.hkey) :=
  match steps with
  | [] => Ok ∅
  | step :: rest =>
      match step with
      | VDict d =>
          if Py.truthy (Py.get d "tool") then
            match Py.hash_key (Py.get d "tool") with
            | Raised e => Raised e
            | Ok k =>
                match tools_of rest with
                | Raised e => Raised e
                | Ok ks => Ok ({[k]} ∪ ks)
                end
            end
          else tools_of rest
      | _ => tools_of rest
      end
  end.

(** The loop that looks for the generated text: it stops at the first
    successful [llm_generate] result whose output is a dict. *)
Fixpoint find_speech (repaired_results : list dict) : string :=
  match repaired_results with
  | [] => ""
  | result :: rest =>
      if Py.eq_str (Py.get result "tool") "llm_generate"
         && Py.eq_str (Py.get result "status") "success" then
        match Py.get result "output" with
        | VDict output => Py.strip (py_str (Py.or (Py.get output "text") (VStr "")))
        | _ => find_speech rest
        end
      else find_speech rest
  end.

(** One entry of the sentence on repositories, when the item has a name
    and a url. *)
Definition repo_bit (item : dict) : option string :=
  let name := Py.or (Py.get item "full_name") (Py.get item "name") in
  let url := Py.get item "url" in
  let stars := Py.get item "stars" in
  if Py.truthy name && Py.truthy url then
    if Py.is_not_none stars then
      Some (py_str name +:+ " (" +:+ py_str url +:+ ", " +:+ py_str stars +:+ "★)")
    else
      Some (py_str name +:+ " (" +:+ py_str url +:+ ")")
  else None.

Definition repo_sentence (items : list dict) : list string :=
  match items with
  | [] => []
  | _ =>
      match omap repo_bit (take 3 items) with
      | [] => []
      | repo_bits => ["Top repositories: " +:+ Py.join "; " repo_bits +:+ "."]
      end
  end.

Definition weather_sentence (info : dict) : string :=
  let location := Py.get info "location" in
  let summary := Py.get info "weather_summary" in
  let temp := Py.get info "temperature_c" in
  let wind := Py.get info "wind_kph" in
  let head :=
    if Py.truthy location then "Current weather" +:+ " in " +:+ py_str location
    else "Current weather" in
  if Py.truthy summary || Py.is_not_none temp then
    let details :=
      (if Py.truthy summary then [py_str summary] else [])
      ++ (if Py.is_not_none temp then [py_str temp +:+ "°C"] else [])
      ++ (if Py.is_not_none wind then ["wind " +:+ py_str wind +:+ " kph"] else []) in
    head +:+ ": " +:+ Py.join ", " details +:+ "."
  else head +:+ ".".

Definition narration_parts (sc : scan) : list string :=
  repo_sentence (repo_items sc)
  ++ match weather_info sc with
     | Some info => [weather_sentence info]
     | None => []
     end.

(** [verification[...] = ...] on what the oracle returned. *)
Definition as_assignable (v : value) : outcome dict :=
  match v with
  | VDict d => Ok d
  | VList _ => Raised "list indices must be integers or slices, not str"
  | _ => Raised ("'" +:+ Py.type_name v +:+ "' object does not support item assignment")
  end.

Definition fixed_limitation : string :=
  "Some tools failed after retry; partial data returned.".

(** The single-tool narration: the generated text becomes the answer
    and the sources are dropped. *)
Definition speech_override (tools_used : gset Py.hkey) (repaired_results : list dict)
    (va : dict * list value) : dict * list value :=
  let speech_text :=
    if decide (tools_used = {[Py.KStr "llm_generate"]})
    then find_speech repaired_results else "" in
  if negb (String.eqb speech_text "") then
    let word_count := length (Py.split speech_text) in
    (Py.set (Py.set va.1 "final_answer" (VStr speech_text))
            "data" (VDict [("kind", VStr "introduction_speech");
                           ("word_count", VInt (Z.of_nat word_count))]),
     [])
  else va.

(** The narration composed from repositories and weather. *)
Definition narration_override (tools_used : gset Py.hkey) (sc : scan)
    (verification : dict) : dict :=
  if decide (tools_used ∩ {[Py.KStr "github_search"; Py.KStr "weather_current"]} ≠ ∅)
  then
    match narration_parts sc with
    | [] => verification
    | parts => Py.set verification "final_answer" (VStr (Py.strip (Py.join " " parts)))
    end
  else verification.

Definition downgrade (missing : list dict) (verification : dict) : dict :=
  match missing with
  | [] => verification
  | _ =>
      let limitations :=
        match Py.get verification "limitations" with
        | VList l => l
        | _ => []
        end in
      Py.set (Py.set verification "limitations"
                     (VList (limitations ++ [VStr fixed_limitation])))
             "completeness" (VStr "partial")
  end.

Definition still_missing (repaired_results : list dict) : list dict :=
  filter (fun r => Is_true (negb (Py.eq_str (Py.get r "status") "success")))
         repaired_results.

(** What [verify] does to the oracle's object once every value it needs
    has been computed: the two overrides, the sources, the downgrade. *)
Definition enrich (tools_used : gset Py.hkey) (repaired_results : list dict)
    (allowed : list value) (verification : dict) : dict :=
  let va := speech_override tools_used repaired_results (verification, allowed) in
  let verification :=
    narration_override tools_used (scan_results repaired_results) va.1 in
  let verification := Py.set verification "sources" (VList va.2) in
  downgrade (still_missing repaired_results) verification.

Definition verify (task : string) (plan : dict) (step_results : list dict) : M dict :=
  repaired_results <- retry_failed plan step_results ;;
  compact_results <- lift (_compact_step_results repaired_results) ;;
  oracle <- external (EvVerifier task plan compact_results)
                     (verifier_chat_json task plan compact_results) ;;
  let sc := scan_results repaired_results in
  allowed <- lift (fromkeys (allowed_sources sc ++ repo_urls (repo_items sc))) ;;
  steps <- lift (Py.iter (Py.get_default plan "steps" (VList []))) ;;
  tools_used <- lift (tools_of steps) ;;
  verification <- lift (as_assignable oracle) ;;
  ret (enrich tools_used repaired_results allowed verification).

End Verifier.

(** ** main.py: the [/run] handler *)

(** The value of [auto_replan] when a replan was attempted. *)
Record envelope : Type := Envelope {
  env_triggered : bool;
  env_reason : string;
  env_task : string;
  env_plan : dict;
  env_steps : list dict;
  env_final : dict;
}.

(** The dict [run_task] returns, one field per key. *)
Record response : Type := Response {
  resp_task : string;
  resp_plan : dict;
  resp_steps : list dict;
  resp_final : dict;
  resp_auto_replan : option envelope;
  resp_tool_execution_ms : Z;
  resp_tool_count : nat;
}.

Section Orchestrator.
Context `{Host}.

Definition _extract_step_errors (step_results : list dict) : list string :=
  omap (fun step =>
          if Py.eq_str (Py.get step "status") "error" then
            let tool := Py.or (Py.get step "tool") (VStr "unknown_tool") in
            let err := Py.or (Py.get step "error") (VStr "unknown error") in
            Some (py_str tool +:+ ": " +:+ py_str err)
          else None)
       step_results.

Definition newline : string := String (ascii_of_nat 10) EmptyString.

Definition _build_replan_task (task : string) (steps : list dict) (final : dict)
  : outcome (option string) :=
  let errors := _extract_step_errors steps in
  let limitations := Py.get_default final "limitations" (VList []) in
  match errors, Py.truthy limitations with
  | [], false => Ok None
  | _, _ =>
      let error_part :=
        match errors with
        | [] => []
        | _ => ["Errors: " +:+ Py.join "; " errors]
        end in
      match (if Py.truthy limitations
             then match Py.iter limitations with
                  | Ok ls => Ok ["Limitations: " +:+ Py.join "; " (map py_str ls)]
                  | Raised e => Raised e
                  end
             else Ok []) with
      | Raised e => Raised e
      | Ok limitation_part =>
          Ok (Some (task +:+ newline +:+ newline
                    +:+ "Fix missing or failed info from the previous attempt. "
                    +:+ "Use only the necessary tools. "
                    +:+ Py.join " " (error_part ++ limitation_part)))
      end
  end.

(** [int(x)] *)
Definition py_int (v : value) : outcome Z :=
  match v with
  | VInt n => Ok n
  | VBool b => Ok (if b then 1 else 0)
  | VStr s =>
      match int_of_str s with
      | Some n => Ok n
      | None => Raised ("invalid literal for int() with base 10: '" +:+ s +:+ "'")
      end
  | _ => Raised ("int() argument must be a string, a bytes-like object or a real number, not '"
                 +:+ Py.type_name v +:+ "'")
  end.

(** [sum(int(step.get("duration_ms", 0)) for step in steps ...)] *)
Fixpoint tool_time (steps : list dict) : outcome Z :=
  match steps with
  | [] => Ok 0
  | step :: rest =>
      match py_int (Py.get_default step "duration_ms" (VInt 0)) with
      | Raised e => Raised e
      | Ok d =>
          match tool_time rest with
          | Raised e => Raised e
          | Ok total => Ok (d + total)
          end
      end
  end.

(** The body of the [try] block of [run_task]. *)
Definition run_body (task : string) : M response :=
  plan <- create_plan task ;;
  steps <- execute plan ;;
  final <- verify task plan steps ;;
  tool_time_ms <- lift (tool_time steps) ;;
  outcome_of_replan <-
    (if Py.eq_str (Py.get final "completeness") "partial" then
       replan_task <- lift (_build_replan_task task steps final) ;;
       match replan_task with
       | Some replan_task =>
           if negb (String.eqb replan_task "") then
             replan_plan <- create_plan replan_task ;;
             replan_steps <- execute replan_plan ;;
             replan_final <- verify task replan_plan replan_steps ;;
             let auto_replan :=
               {| env_triggered := true;
                  env_reason := "Previous attempt incomplete";
                  env_task := replan_task;
                  env_plan := replan_plan;
                  env_steps := replan_steps;
                  env_final := replan_final |} in
             if Py.eq_str (Py.get replan_final "completeness") "complete" then
               ret (replan_plan, replan_steps, replan_final, Some auto_replan)
             else ret (plan, steps, final, Some auto_replan)
           else ret (plan, steps, final, None)
       | None => ret (plan, steps, final, None)
       end
     else ret (plan, steps, final, None)) ;;
  let '(plan, steps, final, auto_replan) := outcome_of_replan in
  ret {| resp_task := task;
         resp_plan := plan;
         resp_steps := steps;
         resp_final := final;
         resp_auto_replan := auto_replan;
         resp_tool_execution_ms := tool_time_ms;
         resp_tool_count := length steps |}.

(** [run_task]: any exception of the body becomes
    [HTTPException(status_code=500, detail=str(exc))], represented by
    its detail. *)
Definition run_task (task : string) : M response :=
  attempt <- try (run_body task) ;;
  match attempt with
  | Ok r => ret r
  | Raised exc => raise exc
  end.

End Orchestrator.

(** * Vocabulary of the properties *)

(** ** Steps, results and traces *)

Definition hashable (v : value) : bool :=
  match v with VList _ | VDict _ => false | _ => true end.

(** The steps of a plan, when they are a list of dicts. *)
Definition plan_steps (plan : dict) (steps : list dict) : Prop :=
  Py.get_default plan "steps" (VList []) = VList (VDict <$> steps).

(** The tool of every step is a string, or at least something that can be
    looked up in the registry. *)
Definition tools_hashable (steps : list dict) : Prop :=
  Forall (fun step => hashable (Py.get step "tool") = true) steps.

(** The key under which [retry_failed] files a step: its id. *)
Definition step_key (step : dict) : option Py.hkey :=
  match Py.lookup step "id" with
  | Some id => match Py.hash_key id with Ok k => Some k | Raised _ => None end
  | None => None
  end.

Definition ids_hashable (steps : list dict) : Prop :=
  Forall (fun step => is_Some (step_key step)) steps.

(** A result names the step it is the result of. *)
Definition describes (step result : dict) : Prop :=
  Py.get result "step_id" = Py.get step "id"
  /\ Py.get result "tool" = Py.get step "tool"
  /\ Py.get result "args" = Py.or (Py.get step "args") (VDict []).

(** A StepResult: a duration, and either an output or an error message,
    as its status says. *)
Definition well_formed_result (result : dict) : Prop :=
  (exists ms, Py.get result "duration_ms" = VInt ms)
  /\ ((Py.get result "status" = VStr "success"
       /\ Py.contains result "output" = true /\ Py.contains result "error" = false)
      \/ (Py.get result "status" = VStr "error"
          /\ Py.contains result "output" = false
          /\ exists msg, Py.get result "error" = VStr msg)).


Definition is_tool_event (ev : event) : Prop :=
  match ev with EvTool _ _ => True | _ => False end.

(** The events of one pass after planning: tool calls, and calls of the
    verifier's oracle about [task]. *)
Definition pass_event (task : string) (ev : event) : Prop :=
  match ev with
  | EvTool _ _ => True
  | EvVerifier t _ _ => t = task
  | EvPlanner _ => False
  end.

(** The events of a run: the planner, one pass, and at most once more the
    planner and a pass. *)
Definition run_trace (task : string) (evs : list event) : Prop :=
  exists first,
    Forall (pass_event task) first
    /\ (evs = EvPlanner task :: first
        \/ exists replan_task second,
             evs = EvPlanner task :: first ++ EvPlanner replan_task :: second
             /\ Forall (pass_event task) second).

(** The tasks put to the planner's oracle, and how many times it was called. *)
Definition planner_tasks (evs : list event) : list string :=
  omap (fun ev => match ev with EvPlanner t => Some t | _ => None end) evs.

Definition planner_calls (evs : list event) : nat := length (planner_tasks evs).

(** The tasks put to the verifier's oracle. *)
Definition verifier_tasks (evs : list event) : list string :=
  omap (fun ev => match ev with EvVerifier t _ _ => Some t | _ => None end) evs.

(** Writing the result of a worker into its slot. *)
Definition place (results : list (option dict)) (done : nat * dict) : list (option dict) :=
  <[done.1 := Some done.2]> results.

(** The future of a worker that returned. *)
Definition in_future (p : nat * dict) : nat * outcome dict := (p.1, Ok p.2).

(** ** Sources *)




(** ** Plans *)

(** The id of the step at a position (counted from 1): its own when it
    has one, ["step_<position>"] otherwise. *)
Definition assigned_id (position : nat) (step : dict) : value :=
  if Py.truthy (Py.get step "id") then Py.get step "id"
  else VStr ("step_" +:+ pretty position).

(** The ids of the steps of a normalized plan. *)
Definition step_ids (steps : list dict) : list value :=
  (fun step => Py.get step "id") <$> steps.

(** No id the oracle supplied is the id of another step. *)
Definition supplied_ids_distinct (steps : list dict) : Prop :=
  forall i j si sj,
    i <> j -> steps !! i = Some si -> steps !! j = Some sj ->
    Py.truthy (Py.get si "id") = true ->
    assigned_id (S j) sj <> Py.get si "id".

(** ** Runs *)

(** What a pass of the pipeline produced. *)
Record pass : Type := Pass {
  pass_plan : dict;
  pass_steps : list dict;
  pass_final : dict;
}.

(** The envelope [run_task] attaches for a replan. *)
Definition envelope_of (replan_task : string) (p : pass) : envelope :=
  {| env_triggered := true;
     env_reason := "Previous attempt incomplete";
     env_task := replan_task;
     env_plan := pass_plan p;
     env_steps := pass_steps p;
     env_final := pass_final p |}.

(** The response carries the plan, steps and verification of [p]. *)
Definition returns_pass (resp : response) (p : pass) : Prop :=
  resp_plan resp = pass_plan p
  /\ resp_steps resp = pass_steps p
  /\ resp_final resp = pass_final p.

(** A successful result of the text-generation tool. *)
Definition llm_success (result : dict) : Prop :=
  Py.get result "tool" = VStr "llm_generate" /\ Py.get result "status" = VStr "success".

(** A character of one byte that is not whitespace. *)
Definition plain (c : ascii) : bool :=
  negb (Py.is_space c) && (nat_of_ascii c <? 128)%nat.

(** A text that starts with a plain character and ends with a full
    stop. *)
Definition sentence (s : string) : Prop :=
  (exists c rest, s = String c rest /\ plain c = true)
  /\ exists body, s = body +:+ ".".

Section Vocabulary.
Context `{Host}.

(** From [s] to [s'] the trace grew by events that satisfy [P]. *)
Definition adds (P : event -> Prop) (s s' : state) : Prop :=
  exists evs, trace s' = trace s ++ evs /\ Forall P evs.

(** What the run of steps leaves in the trace: the calls of their tools. *)
Definition tool_calls_only (s s' : state) : Prop := adds is_tool_event s s'.

(** The three results [_run_step] can build. *)
Definition unknown_result (step : dict) (ms : Z) : dict :=
  [("step_id", Py.get step "id");
   ("tool", Py.get step "tool");
   ("args", Py.or (Py.get step "args") (VDict []));
   ("status", VStr "error");
   ("error", VStr ("Unknown tool: " +:+ py_str (Py.get step "tool")));
   ("duration_ms", VInt ms)].

Definition error_result (step : dict) (msg : string) (ms : Z) : dict :=
  [("step_id", Py.get step "id");
   ("tool", Py.get step "tool");
   ("args", Py.or (Py.get step "args") (VDict []));
   ("status", VStr "error");
   ("error", VStr msg);
   ("duration_ms", VInt ms)].

Definition success_result (step : dict) (output : value) (ms : Z) : dict :=
  [("step_id", Py.get step "id");
   ("tool", Py.get step "tool");
   ("args", Py.or (Py.get step "args") (VDict []));
   ("status", VStr "success");
   ("output", output);
   ("duration_ms", VInt ms)].

(** [result] is what a run of [_run_step] made of [step]. *)
Definition produced (step result : dict) : Prop :=
  exists st st', _run_step step st = (Ok result, st').

(** How [retry_failed] treats one result, given the steps of the plan. *)
Inductive retried (steps : list dict) (result : dict) : dict -> Prop :=
| retried_not_error :
    Py.eq_str (Py.get result "status") "error" = false ->
    retried steps result result
| retried_stale k :
    Py.eq_str (Py.get result "status") "error" = true ->
    Py.hash_key (Py.get result "step_id") = Ok k ->
    (forall step, step ∈ steps -> step_key step <> Some k) ->
    retried steps result result
| retried_rerun k step fresh :
    Py.eq_str (Py.get result "status") "error" = true ->
    Py.hash_key (Py.get result "step_id") = Ok k ->
    step ∈ steps ->
    step_key step = Some k ->
    produced step fresh ->
    retried steps result fresh.

(** One pass: plan, execute, verify (always about the original task). *)
Definition pass_ran (planned_task task : string) (s : state) (p : pass) (s' : state)
  : Prop :=
  exists s1 s2,
    create_plan planned_task s = (Ok (pass_plan p), s1)
    /\ execute (pass_plan p) s1 = (Ok (pass_steps p), s2)
    /\ verify task (pass_plan p) (pass_steps p) s2 = (Ok (pass_final p), s').

(** The text of a result of the text-generation tool, as [verify] reads it. *)
Definition generated_text (output : dict) : string :=
  Py.strip (py_str (Py.or (Py.get output "text") (VStr ""))).

(** Whether the single-tool narration takes over. *)
Definition speech_applies (tools_used : gset Py.hkey) (repaired : list dict) : Prop :=
  tools_used = {[Py.KStr "llm_generate"]} /\ find_speech repaired <> "".

(** The [source_url] of a successful output, when it has one. *)
Definition source_url_of (result : dict) : list value :=
  if Py.eq_str (Py.get result "status") "success" then
    match Py.get result "output" with
    | VDict output =>
        if Py.truthy (Py.get output "source_url")
        then [Py.get output "source_url"] else []
    | _ => []
    end
  else [].

(** The [url] of every item a successful repository search returned. *)
Definition item_urls_of (result : dict) : list value :=
  if Py.eq_str (Py.get result "status") "success"
     && Py.eq_str (Py.get result "tool") "github_search" then
    match Py.get result "output" with
    | VDict output =>
        match Py.get_default output "items" (VList []) with
        | VList items => repo_urls (dict_items items)
        | _ => []
        end
    | _ => []
    end
  else [].

(** All [source_url] values in the order of the steps, then all the
    urls of repository items. *)
Definition declared_sources (repaired_results : list dict) : list value :=
  concat (source_url_of <$> repaired_results)
  ++ concat (item_urls_of <$> repaired_results).

(** The name under which a repository item is listed. *)
Definition listed_name (item : dict) : value :=
  Py.or (Py.get item "full_name") (Py.get item "name").

(** An item can be listed when it has a name and a url. *)
Definition listable (item : dict) : bool :=
  Py.truthy (listed_name item) && Py.truthy (Py.get item "url").

(** ["<name> (<url>, <stars>★)"] when the star count is present,
    ["<name> (<url>)"] otherwise. *)
Definition entry_of (item : dict) : string :=
  py_str (listed_name item) +:+ " (" +:+ py_str (Py.get item "url")
  +:+ (if Py.is_not_none (Py.get item "stars")
       then ", " +:+ py_str (Py.get item "stars") +:+ "★" else "")
  +:+ ")".

(** The sentence on repositories: those of the first three items that
    can be listed. *)
Definition repositories_sentence (items : list dict) : option string :=
  match filter (fun item => Is_true (listable item)) (take 3 items) with
  | [] => None
  | shown => Some ("Top repositories: " +:+ Py.join "; " (entry_of <$> shown) +:+ ".")
  end.

(** The same sentence read to the letter: every one of the first three
    items is listed as soon as an item exists. *)
Definition repositories_sentence_as_stated (items : list dict) : option string :=
  match items with
  | [] => None
  | _ => Some ("Top repositories: " +:+ Py.join "; " (entry_of <$> take 3 items) +:+ ".")
  end.

(** The sentence on the weather, every missing field left out. *)
Definition weather_report (info : dict) : string :=
  let location := Py.get info "location" in
  let summary := Py.get info "weather_summary" in
  let temp := Py.get info "temperature_c" in
  let wind := Py.get info "wind_kph" in
  let place := if Py.truthy location then " in " +:+ py_str location else "" in
  let fields :=
    (if Py.truthy summary then [py_str summary] else [])
    ++ (if Py.is_not_none temp then [py_str temp +:+ "°C"] else [])
    ++ (if Py.is_not_none wind then ["wind " +:+ py_str wind +:+ " kph"] else []) in
  if Py.truthy summary || Py.is_not_none temp
  then "Current weather" +:+ place +:+ ": " +:+ Py.join ", " fields +:+ "."
  else "Current weather" +:+ place +:+ ".".

(** The composed answer: the repositories first, then the weather. *)
Definition composed_answer (repositories : option string) (weather : option dict)
  : option string :=
  match repositories, weather with
  | Some r, Some info => Some (r +:+ " " +:+ weather_report info)
  | Some r, None => Some r
  | None, Some info => Some (weather_report info)
  | None, None => None
  end.

(** The line of the corrective task that an error result contributes. *)
Definition error_entry (result : dict) : string :=
  py_str (Py.or (Py.get result "tool") (VStr "unknown_tool"))
  +:+ ": " +:+ py_str (Py.or (Py.get result "error") (VStr "unknown error")).

End Vocabulary.

(** * A small world to run the agents in *)

(** Three tools that answer from fixed data, so that the agents can be
    evaluated: the state of the world is the number of tool calls made so
    far; the weather service fails on the very first call, the repository
    search fails for the query ["down"]. *)
Module Demo.

Definition weather_output : value :=
  VDict [("location", VStr "Pune, India");
         ("temperature_c", VInt 30);
         ("wind_kph", VInt 12);
         ("weather_code", VInt 0);
         ("weather_summary", VStr "Clear sky");
         ("source_url", VStr "https://api.open-meteo.com/v1/forecast?latitude=18")].

Definition repository (name : string) (stars : Z) : value :=
  VDict [("name", VStr name);
         ("full_name", VStr ("rocq-prover/" +:+ name));
         ("url", VStr ("https://github.com/rocq-prover/" +:+ name));
         ("stars", VInt stars);
         ("description", VNone);
         ("language", VStr "OCaml")].

Definition search_output : value :=
  VDict [("query", VStr "rocq");
         ("total_count", VInt 3);
         ("items", VList [repository "rocq" 100; repository "stdlib" 50;
                          repository "opam" 10]);
         ("source_url", VStr "https://api.github.com/search/repositories?q=rocq")].

Definition get_current_weather (args : value) (calls : nat) : outcome value * nat :=
  if (calls =? 0)%nat then (Raised "request timed out", S calls)
  else (Ok weather_output, S calls).

Definition search_repositories (args : value) (calls : nat) : outcome value * nat :=
  match args with
  | VDict a =>
      if Py.eq_str (Py.get a "query") "down"
      then (Raised "403 Client Error: rate limit exceeded", S calls)
      else (Ok search_output, S calls)
  | _ => (Raised "argument after ** must be a mapping", S calls)
  end.

Definition generate_text (args : value) (calls : nat) : outcome value * nat :=
  (Ok (VDict [("text", VStr "Hello World")]), S calls).

Definition registry : gmap string (value -> nat -> outcome value * nat) :=
  {[ "github_search" := search_repositories;
     "weather_current" := get_current_weather;
     "llm_generate" := generate_text ]}.

(** The planner's oracle: a speech for the task ["intro"], otherwise a
    search that is down and the weather, the second step left without id. *)
Definition planner_reply (task : string) : value :=
  if String.eqb task "intro" then
    VDict [("goal", VStr "Write an introduction");
           ("steps", VList [VDict [("tool", VStr "llm_generate");
                                   ("args", VDict [("instruction", VStr "intro")])]])]
  else
    VDict [("steps", VList [VDict [("id", VStr "search");
                                   ("tool", VStr "github_search");
                                   ("args", VDict [("query", VStr "down")])];
                            VDict [("tool", VStr "weather_current");
                                   ("args", VDict [("city", VStr "Pune")])]])].

(** The verifier's oracle always says the same. *)
Definition verifier_reply : value :=
  VDict [("final_answer", VStr "from oracle");
         ("data", VDict [("note", VStr "oracle")]);
         ("completeness", VStr "complete")].

(** The pool completes its workers last first. *)
Definition order (calls : nat) (n : nat) : list nat := rev (seq 0 n).

Definition order_perm (calls : nat) (n : nat) : Permutation (order calls n) (seq 0 n) :=
  Permutation_sym (Permutation_rev (seq 0 n)).

Definition host : Host :=
  {| W := nat;
     instant := nat;
     perf_counter := fun calls => (calls, calls);
     elapsed_ms := fun start stop => Z.of_nat (stop - start);
     TOOL_REGISTRY := registry;
     planner_chat_json := fun task calls => (Ok (planner_reply task), calls);
     verifier_chat_json := fun task plan compact calls => (Ok verifier_reply, calls);
     pool_order := order;
     pool_order_perm := order_perm;
     container_str := fun _ => "<container>";
     int_of_str := fun _ => None |}.

Definition start : @state host := @St host 0%nat [].

(** What a computation returned, [d] when it raised. *)
Definition returned {A} (d : A) (r : outcome A * @state host) : A :=
  match r.1 with Ok a => a | Raised _ => d end.

(** *** Steps and plans *)

Definition step (id tool : string) (args : dict) : dict :=
  [("id", VStr id); ("tool", VStr tool); ("args", VDict args); ("purpose", VStr "")].

Definition plan_of (steps : list dict) : dict :=
  [("goal", VStr "demo"); ("steps", VList (VDict <$> steps))].

(** A tool nobody registered, a speech, the weather. *)
Definition mixed_steps : list dict :=
  [step "step_1" "translate" [("text", VStr "bonjour")];
   step "step_2" "llm_generate" [("instruction", VStr "intro")];
   step "step_3" "weather_current" [("city", VStr "Pune")]].

Definition down_steps : list dict :=
  [step "search" "github_search" [("query", VStr "down")];
   step "step_2" "weather_current" [("city", VStr "Pune")]].

Definition speech_steps : list dict :=
  [step "step_1" "llm_generate" [("instruction", VStr "intro")]].

Definition search_steps : list dict :=
  [step "step_1" "github_search" [("query", VStr "rocq")];
   step "step_2" "weather_current" [("city", VStr "Pune")]].

Definition result (step_id tool status : string) (payload : string * value) : dict :=
  [("step_id", VStr step_id); ("tool", VStr tool); ("args", VDict []);
   ("status", VStr status); payload; ("duration_ms", VInt 1)].

(** *** Results handed to [retry_failed] and [verify] *)

Definition failed_search : dict :=
  result "search" "github_search" "error" ("error", VStr "rate limit exceeded").

(** An error about a step the plan does not have. *)
Definition stale_error : dict :=
  result "gone" "weather_current" "error" ("error", VStr "request timed out").

Definition good_weather : dict :=
  result "step_2" "weather_current" "success" ("output", weather_output).

Definition good_search : dict :=
  result "step_1" "github_search" "success" ("output", search_output).

Definition good_speech : dict :=
  result "step_1" "llm_generate" "success" ("output", VDict [("text", VStr "Hello World")]).

(** A speech whose output also names a source. *)
Definition sourced_speech : dict :=
  result "step_1" "llm_generate" "success"
         ("output", VDict [("text", VStr "Hello World");
                           ("source_url", VStr "https://example.org/speech")]).

(** The no-break space U+00A0 and the em space U+2003, in UTF-8. *)
Definition nbsp : string :=
  String (ascii_of_nat 194) (String (ascii_of_nat 160) EmptyString).

Definition em_space : string :=
  String (ascii_of_nat 226) (String (ascii_of_nat 128) (String (ascii_of_nat 131) EmptyString)).

(** A speech with a no-break space between its two words and spaces that
    are not ASCII around them. *)
Definition spaced_speech : dict :=
  result "step_1" "llm_generate" "success"
         ("output", VDict [("text", VStr (nbsp +:+ "Hello" +:+ nbsp +:+ "World" +:+ em_space))]).

(** A speech that is a no-break space and nothing else, with a source. *)
Definition blank_sourced_speech : dict :=
  result "step_1" "llm_generate" "success"
         ("output", VDict [("text", VStr nbsp);
                           ("source_url", VStr "https://example.org/speech")]).

(** A search that returned one item without a url. *)
Definition nameless_search : dict :=
  result "step_1" "github_search" "success"
         ("output", VDict [("items", VList [VDict [("name", VStr "rocq")]])]).

(** *** What the oracle of the planner may send *)

Definition reply_without_ids : value :=
  VDict [("steps", VList [VDict [("tool", VStr "llm_generate")];
                          VDict [("id", VStr "fetch"); ("tool", VStr "weather_current")]])].

Definition reply_with_equal_ids : value :=
  VDict [("steps", VList [VDict [("id", VStr "a"); ("tool", VStr "llm_generate")];
                          VDict [("id", VStr "a"); ("tool", VStr "weather_current")]])].

(** *** Outcomes, evaluated *)

Definition executed_mixed : list dict :=
  Eval vm_compute in returned [] (execute (H:=host) (plan_of mixed_steps) start).

Definition retried_down : list dict :=
  Eval vm_compute in
    returned [] (retry_failed (H:=host) (plan_of down_steps)
                              [failed_search; stale_error; good_weather] start).

Definition verified_down : dict :=
  Eval vm_compute in
    returned [] (verify (H:=host) "status" (plan_of down_steps) [failed_search] start).

Definition verified_speech : dict :=
  Eval vm_compute in
    returned [] (verify (H:=host) "intro" (plan_of speech_steps) [good_speech] start).

Definition verified_search : dict :=
  Eval vm_compute in
    returned [] (verify (H:=host) "repos and weather" (plan_of search_steps)
                        [good_search; good_search; good_weather] start).

Definition verified_sourced_speech : dict :=
  Eval vm_compute in
    returned [] (verify (H:=host) "intro" (plan_of speech_steps) [sourced_speech] start).

Definition verified_spaced_speech : dict :=
  Eval vm_compute in
    returned [] (verify (H:=host) "intro" (plan_of speech_steps) [spaced_speech] start).

Definition verified_blank_speech : dict :=
  Eval vm_compute in
    returned [] (verify (H:=host) "intro" (plan_of speech_steps) [blank_sourced_speech] start).

Definition verified_nameless : dict :=
  Eval vm_compute in
    returned [] (verify (H:=host) "repos" (plan_of search_steps) [nameless_search] start).

Definition empty_response : response :=
  {| resp_task := ""; resp_plan := []; resp_steps := []; resp_final := [];
     resp_auto_replan := None; resp_tool_execution_ms := 0; resp_tool_count := 0 |}.

Definition status_run : outcome response * @state host :=
  Eval vm_compute in run_task (H:=host) "status" start.

Definition status_response : response :=
  Eval vm_compute in returned empty_response status_run.

Definition normalized_without_ids : dict :=
  Eval vm_compute in
    match _normalize_plan (H:=host) reply_without_ids "t" with
    | Ok p => p | Raised _ => []
    end.

Definition normalized_with_equal_ids : dict :=
  Eval vm_compute in
    match _normalize_plan (H:=host) reply_with_equal_ids "t" with
    | Ok p => p | Raised _ => []
    end.

End Demo.

(** * The rest of the program: LLM client, tools, and the other endpoints

    [llm/client.py], [tools/github.py], [tools/weather.py],
    [tools/llm_generate.py], the prompts of [llm/prompts.py] that the
    endpoints use, and the [/suggest], [/enhance] and [/explain] handlers
    of [main.py].  This code runs below the agents: a tool is what the
    registry holds, a function of the world that returns or raises. *)

(** ** The services it reaches *)

(** What the code reads of a [requests.Response]. *)
Record http_response : Type := HttpResponse {
  (** the message of the [HTTPError] that [raise_for_status()] raises,
      when the status is an error *)
  status_error : option string;
  (** [response.json()]: the decoded body, or the message of the
      exception that decoding raises *)
  json_body : outcome value;
  (** [response.url] *)
  final_url : string;
}.

(** The keyword arguments of [client.chat.completions.create]. *)
Record chat_request : Type := ChatRequest {
  req_model : string;
  req_system : string;
  req_user : string;
  (** the temperature, in tenths *)
  req_temperature : Z;
  (** [response_format={"type": "json_object"}] was passed *)
  req_json_object : bool;
}.

Class Services `{Host} : Type := {
  (** [os.getenv(name)] *)
  getenv : string -> W -> option string;
  (** [requests.get(url, params=params, headers=headers, timeout=timeout)];
      [headers] is [None] when the call passes none *)
  requests_get : string -> dict -> option dict -> Z -> W -> outcome http_response * W;
  (** an [OpenAI] client object *)
  connection : Type;
  (** [OpenAI(api_key=api_key, base_url=base_url)]; [base_url] is [None]
      when the keyword is left out *)
  OpenAI : option string -> option string -> W -> outcome connection * W;
  (** [client.chat.completions.create(...).choices[0].message.content]:
      the content of the first choice, which may be [None], or the
      exception of the call *)
  completions_create : connection -> chat_request -> W -> outcome (option string) * W;
  (** [json.loads(text)], [None] when it raises [JSONDecodeError] *)
  json_loads : string -> option value;
  (** [json.dumps(x, indent=2)] *)
  json_dumps : value -> string;
}.

(** A computation on the world that returns or raises. *)
Definition IO `{Host} (A : Type) : Type := W -> outcome A * W.

Section IOMonad.
Context `{Host}.

Definition io_ret {A} (a : A) : IO A := fun w => (Ok a, w).

Definition io_raise {A} (e : exn) : IO A := fun w => (Raised e, w).

Definition io_bind {A B} (m : IO A) (k : A -> IO B) : IO B :=
  fun w =>
    match m w with
    | (Ok a, w') => k a w'
    | (Raised e, w') => (Raised e, w')
    end.

Definition io_lift {A} (r : outcome A) : IO A :=
  match r with Ok a => io_ret a | Raised e => io_raise e end.

(** Reading the world without changing it. *)
Definition io_read {A} (f : W -> A) : IO A := fun w => (Ok (f w), w).

End IOMonad.

Notation "x <~ m ;; k" := (io_bind m (fun x => k))
  (at level 100, m at next level, right associativity) : py_scope.

(** ** llm/client.py *)

Section Client.
Context `{Services}.

(** The first ["{"] of a text and what follows it. *)
Fixpoint from_first_brace (text : string) : option string :=
  match text with
  | EmptyString => None
  | String c rest =>
      if Ascii.eqb c "{" then Some text else from_first_brace rest
  end.

(** A text up to its last ["}"]. *)
Fixpoint upto_last_brace (text : string) : option string :=
  match text with
  | EmptyString => None
  | String c rest =>
      match upto_last_brace rest with
      | Some kept => Some (String c kept)
      | None => if Ascii.eqb c "}" then Some (String c EmptyString) else None
      end
  end.

(** [re.search(r"\{.*\}", text, flags=re.DOTALL)]: the match starts at
    the first ["{"] and, [.*] being greedy and matching any character,
    ends at the last ["}"] after it. *)
Definition brace_match (text : string) : option string :=
  match from_first_brace text with
  | Some rest => upto_last_brace rest
  | None => None
  end.

Definition _extract_json (text : string) : option value :=
  match brace_match text with
  | None => None
  | Some group => json_loads group
  end.

Definition _default_base_url : string := "https://api.groq.com/openai/v1".

(** [needle in text] *)
Fixpoint contains_text (needle text : string) : bool :=
  String.prefix needle text
  || match text with
     | EmptyString => false
     | String _ rest => contains_text needle rest
     end.

Definition _default_model (base_url : option string) : string :=
  match base_url with
  | Some url =>
      if negb (String.eqb url "") && contains_text "api.groq.com" url
      then "llama-3.1-8b-instant"
      else "gpt-4o-mini"
  | None => "gpt-4o-mini"
  end.

(** [a or b] when [a] is a string or [None]. *)
Definition or_str (a b : option string) : option string :=
  match a with
  | Some s => if String.eqb s "" then b else a
  | None => b
  end.

(** [a or b] when [b] is a string. *)
Definition or_else (a : option string) (b : string) : string :=
  match a with
  | Some s => if String.eqb s "" then b else s
  | None => b
  end.

Record LLMClient : Type := Client {
  self_model : string;
  self_client : connection;
}.

(** [LLMClient(model)] *)
Definition new_LLMClient (model : option string) : IO LLMClient :=
  base_url <~ io_read (fun w => or_else (getenv "LLM_BASE_URL" w)
                                  (or_else (getenv "OPENAI_BASE_URL" w)
                                           _default_base_url)) ;;
  model_env <~ io_read (fun w => or_str (getenv "LLM_MODEL" w) (getenv "OPENAI_MODEL" w)) ;;
  let model := or_else model (or_else model_env (_default_model (Some base_url))) in
  api_key <~ io_read (fun w => or_str (getenv "LLM_API_KEY" w) (getenv "OPENAI_API_KEY" w)) ;;
  client <~ OpenAI api_key (if negb (String.eqb base_url "") then Some base_url else None) ;;
  io_ret {| self_model := model; self_client := client |}.

(** The loop of [chat_json]: [attempts] is what is left of
    [range(max_retries + 1)].  The call of the API is outside the [try]:
    its exception leaves the loop. *)
Fixpoint chat_json_loop (self : LLMClient) (system_prompt user_prompt : string)
    (attempts : nat) : IO value :=
  match attempts with
  | O => io_raise "LLM did not return valid JSON"
  | S rest =>
      reply <~ completions_create (self_client self)
                 {| req_model := self_model self;
                    req_system := system_prompt;
                    req_user := user_prompt;
                    req_temperature := 2;
                    req_json_object := true |} ;;
      let content := or_else reply "" in
      match json_loads content with
      | Some parsed => io_ret parsed
      | None =>
          match _extract_json content with
          | Some extracted => io_ret extracted
          | None => chat_json_loop self system_prompt user_prompt rest
          end
      end
  end.

Definition chat_json (self : LLMClient) (system_prompt user_prompt : string)
    (max_retries : Z) : IO value :=
  chat_json_loop self system_prompt user_prompt (Z.to_nat (max_retries + 1)).

(** The loop of [chat_text]: here the call of the API is inside the
    [try], every exception starts the next turn. *)
Fixpoint chat_text_loop (self : LLMClient) (system_prompt user_prompt : string)
    (attempts : nat) : IO string :=
  match attempts with
  | O => io_raise "LLM did not return text"
  | S rest =>
      fun w =>
        match completions_create (self_client self)
                {| req_model := self_model self;
                   req_system := system_prompt;
                   req_user := user_prompt;
                   req_temperature := 7;
                   req_json_object := false |} w with
        | (Ok reply, w') => (Ok (or_else reply ""), w')
        | (Raised _, w') => chat_text_loop self system_prompt user_prompt rest w'
        end
  end.

Definition chat_text (self : LLMClient) (system_prompt user_prompt : string)
    (max_retries : Z) : IO string :=
  chat_text_loop self system_prompt user_prompt (Z.to_nat (max_retries + 1)).

End Client.

(** ** tools/github.py *)

Section Tools.
Context `{Services}.

(** [raise_for_status()] then [json()] *)
Definition checked_json (response : http_response) : outcome value :=
  match status_error response with
  | Some e => Raised e
  | None => json_body response
  end.

(** [xs[:n]] on a list, for any integer [n]. *)
Definition list_upto {A} (n : Z) (xs : list A) : list A :=
  if n <? 0 then take (Z.to_nat (Z.of_nat (length xs) + n)) xs
  else take (Z.to_nat n) xs.

(** [items[:n]], then iterated. *)
Definition slice_upto (n : Z) (items : value) : outcome (list value) :=
  match items with
  | VList l => Ok (list_upto n l)
  | VStr s => Ok (list_upto n (Py.chars s))
  | VDict _ => Raised "unhashable type: 'slice'"
  | _ => Raised ("'" +:+ Py.type_name items +:+ "' object is not subscriptable")
  end.

(** One turn of the loop over the items of the response. *)
Definition repository_entry (item : value) : outcome value :=
  match as_dict item with
  | Raised e => Raised e
  | Ok d => Ok (VDict [("name", Py.get d "name");
                       ("full_name", Py.get d "full_name");
                       ("url", Py.get d "html_url");
                       ("stars", Py.get d "stargazers_count");
                       ("description", Py.get d "description");
                       ("language", Py.get d "language")])
  end.

Fixpoint repository_entries (items : list value) : outcome (list value) :=
  match items with
  | [] => Ok []
  | item :: rest =>
      match repository_entry item with
      | Raised e => Raised e
      | Ok entry =>
          match repository_entries rest with
          | Raised e => Raised e
          | Ok entries => Ok (entry :: entries)
          end
      end
  end.

(** [search_repositories(query, top_n)]; the caller passes [5] for a
    [top_n] left out. *)
Definition search_repositories (query top_n : value) : IO value :=
  let top_n := match py_int top_n with Ok n => n | Raised _ => 5 end in
  let url := "https://api.github.com/search/repositories" in
  let params := [("q", query); ("sort", VStr "stars"); ("order", VStr "desc");
                 ("per_page", VInt top_n)] in
  token <~ io_read (getenv "GITHUB_TOKEN") ;;
  let headers :=
    match token with
    | Some t =>
        if negb (String.eqb t "")
        then [("Accept", VStr "application/vnd.github+json");
              ("Authorization", VStr ("Bearer " +:+ t))]
        else [("Accept", VStr "application/vnd.github+json")]
    | None => [("Accept", VStr "application/vnd.github+json")]
    end in
  response <~ requests_get url params (Some headers) 20 ;;
  data <~ io_lift (checked_json response) ;;
  d <~ io_lift (as_dict data) ;;
  first <~ io_lift (slice_upto top_n (Py.get_default d "items" (VList []))) ;;
  items <~ io_lift (repository_entries first) ;;
  io_ret (VDict [("query", query);
                 ("total_count", Py.get d "total_count");
                 ("items", VList items);
                 ("source_url", VStr (final_url response))]).

(** ** tools/weather.py *)

Definition WEATHER_CODE_MAP : gmap Z string :=
  list_to_map
    [(0, "Clear sky"); (1, "Mainly clear"); (2, "Partly cloudy"); (3, "Overcast");
     (45, "Fog"); (48, "Depositing rime fog");
     (51, "Light drizzle"); (53, "Moderate drizzle"); (55, "Dense drizzle");
     (61, "Slight rain"); (63, "Moderate rain"); (65, "Heavy rain");
     (71, "Slight snow fall"); (73, "Moderate snow fall"); (75, "Heavy snow fall");
     (80, "Rain showers"); (81, "Heavy rain showers"); (95, "Thunderstorm")].

(** [results[0]] for a [results] that is truthy. *)
Definition first_of (results : value) : outcome value :=
  match results with
  | VList (x :: _) => Ok x
  | VList [] => Raised "list index out of range"
  | VStr (String c _) => Ok (VStr (String c EmptyString))
  | VStr EmptyString => Raised "string index out of range"
  | VDict _ => Raised "0"
  | _ => Raised ("'" +:+ Py.type_name results +:+ "' object is not subscriptable")
  end.

Definition _geocode_city (city : value) : IO dict :=
  let url := "https://geocoding-api.open-meteo.com/v1/search" in
  let params := [("name", city); ("count", VInt 1); ("language", VStr "en");
                 ("format", VStr "json")] in
  response <~ requests_get url params None 20 ;;
  data <~ io_lift (checked_json response) ;;
  d <~ io_lift (as_dict data) ;;
  let results := Py.get_default d "results" (VList []) in
  if negb (Py.truthy results) then
    io_raise ("No geocoding results for city: " +:+ py_str city)
  else
    result <~ io_lift (first_of results) ;;
    r <~ io_lift (as_dict result) ;;
    io_ret [("name", Py.get r "name");
            ("country", Py.get r "country");
            ("latitude", Py.get r "latitude");
            ("longitude", Py.get r "longitude")].

(** [WEATHER_CODE_MAP.get(code, "Unknown conditions")] *)
Definition weather_summary_of (code : value) : outcome string :=
  match Py.hash_key code with
  | Raised e => Raised e
  | Ok (Py.KNum n) => Ok (default "Unknown conditions" (WEATHER_CODE_MAP !! n))
  | Ok _ => Ok "Unknown conditions"
  end.

Definition get_current_weather (city : value) : IO value :=
  geo <~ _geocode_city city ;;
  let url := "https://api.open-meteo.com/v1/forecast" in
  let params := [("latitude", Py.get geo "latitude");
                 ("longitude", Py.get geo "longitude");
                 ("current", VStr "temperature_2m,wind_speed_10m,weather_code")] in
  response <~ requests_get url params None 20 ;;
  data <~ io_lift (checked_json response) ;;
  d <~ io_lift (as_dict data) ;;
  current <~ io_lift (as_dict (Py.get_default d "current" (VDict []))) ;;
  let code := Py.get current "weather_code" in
  summary <~ io_lift (weather_summary_of code) ;;
  io_ret (VDict [("location", VStr (py_str (Py.get geo "name") +:+ ", "
                                    +:+ py_str (Py.get geo "country")));
                 ("temperature_c", Py.get current "temperature_2m");
                 ("wind_kph", Py.get current "wind_speed_10m");
                 ("weather_code", code);
                 ("weather_summary", VStr summary);
                 ("source_url", VStr (final_url response))]).

(** ** tools/llm_generate.py *)

Definition generate_text (instruction : string) : IO value :=
  client <~ new_LLMClient None ;;
  let system_prompt :=
    "You are a helpful assistant that writes clear, concise content. "
    +:+ "Follow the user's instruction and keep the response direct." in
  text <~ chat_text client system_prompt instruction 1 ;;
  io_ret (VDict [("text", VStr (Py.strip text))]).

End Tools.

(** ** llm/prompts.py and tools/registry.py: what the endpoints send *)

Definition TOOL_SPECS : value :=
  VList
    [VDict [("name", VStr "github_search");
            ("description", VStr "Search GitHub repositories by keyword.");
            ("args", VDict [("query", VStr "string search query");
                            ("top_n", VStr "integer, number of repos to return")])];
     VDict [("name", VStr "weather_current");
            ("description", VStr "Get current weather by city name.");
            ("args", VDict [("city", VStr "string city name, e.g. Mumbai")])];
     VDict [("name", VStr "llm_generate");
            ("description", VStr "Generate a text response for general writing tasks.");
            ("args", VDict [("instruction",
                             VStr "string instruction, e.g. Write a 60-second intro speech.")])]].

Definition SUGGEST_SYSTEM : string :=
  "You suggest helpful follow-up prompts based on the user's task. "
  +:+ "Output valid JSON only.".

Definition ENHANCE_SYSTEM : string :=
  "You rewrite user prompts to be clearer and more tool-ready. "
  +:+ "Output valid JSON only.".

Definition EXPLAIN_SYSTEM : string :=
  "You explain AI tool outputs in simple language for a non-technical user. "
  +:+ "Output valid JSON only.".

Section Endpoints.
Context `{Services}.

Definition build_suggest_user_prompt (task : string) (tool_specs : value) : string :=
  "Task: " +:+ task +:+ newline +:+ newline
  +:+ "Available tools (JSON):" +:+ newline +:+ json_dumps tool_specs +:+ newline +:+ newline
  +:+ "Return 3-5 short, similar prompts that can be solved using the tools." +:+ newline
  +:+ "Return a JSON object matching this schema:" +:+ newline
  +:+ json_dumps (VDict [("suggestions", VList [VStr "string"])]) +:+ newline
  +:+ "Rules:" +:+ newline
  +:+ "- Keep each suggestion under 120 characters." +:+ newline
  +:+ "- Use only relevant tools." +:+ newline
  +:+ "- Do not include any text outside JSON.".

Definition build_enhance_user_prompt (task : string) (tool_specs : value) : string :=
  "User prompt: " +:+ task +:+ newline +:+ newline
  +:+ "Available tools (JSON):" +:+ newline +:+ json_dumps tool_specs +:+ newline +:+ newline
  +:+ "Rewrite the prompt to be clear, specific, and actionable for the tools." +:+ newline
  +:+ "Return a JSON object matching this schema:" +:+ newline
  +:+ json_dumps (VDict [("enhanced_prompt", VStr "string")]) +:+ newline
  +:+ "Rules:" +:+ newline
  +:+ "- Keep it under 200 characters." +:+ newline
  +:+ "- Preserve user intent." +:+ newline
  +:+ "- Do not include any text outside JSON.".

Definition build_explain_user_prompt (task : string) (final : dict) : string :=
  "User task: " +:+ task +:+ newline +:+ newline
  +:+ "Final output:" +:+ newline +:+ json_dumps (VDict final) +:+ newline +:+ newline
  +:+ "Explain the result in 3-5 short sentences, simple English." +:+ newline
  +:+ "Return a JSON object matching this schema:" +:+ newline
  +:+ json_dumps (VDict [("explanation", VStr "string")]) +:+ newline
  +:+ "Rules:" +:+ newline
  +:+ "- Avoid jargon." +:+ newline
  +:+ "- Keep it under 120 words." +:+ newline
  +:+ "- Do not include any text outside JSON.".

(** ** main.py: [/suggest], [/enhance], [/explain]

    [llm_client] is the client the module created when it was loaded.  As
    in [run_task], any exception of a handler becomes
    [HTTPException(status_code=500, detail=str(exc))], represented by its
    detail. *)

(** [[str(s).strip() for s in suggestions if str(s).strip()]] *)
Definition cleaned_of (suggestions : list value) : list string :=
  filter (fun text => Is_true (negb (String.eqb text "")))
         ((fun s => Py.strip (py_str s)) <$> suggestions).

Definition suggest (llm_client : LLMClient) (task : string) : IO (list string) :=
  let user_prompt := build_suggest_user_prompt task TOOL_SPECS in
  data <~ chat_json llm_client SUGGEST_SYSTEM user_prompt 2 ;;
  d <~ io_lift (as_dict data) ;;
  let suggestions :=
    match Py.get d "suggestions" with
    | VList l => l
    | _ => []
    end in
  io_ret (take 5 (cleaned_of suggestions)).

Definition enhance (llm_client : LLMClient) (task : string) : IO string :=
  let user_prompt := build_enhance_user_prompt task TOOL_SPECS in
  data <~ chat_json llm_client ENHANCE_SYSTEM user_prompt 2 ;;
  d <~ io_lift (as_dict data) ;;
  io_ret (Py.strip (py_str (Py.get_default d "enhanced_prompt" (VStr "")))).

Definition explain (llm_client : LLMClient) (task : string) (final : dict) : IO string :=
  let user_prompt := build_explain_user_prompt task final in
  data <~ chat_json llm_client EXPLAIN_SYSTEM user_prompt 2 ;;
  d <~ io_lift (as_dict data) ;;
  io_ret (Py.strip (py_str (Py.get_default d "explanation" (VStr "")))).

End Endpoints.

(** * More vocabulary: edges of the agents *)

(** The message of the [TypeError] that hashing a list or a dict raises. *)
Definition unhashable_message (v : value) : option string :=
  match v with
  | VList _ => Some "unhashable type: 'list'"
  | VDict _ => Some "unhashable type: 'dict'"
  | _ => None
  end.

(** The result the handler of [execute] builds for a worker that raised:
    it carries no duration. *)
Definition handler_result (step : dict) (msg : string) : dict :=
  [("step_id", Py.get step "id");
   ("tool", Py.get step "tool");
   ("args", Py.or (Py.get step "args") (VDict []));
   ("status", VStr "error");
   ("error", VStr msg)].

(** The result a future leaves in its slot. *)
Definition settled (steps : list dict) (f : nat * outcome dict) : nat * dict :=
  match f.2 with
  | Ok r => (f.1, r)
  | Raised msg => (f.1, handler_result (default [] (steps !! f.1)) msg)
  end.

(** The keys of a dict, in insertion order. *)
Definition keys (d : dict) : list string := d.*1.

(** What [_compact_step_results] keeps of a repository item: five
    fields, the description dropped. *)
Definition trimmed (item : dict) : dict :=
  [("name", Py.get item "name");
   ("full_name", Py.get item "full_name");
   ("url", Py.get item "url");
   ("stars", Py.get item "stars");
   ("language", Py.get item "language")].

(** The keys [verify] writes in the object of the oracle. *)
Definition written_by_verify : list string :=
  ["final_answer"; "data"; "sources"; "limitations"; "completeness"].

(** Whether a text starts with a whitespace character (of one, two or
    three bytes); with [backwards], whether a text read from its end
    does. *)
Definition leading (backwards : bool) (s : string) : bool :=
  match s with
  | EmptyString => false
  | String a rest =>
      Py.is_space a
      || match rest with
         | EmptyString => false
         | String b rest2 =>
             Py.space2 backwards a b
             || match rest2 with
                | EmptyString => false
                | String c _ => Py.space3 backwards a b c
                end
         end
  end.

(** A text with no whitespace character at either end: it starts with
    none, and read from its end it starts with none. *)
Definition stripped (s : string) : Prop :=
  leading false s = false /\ leading true (String.rev s) = false.

(** The character [c] does not occur in [s]. *)
Fixpoint lacks (c : ascii) (s : string) : bool :=
  match s with
  | EmptyString => true
  | String a rest => negb (Ascii.eqb a c) && lacks c rest
  end.

Section MoreVocabulary.
Context `{Host}.

(** What the slot of a step holds when [execute] ran it in the pool. *)
Definition pooled (step result : dict) : Prop :=
  match unhashable_message (Py.get step "tool") with
  | Some msg => result = handler_result step msg
  | None => produced step result
  end.

(** What [execute] returns for a step: the result of its run, or the
    result the pool builds when the run raised. *)
Definition pooled_or_run (step result : dict) : Prop :=
  produced step result \/ exists msg, result = handler_result step msg.

(** A step the planner accepts: a dict whose tool is the name of a
    registered tool. *)
Definition acceptable_step (step : value) : Prop :=
  exists d name,
    step = VDict d /\ Py.get d "tool" = VStr name /\ name <> ""
    /\ is_Some (TOOL_REGISTRY !! name).

(** A plan the planner accepts: a dict whose steps are a list, not
    empty, of acceptable steps. *)
Definition acceptable (plan : value) : Prop :=
  exists p steps,
    plan = VDict p /\ Py.get p "steps" = VList steps /\ steps <> []
    /\ Forall acceptable_step steps.

(** The result of a step whose tool was called: the tool the registry
    holds under the name of the step, applied to the args of the step in
    some state of the world, returned the output that the result reports
    as a success, or raised the exception whose message the result
    reports as an error. *)
Definition tool_was_called (step result : dict) : Prop :=
  exists name fn,
    Py.get step "tool" = VStr name /\ TOOL_REGISTRY !! name = Some fn
    /\ exists w w' ms,
         (exists output,
             fn (Py.or (Py.get step "args") (VDict [])) w = (Ok output, w')
             /\ result = success_result step output ms)
         \/ (exists msg,
               fn (Py.or (Py.get step "args") (VDict [])) w = (Raised msg, w')
               /\ result = error_result step msg ms).

(** A tool value the planner refuses: empty, or not a key of the
    registry. *)
Definition unregistered (tool : value) : Prop :=
  Py.truthy tool = false
  \/ exists k, Py.hash_key tool = Ok k /\ registry_lookup k = None.

(** The call of its tool that the run of a step with a registered tool
    leaves in the trace. *)
Definition call_of (step : dict) : list event :=
  match Py.get step "tool" with
  | VStr name => [EvTool name (Py.or (Py.get step "args") (VDict []))]
  | _ => []
  end.

(** A step of an accepted plan: a dict with a registered tool and an id. *)
Definition registered_step (step : dict) : Prop :=
  (exists name fn, Py.get step "tool" = VStr name /\ TOOL_REGISTRY !! name = Some fn)
  /\ Py.lookup step "id" <> None.

(** The compact form of the output of a result: an output with items
    keeps four fields and the first five items, trimmed; any other
    output is handed on as it is. *)
Definition compacted_output (output compact : value) : Prop :=
  match output with
  | VDict o =>
      if Py.contains o "items" then
        exists first items,
          slice_to 5 (Py.get o "items") = Ok first
          /\ first = VDict <$> items
          /\ (length items <= 5)%nat
          /\ compact = VDict [("query", Py.get o "query");
                              ("total_count", Py.get o "total_count");
                              ("items", VList (VDict <$> (trimmed <$> items)));
                              ("source_url", Py.get o "source_url")]
      else compact = output
  | _ => compact = output
  end.

End MoreVocabulary.

Section ServicesVocabulary.
Context `{Services}.

(** The request of [chat_json] and that of [chat_text]. *)
Definition json_request (self : LLMClient) (system_prompt user_prompt : string)
  : chat_request :=
  {| req_model := self_model self; req_system := system_prompt; req_user := user_prompt;
     req_temperature := 2; req_json_object := true |}.

Definition text_request (self : LLMClient) (system_prompt user_prompt : string)
  : chat_request :=
  {| req_model := self_model self; req_system := system_prompt; req_user := user_prompt;
     req_temperature := 7; req_json_object := false |}.

(** The replies of successive calls of the API with one request, from
    one state of the world to another. *)
Inductive replies (conn : connection) (req : chat_request)
  : W -> list (outcome (option string)) -> W -> Prop :=
| replies_nil w : replies conn req w [] w
| replies_cons w r w1 rs w' :
    completions_create conn req w = (r, w1) ->
    replies conn req w1 rs w' ->
    replies conn req w (r :: rs) w'.

(** The JSON value [chat_json] finds in a reply: the content as a
    whole, or else what stands between its first and last brace. *)
Definition decoded (reply : outcome (option string)) : option value :=
  match reply with
  | Ok content =>
      match json_loads (or_else content "") with
      | Some v => Some v
      | None => _extract_json (or_else content "")
      end
  | Raised _ => None
  end.

(** A reply that arrived but holds no JSON value. *)
Definition undecodable (reply : outcome (option string)) : Prop :=
  (exists content, reply = Ok content) /\ decoded reply = None.

(** A call that raised. *)
Definition failed (reply : outcome (option string)) : Prop :=
  exists e, reply = Raised e.

(** The [top_n] that [search_repositories] works with. *)
Definition requested (top_n : value) : Z :=
  match py_int top_n with Ok n => n | Raised _ => 5 end.

(** The keys of an entry of the repository search. *)
Definition entry_keys : list string :=
  ["name"; "full_name"; "url"; "stars"; "description"; "language"].

(** The summaries the weather tool can give. *)
Definition known_summary (summary : string) : Prop :=
  summary = "Unknown conditions" \/ exists code, WEATHER_CODE_MAP !! code = Some summary.

End ServicesVocabulary.

(** * More cases for the small world *)

Module Cases.

(** A step whose tool is a list instead of a name. *)
Definition listed_tool_step : dict :=
  [("id", VStr "step_1"); ("tool", VList [VStr "weather_current"]); ("args", VDict [])].

Definition odd_steps : list dict :=
  [listed_tool_step; Demo.step "step_2" "llm_generate" [("instruction", VStr "intro")]].

(** A step that never went through the planner: it has no id. *)
Definition anonymous_step : dict := [("tool", VStr "llm_generate")].

(** Two steps under one id. *)
Definition twin_steps : list dict :=
  [Demo.step "a" "github_search" [("query", VStr "down")];
   Demo.step "a" "llm_generate" [("instruction", VStr "intro")]].

Definition failed_twin : dict :=
  Demo.result "a" "github_search" "error" ("error", VStr "rate limit exceeded").

(** The steps of [Demo.normalized_without_ids], and their execution. *)
Definition normalized_steps : list dict :=
  [[("id", VStr "step_1"); ("tool", VStr "llm_generate");
    ("args", VDict []); ("purpose", VStr "")];
   [("id", VStr "fetch"); ("tool", VStr "weather_current");
    ("args", VDict []); ("purpose", VStr "")]].

Definition executed_normalized : outcome (list dict) * @state Demo.host :=
  Eval vm_compute in execute (H:=Demo.host) Demo.normalized_without_ids Demo.start.

(** A reply of the planner's oracle whose only step has a list as its id. *)
Definition reply_with_list_id : value :=
  VDict [("steps", VList [VDict [("id", VList [VStr "a"]);
                                 ("tool", VStr "llm_generate")]])].

(** The small world with other oracles: the planner's reply may depend
    on the task and on the number of tool calls made so far, the
    verifier's on the compact results it is shown. *)
Definition host_with (planner : string -> nat -> value) (verifier : list dict -> value)
  : Host :=
  {| W := nat;
     instant := nat;
     perf_counter := fun calls => (calls, calls);
     elapsed_ms := fun start stop => Z.of_nat (stop - start);
     TOOL_REGISTRY := Demo.registry;
     planner_chat_json := fun task calls => (Ok (planner task calls), calls);
     verifier_chat_json := fun task plan compact calls => (Ok (verifier compact), calls);
     pool_order := Demo.order;
     pool_order_perm := Demo.order_perm;
     container_str := fun _ => "<container>";
     int_of_str := fun _ => None |}.

(** A verifier's oracle that answers with a JSON array. *)
Definition array_host : Host :=
  host_with (fun task _ => Demo.planner_reply task) (fun _ => VList [VStr "done"]).

(** A planner's oracle that asks for the search that is down and the
    weather at first, and for a speech once tools have been called; the
    verifier's oracle is the one of [Demo]. *)
Definition recovering_host : Host :=
  host_with (fun task calls => if (calls =? 0)%nat then Demo.planner_reply "status"
                               else Demo.planner_reply "intro")
            (fun _ => Demo.verifier_reply).

Definition recovering_run : outcome response * @state recovering_host :=
  Eval vm_compute in run_task (H:=recovering_host) "status" (@St recovering_host 0%nat []).

Definition recovering_response : response :=
  Eval vm_compute in
    match recovering_run.1 with Ok r => r | Raised _ => Demo.empty_response end.

(** A planner's oracle that forgets the steps. *)
Definition careless_host : Host :=
  host_with (fun _ _ => VDict [("goal", VStr "x")]) (fun _ => Demo.verifier_reply).

(** A search that found six repositories. *)
Definition six_found : dict :=
  Demo.result "step_1" "github_search" "success"
    ("output",
     VDict [("query", VStr "rocq");
            ("total_count", VInt 6);
            ("items", VList [Demo.repository "a" 6; Demo.repository "b" 5;
                             Demo.repository "c" 4; Demo.repository "d" 3;
                             Demo.repository "e" 2; Demo.repository "f" 1]);
            ("source_url", VStr "https://api.github.com/search/repositories?q=rocq")]).

Definition compacted_six : list dict :=
  Eval vm_compute in
    match _compact_step_results [six_found] with Ok cs => cs | Raised _ => [] end.

(** *** Services for the small world

    No environment variable is set.  The chat API counts its calls in the
    world: asked for JSON it answers prose first, then an object wrapped
    in prose (the suggestions, for the suggesting prompt); asked for text
    it fails once, then answers a greeting with spaces around it, a
    no-break space and an em space among them.  The
    geocoder knows every city but Atlantis. *)

Definition quoted (text : string) : string :=
  String (ascii_of_nat 34) text +:+ String (ascii_of_nat 34) EmptyString.

Definition suggestions_text : string :=
  "{" +:+ quoted "suggestions" +:+ ": [" +:+ quoted " weather in Pune " +:+ ", "
  +:+ quoted Demo.nbsp +:+ ", 7, " +:+ quoted "a" +:+ ", " +:+ quoted EmptyString
  +:+ ", " +:+ quoted "b" +:+ ", " +:+ quoted "c" +:+ ", " +:+ quoted "d" +:+ "]}".

Definition loads (text : string) : option value :=
  if String.eqb text "{}" then Some (VDict [])
  else if String.eqb text suggestions_text then
    Some (VDict [("suggestions",
                  VList [VStr " weather in Pune "; VStr Demo.nbsp; VInt 7; VStr "a";
                         VStr EmptyString; VStr "b"; VStr "c"; VStr "d"])])
  else None.

Definition greeting : string :=
  Demo.nbsp +:+ " Hello World " +:+ Demo.em_space.

Definition chat_api (conn : unit) (req : chat_request) (calls : nat)
  : outcome (option string) * nat :=
  if req_json_object req then
    if (calls =? 0)%nat then (Ok (Some "I am thinking about it."), S calls)
    else if String.eqb (req_system req) SUGGEST_SYSTEM
         then (Ok (Some ("Here you are: " +:+ suggestions_text +:+ " Enjoy.")), S calls)
         else (Ok (Some "Sure: {} -- done"), S calls)
  else
    if (calls =? 0)%nat then (Raised "429 Too Many Requests", S calls)
    else (Ok (Some greeting), S calls).

Definition geocoded : value :=
  VDict [("results", VList [VDict [("name", VStr "Pune"); ("country", VStr "India");
                                   ("latitude", VInt 18); ("longitude", VInt 73)]])].

Definition forecast : value :=
  VDict [("current", VDict [("temperature_2m", VInt 30); ("wind_speed_10m", VInt 12);
                            ("weather_code", VInt 3)])].

Definition found : value :=
  VDict [("total_count", VInt 2);
         ("items", VList [VDict [("name", VStr "rocq"); ("full_name", VStr "rocq-prover/rocq");
                                 ("html_url", VStr "https://github.com/rocq-prover/rocq");
                                 ("stargazers_count", VInt 100);
                                 ("description", VStr "a proof assistant");
                                 ("language", VStr "OCaml"); ("fork", VBool false)];
                          VDict [("name", VStr "stdlib");
                                 ("html_url", VStr "https://github.com/rocq-prover/stdlib")]])].

Definition http (url : string) (params : dict) (headers : option dict) (timeout : Z)
    (calls : nat) : outcome http_response * nat :=
  if String.eqb url "https://geocoding-api.open-meteo.com/v1/search" then
    (Ok {| status_error := None;
           json_body := Ok (if Py.eq_str (Py.get params "name") "Atlantis"
                            then VDict [] else geocoded);
           final_url := url +:+ "?name=city" |}, S calls)
  else if String.eqb url "https://api.open-meteo.com/v1/forecast" then
    (Ok {| status_error := None; json_body := Ok forecast;
           final_url := url +:+ "?latitude=18" |}, S calls)
  else
    (Ok {| status_error := None; json_body := Ok found;
           final_url := url +:+ "?q=rocq" |}, S calls).

Definition services : @Services Demo.host :=
  @Build_Services Demo.host
    (fun _ _ => None)
    http
    unit
    (fun api_key base_url calls => (Ok tt, calls))
    chat_api
    loads
    (fun _ => "<json>").

Definition llm : @LLMClient Demo.host services :=
  @Client Demo.host services "llama-3.1-8b-instant" tt.

End Cases.

(** * Supporting lemmas *)

(** ** The monad *)

Section MonadFacts.
Context `{Host}.

Lemma bind_ok {A B} (m : M A) (k : A -> M B) s b s' :
  bind m k s = (Ok b, s') <-> exists a s1, m s = (Ok a, s1) /\ k a s1 = (Ok b, s').
Proof.
  unfold bind. destruct (m s) as [[a|e] s1]; split.
  - intros Hk. exists a, s1. auto.
  - intros (a' & s1' & Heq & Hk). inversion Heq; subst. exact Hk.
  - intros Hk. discriminate.
  - intros (a' & s1' & Heq & Hk). discriminate.
Qed.

Lemma bind_step {A B} (m : M A) (k : A -> M B) s a s1 :
  m s = (Ok a, s1) -> bind m k s = k a s1.
Proof. intros Hm. unfold bind. rewrite Hm. reflexivity. Qed.

Lemma bind_raised {A B} (m : M A) (k : A -> M B) s e s1 :
  m s = (Raised e, s1) -> bind m k s = (Raised e, s1).
Proof. intros Hm. unfold bind. rewrite Hm. reflexivity. Qed.

Lemma lift_ok {A} (r : outcome A) s a s' :
  lift r s = (Ok a, s') <-> r = Ok a /\ s' = s.
Proof.
  destruct r as [a0|e]; simpl; unfold ret, raise; split.
  - intros Heq. inversion Heq. auto.
  - intros [Heq ->]. inversion Heq. reflexivity.
  - discriminate.
  - intros [Heq _]. discriminate.
Qed.

Lemma ret_ok {A} (a b : A) s s' :
  ret a s = (Ok b, s') <-> a = b /\ s' = s.
Proof.
  unfold ret. split.
  - intros Heq. inversion Heq. auto.
  - intros [-> ->]. reflexivity.
Qed.

Lemma bind_ret {A B} (a : A) (k : A -> M B) s : bind (ret a) k s = k a s.
Proof. reflexivity. Qed.

Lemma bind_lift_ok {A B} (a : A) (k : A -> M B) s : bind (lift (Ok a)) k s = k a s.
Proof. reflexivity. Qed.

Lemma bind_lift_raised {A B} e (k : A -> M B) s :
  bind (lift (Raised e)) k s = (Raised e, s).
Proof. reflexivity. Qed.

End MonadFacts.


Section ExecutorFacts.
Context `{Host}.

Lemma hashable_key v : hashable v = true -> exists k, Py.hash_key v = Ok k.
Proof. destruct v; simpl; intros Hh; try discriminate; eauto. Qed.

Lemma clock_eq s :
  clock s = (Ok (perf_counter (world s)).1,
             {| world := (perf_counter (world s)).2; trace := trace s |}).
Proof. unfold clock. destruct (perf_counter (world s)); reflexivity. Qed.

Lemma external_eq {A} ev (op : W -> outcome A * W) s :
  external ev op s
  = ((op (world s)).1, {| world := (op (world s)).2; trace := trace s ++ [ev] |}).
Proof. unfold external. destruct (op (world s)); reflexivity. Qed.

Ltac start_run_step Hk :=
  unfold _run_step;
  rewrite (bind_step _ _ _ _ _ (clock_eq _));
  unfold bind at 1; rewrite Hk; simpl lift; unfold ret at 1.

(** The three ways [_run_step] ends once the tool name is hashable. *)
Lemma run_step_unknown step s k :
  Py.hash_key (Py.get step "tool") = Ok k ->
  registry_lookup k = None ->
  exists ms w',
    _run_step step s = (Ok (unknown_result step ms), {| world := w'; trace := trace s |}).
Proof.
  intros Hk Hreg. start_run_step Hk. rewrite Hreg.
  eexists _, _. unfold bind. rewrite clock_eq. reflexivity.
Qed.

Lemma run_step_success step s k name fn output w1 :
  Py.hash_key (Py.get step "tool") = Ok k ->
  registry_lookup k = Some (name, fn) ->
  fn (Py.or (Py.get step "args") (VDict [])) (perf_counter (world s)).2 = (Ok output, w1) ->
  exists ms w',
    _run_step step s
    = (Ok (success_result step output ms),
       {| world := w';
          trace := trace s ++ [EvTool name (Py.or (Py.get step "args") (VDict []))] |}).
Proof.
  intros Hk Hreg Hfn. start_run_step Hk. rewrite Hreg.
  eexists _, _. unfold bind, try. rewrite external_eq. cbn [world trace].
  rewrite Hfn. cbn [fst snd]. rewrite clock_eq. reflexivity.
Qed.

Lemma run_step_error step s k name fn msg w1 :
  Py.hash_key (Py.get step "tool") = Ok k ->
  registry_lookup k = Some (name, fn) ->
  fn (Py.or (Py.get step "args") (VDict [])) (perf_counter (world s)).2 = (Raised msg, w1) ->
  exists ms w',
    _run_step step s
    = (Ok (error_result step msg ms),
       {| world := w';
          trace := trace s ++ [EvTool name (Py.or (Py.get step "args") (VDict []))] |}).
Proof.
  intros Hk Hreg Hfn. start_run_step Hk. rewrite Hreg.
  eexists _, _. unfold bind, try. rewrite external_eq. cbn [world trace].
  rewrite Hfn. cbn [fst snd]. rewrite clock_eq. reflexivity.
Qed.

End ExecutorFacts.


Section Slots.

Lemma place_length results done : length (place results done) = length results.
Proof. unfold place. apply length_insert. Qed.

Lemma fold_place_length placed results :
  length (fold_left place placed results) = length results.
Proof.
  revert results. induction placed as [|p placed IH]; intros results; simpl.
  - reflexivity.
  - rewrite IH. apply place_length.
Qed.

Lemma fold_place_other placed results i :
  i ∉ placed.*1 -> fold_left place placed results !! i = results !! i.
Proof.
  revert results. induction placed as [|[j r] placed IH]; intros results Hi; simpl.
  - reflexivity.
  - rewrite fmap_cons in Hi. apply not_elem_of_cons in Hi as [Hne Hi].
    rewrite IH by exact Hi. unfold place. simpl.
    apply list_lookup_insert_ne. simpl in Hne. congruence.
Qed.

Lemma fold_place_at placed results i r :
  NoDup placed.*1 -> (i, r) ∈ placed -> (i < length results)%nat ->
  fold_left place placed results !! i = Some (Some r).
Proof.
  revert results. induction placed as [|[j r'] placed IH]; intros results Hnd Hin Hlt.
  - inversion Hin.
  - rewrite fmap_cons in Hnd. apply NoDup_cons in Hnd as [Hj Hnd]. simpl in *.
    apply elem_of_cons in Hin as [Heq|Hin].
    + inversion Heq; subst j r'. rewrite fold_place_other by exact Hj.
      unfold place. simpl. apply list_lookup_insert_eq. exact Hlt.
    + apply IH; [exact Hnd|exact Hin|]. rewrite place_length. exact Hlt.
Qed.

Lemma all_filled (slots : list (option dict)) :
  (forall i, (i < length slots)%nat -> exists r, slots !! i = Some (Some r)) ->
  Some <$> omap id slots = slots.
Proof.
  induction slots as [|o slots IH]; intros Hall.
  - reflexivity.
  - destruct (Hall 0%nat) as [r Hr]; [simpl; lia|]. simpl in Hr.
    inversion Hr; subst o. simpl. f_equal. apply IH.
    intros i Hi. apply (Hall (S i)). simpl. lia.
Qed.

End Slots.


Section ExecuteFacts.
Context `{Host}.

Lemma tool_calls_only_refl s : tool_calls_only s s.
Proof. exists []. rewrite app_nil_r. split; [reflexivity|constructor]. Qed.

Lemma tool_calls_only_trans s1 s2 s3 :
  tool_calls_only s1 s2 -> tool_calls_only s2 s3 -> tool_calls_only s1 s3.
Proof.
  intros (e1 & H1 & F1) (e2 & H2 & F2). exists (e1 ++ e2).
  rewrite H2, H1, app_assoc. split; [reflexivity|]. apply Forall_app; auto.
Qed.

Lemma run_step_returns step s :
  hashable (Py.get step "tool") = true ->
  exists result s', _run_step step s = (Ok result, s') /\ tool_calls_only s s'.
Proof.
  intros Hh. destruct (hashable_key _ Hh) as [k Hk].
  destruct (registry_lookup k) as [[name fn]|] eqn:Hreg.
  - destruct (fn (Py.or (Py.get step "args") (VDict [])) (perf_counter (world s)).2)
      as [[output|msg] w1] eqn:Hfn.
    + destruct (run_step_success _ _ _ _ _ _ _ Hk Hreg Hfn) as (ms & w' & Heq).
      eexists _, _. split; [exact Heq|]. eexists. split; [reflexivity|].
      repeat constructor.
    + destruct (run_step_error _ _ _ _ _ _ _ Hk Hreg Hfn) as (ms & w' & Heq).
      eexists _, _. split; [exact Heq|]. eexists. split; [reflexivity|].
      repeat constructor.
  - destruct (run_step_unknown _ s _ Hk Hreg) as (ms & w' & Heq).
    eexists _, _. split; [exact Heq|]. exists []. simpl. rewrite app_nil_r.
    split; [reflexivity|constructor].
Qed.

(** Whatever [_run_step] does, it leaves only tool calls in the trace. *)
Lemma run_step_trace step s o s' :
  _run_step step s = (o, s') -> tool_calls_only s s'.
Proof.
  intros Hrun. destruct (hashable (Py.get step "tool")) eqn:Hh.
  - destruct (run_step_returns step s Hh) as (r & s1 & Heq & Ht).
    rewrite Heq in Hrun. inversion Hrun; subst. exact Ht.
  - unfold _run_step in Hrun. rewrite (bind_step _ _ _ _ _ (clock_eq s)) in Hrun.
    destruct (Py.get step "tool"); simpl in Hh; try discriminate;
      unfold bind in Hrun; simpl in Hrun; unfold raise in Hrun;
      inversion Hrun; subst; exists []; simpl; rewrite app_nil_r;
      (split; [reflexivity|constructor]).
Qed.

Lemma run_step_describes step st result st' :
  _run_step step st = (Ok result, st') -> describes step result /\ well_formed_result result.
Proof.
  intros Hrun.
  destruct (hashable (Py.get step "tool")) eqn:Hh.
  - destruct (hashable_key _ Hh) as [k Hk].
    destruct (registry_lookup k) as [[name fn]|] eqn:Hreg.
    + destruct (fn (Py.or (Py.get step "args") (VDict [])) (perf_counter (world st)).2)
        as [[output|msg] w1] eqn:Hfn.
      * destruct (run_step_success _ _ _ _ _ _ _ Hk Hreg Hfn) as (ms & w' & Heq).
        rewrite Heq in Hrun. inversion Hrun; subst.
        split; [repeat split|]. split; [eexists; reflexivity|]. left. repeat split.
      * destruct (run_step_error _ _ _ _ _ _ _ Hk Hreg Hfn) as (ms & w' & Heq).
        rewrite Heq in Hrun. inversion Hrun; subst.
        split; [repeat split|]. split; [eexists; reflexivity|]. right.
        repeat split. eexists; reflexivity.
    + destruct (run_step_unknown _ st _ Hk Hreg) as (ms & w' & Heq).
      rewrite Heq in Hrun. inversion Hrun; subst.
      split; [repeat split|]. split; [eexists; reflexivity|]. right.
      repeat split. eexists; reflexivity.
  - unfold _run_step in Hrun. rewrite (bind_step _ _ _ _ _ (clock_eq st)) in Hrun.
    destruct (Py.get step "tool"); simpl in Hh; try discriminate;
      unfold bind in Hrun; simpl in Hrun; unfold raise in Hrun; discriminate.
Qed.

End ExecuteFacts.


Section ExecuteSpec.
Context `{Host}.

Lemma run_step_of_dict d : run_step_of (VDict d) = _run_step d.
Proof. reflexivity. Qed.

Lemma inline_runs steps s :
  tools_hashable steps ->
  exists results s',
    mapM run_step_of (VDict <$> steps) s = (Ok results, s')
    /\ Forall2 produced steps results /\ tool_calls_only s s'.
Proof.
  intros Hh. revert s. induction Hh as [|step steps Hstep Hsteps IH]; intros s.
  - exists [], s. repeat split; [constructor|apply tool_calls_only_refl].
  - destruct (run_step_returns step s Hstep) as (r & s1 & Hrun & Ht1).
    destruct (IH s1) as (rs & s2 & Hmap & Hall & Ht2).
    exists (r :: rs), s2. split; [|split].
    + simpl. rewrite run_step_of_dict.
      rewrite (bind_step _ _ _ _ _ Hrun). rewrite (bind_step _ _ _ _ _ Hmap).
      reflexivity.
    + constructor; [|exact Hall]. exists s, s1. exact Hrun.
    + eapply tool_calls_only_trans; eassumption.
Qed.

Lemma workers_run steps order s :
  tools_hashable steps ->
  Forall (fun i => (i < length steps)%nat) order ->
  exists placed s',
    mapM (worker (VDict <$> steps)) order s = (Ok (in_future <$> placed), s')
    /\ placed.*1 = order
    /\ Forall (fun p => exists step, steps !! p.1 = Some step /\ produced step p.2) placed
    /\ tool_calls_only s s'.
Proof.
  intros Hh Hord. revert s. induction Hord as [|i order Hi Hord IH]; intros s.
  - exists [], s. repeat split; [constructor|apply tool_calls_only_refl].
  - destruct (lookup_lt_is_Some_2 steps i Hi) as [step Hstep].
    assert (Hstep_h : hashable (Py.get step "tool") = true).
    { eapply Forall_lookup_1 in Hh; [exact Hh|exact Hstep]. }
    destruct (run_step_returns step s Hstep_h) as (r & s1 & Hrun & Ht1).
    destruct (IH s1) as (placed & s2 & Hmap & Hfst & Hall & Ht2).
    exists ((i, r) :: placed), s2. split; [|split; [|split]].
    + simpl. unfold worker at 1. rewrite list_lookup_fmap, Hstep. simpl.
      rewrite run_step_of_dict.
      assert (Htry : try (_run_step step) s = (Ok (Ok r), s1)).
      { unfold try. rewrite Hrun. reflexivity. }
      unfold bind at 1. unfold bind at 1. rewrite Htry. unfold ret at 1.
      rewrite (bind_step _ _ _ _ _ Hmap). reflexivity.
    + rewrite fmap_cons, Hfst. reflexivity.
    + constructor; [|exact Hall]. exists step. split; [exact Hstep|].
      exists s, s1. exact Hrun.
    + eapply tool_calls_only_trans; eassumption.
Qed.

Lemma collect_all steps items placed results s :
  foldM (collect steps items) results (in_future <$> placed) s
  = (Ok (fold_left place placed results), s).
Proof.
  revert results. induction placed as [|[i r] placed IH]; intros results; simpl.
  - reflexivity.
  - unfold bind, ret at 1. simpl. apply IH.
Qed.

(** On a plan whose steps are dicts with a hashable tool, [execute]
    returns, with one result per step, in the order of the steps. *)
Lemma execute_returns plan steps s :
  plan_steps plan steps ->
  tools_hashable steps ->
  exists results s',
    execute plan s = (Ok results, s')
    /\ Forall2 produced steps results
    /\ tool_calls_only s s'.
Proof.
  intros Hplan Hh. unfold execute. rewrite Hplan. simpl Py.len. simpl Py.iter.
  rewrite !bind_lift_ok.
  rewrite length_fmap.
  destruct (length steps <=? 1)%nat eqn:Hn.
  - apply inline_runs. exact Hh.
  - set (n := length steps). set (order := pool_order (world s) n).
    assert (Hperm : Permutation order (seq 0 n)) by apply pool_order_perm.
    assert (Hord : Forall (fun i => (i < length steps)%nat) order).
    { apply Forall_forall. intros i Hi. rewrite Hperm in Hi.
      apply elem_of_seq in Hi. fold n. lia. }
    destruct (workers_run steps order s Hh Hord) as (placed & s1 & Hmap & Hfst & Hall & Ht).
    unfold bind at 1. unfold ret at 1. fold order.
    rewrite (bind_step _ _ _ _ _ Hmap).
    rewrite (bind_step _ _ _ _ _ (collect_all _ _ _ _ _)).
    set (slots := fold_left place placed (replicate n None)).
    assert (Hlen : length slots = n).
    { unfold slots. rewrite fold_place_length. apply length_replicate. }
    assert (Hnd : NoDup placed.*1).
    { rewrite Hfst, Hperm. apply NoDup_seq. }
    assert (Hfill : forall i, (i < n)%nat ->
               exists step r, steps !! i = Some step /\ slots !! i = Some (Some r)
                              /\ produced step r).
    { intros i Hi.
      assert (Hin : i ∈ placed.*1).
      { rewrite Hfst, Hperm. apply elem_of_seq. lia. }
      apply list_elem_of_fmap in Hin as ([j r] & Hj & Hin). simpl in Hj. subst j.
      pose proof (proj1 (Forall_forall _ _) Hall _ Hin) as (step & Hstep & Hprod).
      exists step, r. split; [exact Hstep|]. split; [|exact Hprod].
      unfold slots. apply fold_place_at; [exact Hnd|exact Hin|].
      rewrite length_replicate. exact Hi. }
    exists (omap id slots), s1. split; [reflexivity|]. split; [|exact Ht].
    assert (Hsome : Some <$> omap id slots = slots).
    { apply all_filled. intros i Hi. rewrite Hlen in Hi.
      destruct (Hfill i Hi) as (step & r & _ & Hr & _). eauto. }
    apply Forall2_same_length_lookup_2.
    + rewrite <- (length_fmap Some (omap id slots)), Hsome, Hlen. reflexivity.
    + intros i step r Hstep Hr.
      assert (Hi : (i < n)%nat) by (apply lookup_lt_Some in Hstep; exact Hstep).
      destruct (Hfill i Hi) as (step' & r' & Hstep' & Hr' & Hprod).
      rewrite Hstep in Hstep'. inversion Hstep'; subst step'.
      rewrite <- Hsome, list_lookup_fmap, Hr in Hr'. simpl in Hr'.
      inversion Hr'; subst r'. exact Hprod.
Qed.

End ExecuteSpec.


Section RetryFacts.
Context `{Host}.

Lemma step_map_add_dict m step k :
  step_key step = Some k -> step_map_add m (VDict step) = Ok (<[k := VDict step]> m).
Proof.
  unfold step_key, step_map_add, subscript_id. intros Hk.
  destruct (Py.lookup step "id") as [id|]; [|discriminate].
  destruct (Py.hash_key id); [|discriminate]. inversion Hk; subst. reflexivity.
Qed.

(** The map built from the steps: every entry is a step of the plan
    filed under its own id, and every id of the plan has an entry. *)
Lemma build_step_map_dicts steps m :
  ids_hashable steps ->
  exists m',
    build_step_map m (VDict <$> steps) = Ok m'
    /\ (forall k v, m' !! k = Some v ->
          m !! k = Some v
          \/ exists step, v = VDict step /\ step ∈ steps /\ step_key step = Some k)
    /\ (forall k, m' !! k = None ->
          m !! k = None /\ forall step, step ∈ steps -> step_key step <> Some k).
Proof.
  intros Hids. revert m. induction Hids as [|step steps [k Hk] Hids IH]; intros m.
  - exists m. split; [reflexivity|]. split.
    + intros k v Hv. left. exact Hv.
    + intros k Hk. split; [exact Hk|]. intros step Hin. inversion Hin.
  - destruct (IH (<[k := VDict step]> m)) as (m' & Hbuild & Hsome & Hnone).
    exists m'. split; [|split].
    + simpl. rewrite (step_map_add_dict _ _ _ Hk). exact Hbuild.
    + intros k' v Hv. destruct (Hsome k' v Hv) as [Hm|(st & -> & Hin & Hst)].
      * destruct (decide (k = k')) as [->|Hne].
        -- rewrite lookup_insert_eq in Hm. inversion Hm; subst v.
           right. exists step. split; [reflexivity|]. split; [left|exact Hk].
        -- rewrite lookup_insert_ne in Hm by exact Hne. left. exact Hm.
      * right. exists st. split; [reflexivity|]. split; [right; exact Hin|exact Hst].
    + intros k' Hk'. destruct (Hnone k' Hk') as [Hm Hrest].
      destruct (decide (k = k')) as [->|Hne].
      * rewrite lookup_insert_eq in Hm. discriminate.
      * rewrite lookup_insert_ne in Hm by exact Hne. split; [exact Hm|].
        intros st Hin. apply elem_of_cons in Hin as [->|Hin].
        -- rewrite Hk. congruence.
        -- apply Hrest. exact Hin.
Qed.

Lemma step_key_truthy step k : step_key step = Some k -> Py.truthy (VDict step) = true.
Proof. unfold step_key. destruct step as [|[k' v] rest]; simpl; [discriminate|reflexivity]. Qed.

Lemma retry_one_not_error step_map result s :
  Py.eq_str (Py.get result "status") "error" = false ->
  retry_one step_map result s = (Ok result, s).
Proof. intros Hst. unfold retry_one. rewrite Hst. reflexivity. Qed.

Lemma success_not_error result :
  Py.get result "status" = VStr "success" ->
  Py.eq_str (Py.get result "status") "error" = false.
Proof. intros ->. reflexivity. Qed.

Lemma retry_all steps step_map step_results s :
  (forall k v, step_map !! k = Some v ->
     exists step, v = VDict step /\ step ∈ steps /\ step_key step = Some k) ->
  (forall k, step_map !! k = None -> forall step, step ∈ steps -> step_key step <> Some k) ->
  tools_hashable steps ->
  Forall (fun r => hashable (Py.get r "step_id") = true) step_results ->
  exists updated s',
    mapM (retry_one step_map) step_results s = (Ok updated, s')
    /\ Forall2 (retried steps) step_results updated
    /\ tool_calls_only s s'.
Proof.
  intros Hsome Hnone Htools Hres. revert s.
  induction Hres as [|result rest Hid Hres IH]; intros s.
  - exists [], s. repeat split; [constructor|apply tool_calls_only_refl].
  - assert (Hone : exists r s1, retry_one step_map result s = (Ok r, s1)
                               /\ retried steps result r /\ tool_calls_only s s1).
    { destruct (Py.eq_str (Py.get result "status") "error") eqn:Hst.
      - destruct (hashable_key _ Hid) as [k Hk].
        unfold retry_one. rewrite Hst, Hk. rewrite bind_lift_ok.
        destruct (step_map !! k) as [v|] eqn:Hv.
        + destruct (Hsome k v Hv) as (step & -> & Hin & Hkey).
          rewrite (step_key_truthy _ _ Hkey). rewrite run_step_of_dict.
          assert (Hh : hashable (Py.get step "tool") = true).
          { eapply (proj1 (Forall_forall _ _) Htools). exact Hin. }
          destruct (run_step_returns step s Hh) as (r & s1 & Hrun & Ht).
          exists r, s1. split; [exact Hrun|]. split; [|exact Ht].
          eapply retried_rerun; eauto. exists s, s1. exact Hrun.
        + exists result, s. split; [reflexivity|]. split; [|apply tool_calls_only_refl].
          eapply retried_stale; eauto.
      - exists result, s. split; [apply retry_one_not_error; exact Hst|].
        split; [|apply tool_calls_only_refl]. apply retried_not_error. exact Hst. }
    destruct Hone as (r & s1 & Hone & Hrel & Ht1).
    destruct (IH s1) as (rs & s2 & Hmap & Hall & Ht2).
    exists (r :: rs), s2. split; [|split].
    + simpl. rewrite (bind_step _ _ _ _ _ Hone), (bind_step _ _ _ _ _ Hmap). reflexivity.
    + constructor; assumption.
    + eapply tool_calls_only_trans; eassumption.
Qed.

Lemma retry_all_success step_map step_results s :
  Forall (fun r => Py.get r "status" = VStr "success") step_results ->
  mapM (retry_one step_map) step_results s = (Ok step_results, s).
Proof.
  induction 1 as [|result rest Hst Hrest IH]; simpl.
  - reflexivity.
  - rewrite (bind_step _ _ _ _ _
               (retry_one_not_error step_map result s (success_not_error _ Hst))).
    rewrite (bind_step _ _ _ _ _ IH). reflexivity.
Qed.

Lemma retry_failed_returns plan steps step_results s :
  plan_steps plan steps ->
  ids_hashable steps ->
  tools_hashable steps ->
  Forall (fun r => hashable (Py.get r "step_id") = true) step_results ->
  exists updated s',
    retry_failed plan step_results s = (Ok updated, s')
    /\ Forall2 (retried steps) step_results updated
    /\ tool_calls_only s s'
    /\ (Forall (fun r => Py.get r "status" = VStr "success") step_results ->
        updated = step_results /\ s' = s).
Proof.
  intros Hplan Hids Htools Hres.
  destruct (build_step_map_dicts steps ∅ Hids) as (step_map & Hbuild & Hsome & Hnone).
  assert (Hsome' : forall k v, step_map !! k = Some v ->
            exists step, v = VDict step /\ step ∈ steps /\ step_key step = Some k).
  { intros k v Hv. destruct (Hsome k v Hv) as [Hm|Hstep]; [|exact Hstep].
    rewrite lookup_empty in Hm. discriminate. }
  assert (Hnone' : forall k, step_map !! k = None ->
            forall step, step ∈ steps -> step_key step <> Some k).
  { intros k Hk. apply (Hnone k Hk). }
  destruct (retry_all steps step_map step_results s Hsome' Hnone' Htools Hres)
    as (updated & s' & Hmap & Hall & Ht).
  assert (Hunfold : retry_failed plan step_results s
                    = mapM (retry_one step_map) step_results s).
  { unfold retry_failed. rewrite Hplan. simpl Py.iter. rewrite bind_lift_ok.
    rewrite Hbuild. rewrite bind_lift_ok. reflexivity. }
  exists updated, s'. rewrite Hunfold. split; [exact Hmap|]. split; [exact Hall|].
  split; [exact Ht|]. intros Hok.
  rewrite (retry_all_success step_map step_results s Hok) in Hmap.
  inversion Hmap; subst. auto.
Qed.

End RetryFacts.


Section DictFacts.

Lemma lookup_set_eq d k v : Py.lookup (Py.set d k v) k = Some v.
Proof.
  induction d as [|[k' v'] d IH]; simpl.
  - rewrite String.eqb_refl. reflexivity.
  - destruct (String.eqb k' k) eqn:Hk; simpl; rewrite Hk; [reflexivity|exact IH].
Qed.

Lemma lookup_set_ne d k k' v : k <> k' -> Py.lookup (Py.set d k v) k' = Py.lookup d k'.
Proof.
  intros Hne. induction d as [|[k0 v0] d IH]; simpl.
  - destruct (String.eqb k k') eqn:Hk; [|reflexivity].
    apply String.eqb_eq in Hk. contradiction.
  - destruct (String.eqb k0 k) eqn:Hk0; simpl.
    + apply String.eqb_eq in Hk0. subst k0.
      destruct (String.eqb k k') eqn:Hk; [|reflexivity].
      apply String.eqb_eq in Hk. contradiction.
    + rewrite IH. reflexivity.
Qed.

Lemma get_set_eq d k v : Py.get (Py.set d k v) k = v.
Proof. unfold Py.get, Py.get_default. rewrite lookup_set_eq. reflexivity. Qed.

Lemma get_set_ne d k k' v : k <> k' -> Py.get (Py.set d k v) k' = Py.get d k'.
Proof.
  intros Hne. unfold Py.get, Py.get_default. rewrite lookup_set_ne by exact Hne.
  reflexivity.
Qed.

Lemma eq_str_true v s : Py.eq_str v s = true <-> v = VStr s.
Proof.
  destruct v; simpl; split; try discriminate; intros Heq.
  - apply String.eqb_eq in Heq. subst. reflexivity.
  - inversion Heq. apply String.eqb_refl.
Qed.

Lemma eq_str_false v s : Py.eq_str v s = false <-> v <> VStr s.
Proof.
  rewrite <- eq_str_true. destruct (Py.eq_str v s); split; congruence.
Qed.

End DictFacts.

Section VerifyFacts.
Context `{Host}.

(** What has happened when [verify] returns. *)
Lemma verify_returned task plan step_results s v s' :
  verify task plan step_results s = (Ok v, s') ->
  exists repaired s1 compact oracle w2 allowed steps tools_used,
    retry_failed plan step_results s = (Ok repaired, s1)
    /\ _compact_step_results repaired = Ok compact
    /\ verifier_chat_json task plan compact (world s1) = (Ok (VDict oracle), w2)
    /\ s' = {| world := w2; trace := trace s1 ++ [EvVerifier task plan compact] |}
    /\ fromkeys (allowed_sources (scan_results repaired)
                 ++ repo_urls (repo_items (scan_results repaired))) = Ok allowed
    /\ Py.iter (Py.get_default plan "steps" (VList [])) = Ok steps
    /\ tools_of steps = Ok tools_used
    /\ v = enrich tools_used repaired allowed oracle.
Proof.
  unfold verify. intros Hv.
  apply bind_ok in Hv as (repaired & s1 & Hretry & Hv).
  apply bind_ok in Hv as (compact & s1' & Hcompact & Hv).
  apply lift_ok in Hcompact as [Hcompact ->].
  apply bind_ok in Hv as (oracle & s2 & Horacle & Hv).
  rewrite external_eq in Horacle.
  apply bind_ok in Hv as (allowed & s2' & Hallowed & Hv).
  apply lift_ok in Hallowed as [Hallowed ->].
  apply bind_ok in Hv as (steps & s2' & Hsteps & Hv).
  apply lift_ok in Hsteps as [Hsteps ->].
  apply bind_ok in Hv as (tools_used & s2' & Htools & Hv).
  apply lift_ok in Htools as [Htools ->].
  apply bind_ok in Hv as (verification & s2' & Hassign & Hv).
  apply lift_ok in Hassign as [Hassign ->].
  apply ret_ok in Hv as [<- ->].
  destruct oracle as [| | | | |oracle]; simpl in Hassign; try discriminate.
  inversion Hassign; subst verification.
  inversion Horacle as [[Hfst Hsnd]].
  exists repaired, s1, compact, oracle,
    (verifier_chat_json task plan compact (world s1)).2, allowed, steps, tools_used.
  repeat split; try assumption.
  destruct (verifier_chat_json task plan compact (world s1)) as [o w]. simpl in *.
  congruence.
Qed.

End VerifyFacts.


Section EnrichFacts.
Context `{Host}.

Lemma downgrade_other missing d k :
  k <> "limitations" -> k <> "completeness" ->
  Py.get (downgrade missing d) k = Py.get d k.
Proof.
  intros H1 H2. unfold downgrade. destruct missing; [reflexivity|].
  rewrite get_set_ne by congruence. rewrite get_set_ne by congruence. reflexivity.
Qed.

Lemma narration_other tools_used sc d k :
  k <> "final_answer" -> Py.get (narration_override tools_used sc d) k = Py.get d k.
Proof.
  intros Hk. unfold narration_override. case_decide; [|reflexivity].
  destruct (narration_parts sc); [reflexivity|].
  rewrite get_set_ne by congruence. reflexivity.
Qed.

Lemma speech_other tools_used repaired d allowed k :
  k <> "final_answer" -> k <> "data" ->
  Py.get (speech_override tools_used repaired (d, allowed)).1 k = Py.get d k.
Proof.
  intros H1 H2. unfold speech_override.
  destruct (negb _); [|reflexivity]. simpl.
  rewrite get_set_ne by congruence. rewrite get_set_ne by congruence. reflexivity.
Qed.

Lemma still_missing_nonempty repaired r :
  r ∈ repaired -> Py.get r "status" <> VStr "success" -> still_missing repaired <> [].
Proof.
  intros Hin Hst Hnil.
  assert (Hr : r ∈ still_missing repaired).
  { unfold still_missing. apply list_elem_of_filter. split; [|exact Hin].
    apply eq_str_false in Hst. rewrite Hst. exact I. }
  rewrite Hnil in Hr. inversion Hr.
Qed.

(** The downgrade, read on the object it returns. *)
Lemma downgrade_partial missing d :
  missing <> [] ->
  Py.get (downgrade missing d) "completeness" = VStr "partial"
  /\ Py.get (downgrade missing d) "limitations"
     = VList (match Py.get d "limitations" with VList l => l | _ => [] end
              ++ [VStr fixed_limitation]).
Proof.
  intros Hm. unfold downgrade. destruct missing; [contradiction|]. split.
  - apply get_set_eq.
  - rewrite get_set_ne by discriminate. apply get_set_eq.
Qed.

Lemma enrich_limitations tools_used repaired allowed oracle :
  still_missing repaired <> [] ->
  Py.get (enrich tools_used repaired allowed oracle) "completeness" = VStr "partial"
  /\ Py.get (enrich tools_used repaired allowed oracle) "limitations"
     = VList (match Py.get oracle "limitations" with VList l => l | _ => [] end
              ++ [VStr fixed_limitation]).
Proof.
  intros Hm. unfold enrich.
  destruct (downgrade_partial _
              (Py.set (narration_override tools_used (scan_results repaired)
                         (speech_override tools_used repaired (oracle, allowed)).1)
                      "sources"
                      (VList (speech_override tools_used repaired (oracle, allowed)).2))
              Hm) as [Hc Hl].
  split; [exact Hc|]. rewrite Hl.
  rewrite get_set_ne by discriminate.
  rewrite narration_other by discriminate.
  rewrite speech_other by discriminate. reflexivity.
Qed.

End EnrichFacts.


Section SpeechFacts.
Context `{Host}.

Lemma llm_success_test result :
  llm_success result <->
  Py.eq_str (Py.get result "tool") "llm_generate"
  && Py.eq_str (Py.get result "status") "success" = true.
Proof.
  unfold llm_success. rewrite andb_true_iff, !eq_str_true. reflexivity.
Qed.

Lemma find_speech_first before result after output :
  Forall (fun r => ~ llm_success r) before ->
  llm_success result ->
  Py.get result "output" = VDict output ->
  find_speech (before ++ result :: after) = generated_text output.
Proof.
  intros Hbefore Hres Hout. induction Hbefore as [|r before Hr Hbefore IH]; simpl.
  - apply llm_success_test in Hres. rewrite Hres, Hout. reflexivity.
  - destruct (Py.eq_str (Py.get r "tool") "llm_generate"
              && Py.eq_str (Py.get r "status") "success") eqn:Htest.
    + apply llm_success_test in Htest. contradiction.
    + exact IH.
Qed.

Lemma no_narration_for_speech sc d :
  narration_override {[Py.KStr "llm_generate"]} sc d = d.
Proof.
  unfold narration_override. case_decide as Hint; [|reflexivity].
  exfalso. apply Hint. apply set_eq. intros k. split; [|set_solver].
  intros Hk. apply elem_of_intersection in Hk as [Hk1 Hk2].
  apply elem_of_singleton in Hk1. subst k.
  apply elem_of_union in Hk2 as [Hk2|Hk2]; apply elem_of_singleton in Hk2; discriminate.
Qed.

Lemma enrich_speech repaired allowed oracle text :
  find_speech repaired = text -> text <> "" ->
  let v := enrich {[Py.KStr "llm_generate"]} repaired allowed oracle in
  Py.get v "final_answer" = VStr text
  /\ Py.get v "data" = VDict [("kind", VStr "introduction_speech");
                              ("word_count", VInt (Z.of_nat (length (Py.split text))))]
  /\ Py.get v "sources" = VList [].
Proof.
  intros Hfind Hne v. unfold v, enrich.
  assert (Hsp : speech_override {[Py.KStr "llm_generate"]} repaired (oracle, allowed)
                = (Py.set (Py.set oracle "final_answer" (VStr text))
                          "data" (VDict [("kind", VStr "introduction_speech");
                                         ("word_count",
                                          VInt (Z.of_nat (length (Py.split text))))]),
                   [])).
  { unfold speech_override. rewrite decide_True by reflexivity. rewrite Hfind.
    destruct (String.eqb text "") eqn:Hempty.
    - apply String.eqb_eq in Hempty. contradiction.
    - reflexivity. }
  rewrite Hsp. simpl fst. simpl snd. rewrite no_narration_for_speech.
  repeat split.
  - rewrite downgrade_other by discriminate. rewrite get_set_ne by discriminate.
    rewrite get_set_ne by discriminate. apply get_set_eq.
  - rewrite downgrade_other by discriminate. rewrite get_set_ne by discriminate.
    apply get_set_eq.
  - rewrite downgrade_other by discriminate. apply get_set_eq.
Qed.

End SpeechFacts.


Section FromKeys.



End FromKeys.


Section Sources.
Context `{Host}.






Lemma speech_sources_kept tools_used repaired allowed oracle :
  ~ speech_applies tools_used repaired ->
  speech_override tools_used repaired (oracle, allowed) = (oracle, allowed).
Proof.
  intros Hnot. unfold speech_override.
  destruct (decide (tools_used = {[Py.KStr "llm_generate"]})) as [Heq|Hne];
    [|reflexivity].
  destruct (String.eqb (find_speech repaired) "") eqn:Hempty; [reflexivity|].
  exfalso. apply Hnot. split; [exact Heq|]. intros Hs. rewrite Hs in Hempty. discriminate.
Qed.

End Sources.


Section Narration.
Context `{Host}.

Lemma append_assoc (a b c : string) : (a +:+ b) +:+ c = a +:+ b +:+ c.
Proof.
  induction a as [|x a IH]; [reflexivity|].
  change (String x ((a +:+ b) +:+ c) = String x (a +:+ b +:+ c)).
  rewrite IH. reflexivity.
Qed.

(** Reading a text from its end. *)
Lemma rev_app_append s t : String.rev_app s t = String.rev s +:+ t.
Proof.
  unfold String.rev. revert t. induction s as [|c s IH]; intros t; [reflexivity|].
  cbn [String.rev_app]. rewrite (IH (String c t)), (IH (String c "")).
  rewrite append_assoc. reflexivity.
Qed.

Lemma rev_cons c s : String.rev (String c s) = String.rev s +:+ String c "".
Proof. unfold String.rev at 1. cbn [String.rev_app]. apply rev_app_append. Qed.

Lemma append_empty s : s +:+ "" = s.
Proof.
  induction s as [|c s IH]; [reflexivity|].
  change (String c (s +:+ "") = String c s). rewrite IH. reflexivity.
Qed.

Lemma rev_append s t : String.rev (s +:+ t) = String.rev t +:+ String.rev s.
Proof.
  induction s as [|c s IH].
  - change ("" +:+ t) with t. rewrite append_empty. reflexivity.
  - change (String c s +:+ t) with (String c (s +:+ t)).
    rewrite !rev_cons, IH, append_assoc. reflexivity.
Qed.

Lemma rev_involutive s : String.rev (String.rev s) = s.
Proof.
  induction s as [|c s IH]; [reflexivity|].
  rewrite rev_cons, rev_append, IH. reflexivity.
Qed.

(** The bytes of the whitespace characters of several bytes. *)
Lemma is_space2_bytes a b :
  Py.is_space2 a b = true ->
  (nat_of_ascii a = 194 /\ 128 <= nat_of_ascii b)%nat.
Proof.
  unfold Py.is_space2. intros Hs. apply andb_prop in Hs as [Ha Hb].
  apply Nat.eqb_eq in Ha. split; [exact Ha|].
  apply orb_prop in Hb as [Hb|Hb]; apply Nat.eqb_eq in Hb; lia.
Qed.

Lemma is_space3_bytes a b c :
  Py.is_space3 a b c = true ->
  (225 <= nat_of_ascii a /\ 128 <= nat_of_ascii b /\ 128 <= nat_of_ascii c)%nat.
Proof.
  unfold Py.is_space3. intros Hs.
  repeat match goal with
         | H : (_ || _) = true |- _ => apply orb_prop in H as [H|H]
         | H : (_ && _) = true |- _ => apply andb_prop in H as [? ?]
         | H : (_ =? _)%nat = true |- _ => apply Nat.eqb_eq in H
         | H : (_ <=? _)%nat = true |- _ => apply Nat.leb_le in H
         end; lia.
Qed.

(** A text that starts with a plain character starts with no
    whitespace, from whichever end it is read. *)
Lemma skip_spaces_plain backwards c rest :
  plain c = true -> Py.skip_spaces backwards (String c rest) = String c rest.
Proof.
  unfold plain. intros Hc. apply andb_prop in Hc as [Hns Hascii].
  apply negb_true_iff in Hns. apply Nat.ltb_lt in Hascii.
  cbn [Py.skip_spaces]. rewrite Hns.
  destruct rest as [|b rest2]; [reflexivity|].
  destruct (Py.space2 backwards c b) eqn:H2.
  { unfold Py.space2 in H2. destruct backwards; apply is_space2_bytes in H2; lia. }
  destruct rest2 as [|d rest3]; [reflexivity|].
  destruct (Py.space3 backwards c b d) eqn:H3; [|reflexivity].
  unfold Py.space3 in H3. destruct backwards; apply is_space3_bytes in H3; lia.
Qed.

Lemma rstrip_full_stop body : Py.rstrip (body +:+ ".") = body +:+ ".".
Proof.
  unfold Py.rstrip. rewrite rev_append.
  change (String.rev "." +:+ String.rev body) with (String "." (String.rev body)).
  rewrite (skip_spaces_plain true "." (String.rev body) eq_refl).
  change (String "." (String.rev body)) with (String.rev "." +:+ String.rev body).
  rewrite <- rev_append. apply rev_involutive.
Qed.

Lemma strip_sentence s : sentence s -> Py.strip s = s.
Proof.
  intros [(c & rest & -> & Hc) (body & Hbody)]. unfold Py.strip, Py.lstrip.
  rewrite (skip_spaces_plain false c rest Hc).
  rewrite Hbody. apply rstrip_full_stop.
Qed.

Lemma sentence_join a b : sentence a -> sentence b -> sentence (a +:+ " " +:+ b).
Proof.
  intros [(c & rest & -> & Hc) _] [_ (body & ->)]. split.
  - exists c, (rest +:+ " " +:+ body +:+ "."). split; [reflexivity|exact Hc].
  - exists (String c rest +:+ " " +:+ body). rewrite !append_assoc. reflexivity.
Qed.

Lemma repositories_sentence_is_sentence body :
  sentence ("Top repositories: " +:+ body +:+ ".").
Proof.
  split.
  - eexists _, _. split; [reflexivity|reflexivity].
  - exists ("Top repositories: " +:+ body). rewrite append_assoc. reflexivity.
Qed.

Lemma weather_report_is_sentence info : sentence (weather_report info).
Proof.
  unfold weather_report.
  destruct (Py.truthy (Py.get info "weather_summary")
            || Py.is_not_none (Py.get info "temperature_c")); split.
  - eexists _, _. split; reflexivity.
  - eexists. rewrite <- !append_assoc. reflexivity.
  - eexists _, _. split; reflexivity.
  - eexists. rewrite <- !append_assoc. reflexivity.
Qed.

(** The code's sentence on the weather is the report. *)
Lemma weather_sentence_report info : weather_sentence info = weather_report info.
Proof.
  unfold weather_sentence, weather_report.
  destruct (Py.truthy (Py.get info "location")); simpl; rewrite ?append_assoc;
    reflexivity.
Qed.

Lemma repo_bit_entry item :
  repo_bit item = if listable item then Some (entry_of item) else None.
Proof.
  unfold repo_bit, listable, entry_of, listed_name.
  destruct (Py.truthy (Py.or (Py.get item "full_name") (Py.get item "name"))
            && Py.truthy (Py.get item "url")); [|reflexivity].
  destruct (Py.is_not_none (Py.get item "stars")); simpl;
    rewrite ?append_assoc; simpl; reflexivity.
Qed.

Lemma omap_repo_bit (items : list dict) :
  omap repo_bit items = entry_of <$> filter (fun item => Is_true (listable item)) items.
Proof.
  induction items as [|item items IH]; [reflexivity|].
  rewrite filter_cons.
  change (omap repo_bit (item :: items))
    with (match repo_bit item with
          | Some bit => bit :: omap repo_bit items
          | None => omap repo_bit items
          end).
  rewrite repo_bit_entry, IH.
  destruct (listable item) eqn:Hl.
  - rewrite decide_True by exact I. reflexivity.
  - rewrite decide_False by (intros []). reflexivity.
Qed.

Lemma repo_sentence_spec items :
  repo_sentence items = match repositories_sentence items with
                        | Some r => [r]
                        | None => []
                        end.
Proof.
  unfold repo_sentence, repositories_sentence. rewrite omap_repo_bit.
  destruct items as [|item items]; [reflexivity|].
  destruct (filter _ (take 3 (item :: items))); reflexivity.
Qed.

Lemma repositories_sentence_sentence items r :
  repositories_sentence items = Some r -> sentence r.
Proof.
  unfold repositories_sentence.
  destruct (filter _ (take 3 items)); [discriminate|].
  intros Heq. inversion Heq. apply repositories_sentence_is_sentence.
Qed.

(** What the narration writes, against the composed answer. *)
Lemma narration_composed sc :
  match composed_answer (repositories_sentence (repo_items sc)) (weather_info sc) with
  | Some answer =>
      narration_parts sc <> []
      /\ Py.strip (Py.join " " (narration_parts sc)) = answer
  | None => narration_parts sc = []
  end.
Proof.
  unfold narration_parts, composed_answer. rewrite repo_sentence_spec.
  destruct (repositories_sentence (repo_items sc)) as [r|] eqn:Hr;
    destruct (weather_info sc) as [info|]; simpl.
  - split; [discriminate|]. rewrite weather_sentence_report.
    apply strip_sentence. apply sentence_join.
    + eapply repositories_sentence_sentence. exact Hr.
    + apply weather_report_is_sentence.
  - split; [discriminate|]. apply strip_sentence.
    eapply repositories_sentence_sentence. exact Hr.
  - split; [discriminate|]. rewrite weather_sentence_report.
    apply strip_sentence. apply weather_report_is_sentence.
  - reflexivity.
Qed.

End Narration.


Section PlannerFacts.
Context `{Host}.

Lemma normalize_step_ok idx step n :
  normalize_step idx step = Ok n ->
  exists d name fn,
    step = VDict d
    /\ Py.get d "tool" = VStr name
    /\ TOOL_REGISTRY !! name = Some fn
    /\ n = VDict [("id", assigned_id idx d);
                  ("tool", Py.get d "tool");
                  ("args", Py.or (Py.get d "args") (VDict []));
                  ("purpose", Py.or (Py.get d "purpose") (VStr ""))].
Proof.
  unfold normalize_step. destruct step as [| | | | |d]; simpl; try discriminate.
  destruct (Py.truthy (Py.get d "tool")); simpl; [|discriminate].
  destruct (Py.hash_key (Py.get d "tool")) as [k|e] eqn:Hk; [|discriminate].
  destruct (registry_lookup k) as [[name fn]|] eqn:Hreg; [|discriminate].
  intros Heq. inversion Heq; subst n.
  unfold registry_lookup in Hreg. destruct k as [|z|name']; try discriminate.
  destruct (TOOL_REGISTRY !! name') as [fn'|] eqn:Hfn; [|discriminate].
  simpl in Hreg. inversion Hreg; subst name' fn'.
  assert (Htool : Py.get d "tool" = VStr name).
  { destruct (Py.get d "tool") as [| [] | | |l|l]; simpl in Hk; try discriminate.
    inversion Hk; subst. reflexivity. }
  exists d, name, fn. repeat split; assumption.
Qed.

Lemma normalize_steps_ok steps :
  forall idx normalized,
    normalize_steps idx steps = Ok normalized ->
    exists ds ns,
      steps = VDict <$> ds /\ normalized = VDict <$> ns
      /\ length ns = length ds
      /\ (forall i d, ds !! i = Some d ->
            exists n, ns !! i = Some n
                      /\ Py.get n "id" = assigned_id (idx + i) d
                      /\ Py.get n "tool" = Py.get d "tool"
                      /\ exists name, Py.get d "tool" = VStr name
                                      /\ is_Some (TOOL_REGISTRY !! name)).
Proof.
  induction steps as [|step steps IH]; intros idx normalized Hn; simpl in Hn.
  - inversion Hn; subst. exists [], []. repeat split. intros i d Hd. inversion Hd.
  - destruct (normalize_step idx step) as [n|e] eqn:Hstep; [|discriminate].
    destruct (normalize_steps (S idx) steps) as [rest|e] eqn:Hrest; [|discriminate].
    inversion Hn; subst normalized.
    destruct (normalize_step_ok _ _ _ Hstep) as (d & name & fn & -> & Htool & Hfn & ->).
    destruct (IH _ _ Hrest) as (ds & ns & -> & -> & Hlen & Hall).
    eexists (d :: ds), (_ :: ns). split; [reflexivity|]. split; [reflexivity|].
    split; [simpl; rewrite Hlen; reflexivity|].
    intros [|i] d' Hd'; simpl in Hd'.
    + inversion Hd'; subst d'. eexists. split; [reflexivity|].
      rewrite Nat.add_0_r. repeat split. exists name. split; [exact Htool|eauto].
    + destruct (Hall i d' Hd') as (n & Hn' & Hid & Htl & Hreg).
      exists n. split; [exact Hn'|]. split; [|split; [exact Htl|exact Hreg]].
      rewrite Hid. f_equal. lia.
Qed.

(** What [_normalize_plan] returns when it accepts the oracle's output. *)
Lemma normalize_plan_ok plan task p :
  _normalize_plan plan task = Ok p ->
  exists pd ds ns,
    plan = VDict pd
    /\ Py.get pd "steps" = VList (VDict <$> ds)
    /\ ds <> []
    /\ p = [("goal", Py.or (Py.get pd "goal") (VStr task)); ("steps", VList (VDict <$> ns))]
    /\ length ns = length ds
    /\ (forall i d, ds !! i = Some d ->
          exists n, ns !! i = Some n
                    /\ Py.get n "id" = assigned_id (S i) d
                    /\ Py.get n "tool" = Py.get d "tool"
                    /\ exists name, Py.get d "tool" = VStr name
                                    /\ is_Some (TOOL_REGISTRY !! name)).
Proof.
  unfold _normalize_plan. destruct plan as [| | | | |pd]; try discriminate.
  destruct (Py.get pd "steps") as [| | | |steps|] eqn:Hsteps; try discriminate.
  destruct steps as [|first others]; [discriminate|].
  destruct (normalize_steps 1 (first :: others)) as [normalized|e] eqn:Hn; [|discriminate].
  intros Heq. inversion Heq; subst p.
  destruct (normalize_steps_ok _ _ _ Hn) as (ds & ns & Hds & -> & Hlen & Hall).
  exists pd, ds, ns. split; [reflexivity|]. split; [rewrite Hsteps, Hds; reflexivity|].
  split; [intros ->; discriminate|]. split; [reflexivity|]. split; [exact Hlen|exact Hall].
Qed.

Lemma default_id_inj (i j : nat) :
  VStr ("step_" +:+ pretty i) = VStr ("step_" +:+ pretty j) -> i = j.
Proof.
  intros Heq. inversion Heq as [Hs].
  change (pretty i = pretty j) in Hs. apply (inj pretty) in Hs. exact Hs.
Qed.

(** Ids are unique as soon as those the oracle supplied are. *)
Lemma assigned_ids_unique (ds ns : list dict) :
  length ns = length ds ->
  (forall i d, ds !! i = Some d ->
     exists n, ns !! i = Some n /\ Py.get n "id" = assigned_id (S i) d) ->
  supplied_ids_distinct ds ->
  NoDup (step_ids ns).
Proof.
  intros Hlen Hall Hdistinct. apply NoDup_alt. intros i j id Hi Hj.
  unfold step_ids in Hi, Hj. rewrite list_lookup_fmap in Hi, Hj.
  destruct (ns !! i) as [ni|] eqn:Hni; [|discriminate].
  destruct (ns !! j) as [nj|] eqn:Hnj; [|discriminate].
  simpl in Hi, Hj. inversion Hi as [Hidi]. inversion Hj as [Hidj].
  assert (Hli : (i < length ds)%nat) by (rewrite <- Hlen; eapply lookup_lt_Some; eauto).
  assert (Hlj : (j < length ds)%nat) by (rewrite <- Hlen; eapply lookup_lt_Some; eauto).
  destruct (lookup_lt_is_Some_2 _ _ Hli) as [di Hdi].
  destruct (lookup_lt_is_Some_2 _ _ Hlj) as [dj Hdj].
  destruct (Hall i di Hdi) as (ni' & Hni' & Hai). rewrite Hni in Hni'.
  inversion Hni'; subst ni'.
  destruct (Hall j dj Hdj) as (nj' & Hnj' & Haj). rewrite Hnj in Hnj'.
  inversion Hnj'; subst nj'.
  rewrite Hai in Hidi. rewrite Haj in Hidj.
  destruct (decide (i = j)) as [Heq|Hne]; [exact Heq|exfalso].
  destruct (Py.truthy (Py.get di "id")) eqn:Hti.
  - apply (Hdistinct i j di dj Hne Hdi Hdj Hti).
    unfold assigned_id in Hidi. rewrite Hti in Hidi. congruence.
  - destruct (Py.truthy (Py.get dj "id")) eqn:Htj.
    + apply (Hdistinct j i dj di (not_eq_sym Hne) Hdj Hdi Htj).
      unfold assigned_id in Hidj. rewrite Htj in Hidj. congruence.
    + unfold assigned_id in Hidi, Hidj. rewrite Hti in Hidi. rewrite Htj in Hidj.
      apply Hne. assert (S i = S j) as Hs by (apply default_id_inj; congruence).
      lia.
Qed.

End PlannerFacts.


Section Traces.
Context `{Host}.

Lemma adds_refl P s : adds P s s.
Proof. exists []. rewrite app_nil_r. split; [reflexivity|constructor]. Qed.

Lemma adds_trans P s1 s2 s3 : adds P s1 s2 -> adds P s2 s3 -> adds P s1 s3.
Proof.
  intros (e1 & H1 & F1) (e2 & H2 & F2). exists (e1 ++ e2).
  rewrite H2, H1, app_assoc. split; [reflexivity|]. apply Forall_app; auto.
Qed.

Lemma adds_weaken (P Q : event -> Prop) s s' :
  (forall ev, P ev -> Q ev) -> adds P s s' -> adds Q s s'.
Proof.
  intros Himp (evs & Heq & Hall). exists evs. split; [exact Heq|].
  eapply Forall_impl; eauto.
Qed.

Lemma tool_calls_adds s s' : tool_calls_only s s' <-> adds is_tool_event s s'.
Proof. reflexivity. Qed.

Lemma bind_cases {A B} (m : M A) (k : A -> M B) s o s' :
  bind m k s = (o, s') ->
  (exists e, m s = (Raised e, s') /\ o = Raised e)
  \/ (exists a s1, m s = (Ok a, s1) /\ k a s1 = (o, s')).
Proof.
  unfold bind. destruct (m s) as [[a|e] s1]; intros Heq.
  - right. eauto.
  - left. inversion Heq; subst. eauto.
Qed.

Lemma bind_adds {A B} P (m : M A) (k : A -> M B) s o s' :
  (forall o1 s1, m s = (o1, s1) -> adds P s s1) ->
  (forall a s1 o2 s2, k a s1 = (o2, s2) -> adds P s1 s2) ->
  bind m k s = (o, s') -> adds P s s'.
Proof.
  intros Hm Hk Hb. apply bind_cases in Hb as [(e & Hms & _)|(a & s1 & Hms & Hks)].
  - eapply Hm. exact Hms.
  - eapply adds_trans; [eapply Hm; exact Hms|eapply Hk; exact Hks].
Qed.

Lemma lift_state {A} (r : outcome A) s o s' : lift r s = (o, s') -> s' = s.
Proof. destruct r; simpl; unfold ret, raise; intros Heq; inversion Heq; reflexivity. Qed.

Lemma ret_state {A} (a : A) s o s' : ret a s = (o, s') -> s' = s.
Proof. unfold ret. intros Heq. inversion Heq. reflexivity. Qed.

Lemma mapM_adds {A B} P (f : A -> M B) xs :
  (forall x s o s', f x s = (o, s') -> adds P s s') ->
  forall s o s', mapM f xs s = (o, s') -> adds P s s'.
Proof.
  intros Hf. induction xs as [|x xs IH]; intros s o s' Hmap; simpl in Hmap.
  - apply ret_state in Hmap. subst. apply adds_refl.
  - eapply bind_adds; [| |exact Hmap].
    + intros o1 s1. apply Hf.
    + intros a s1 o2 s2 Hrest. eapply bind_adds; [| |exact Hrest].
      * intros o3 s3. apply IH.
      * intros ys s3 o4 s4 Hret. apply ret_state in Hret. subst. apply adds_refl.
Qed.

Lemma foldM_adds {A B} P (f : B -> A -> M B) xs :
  (forall acc x s o s', f acc x s = (o, s') -> adds P s s') ->
  forall acc s o s', foldM f acc xs s = (o, s') -> adds P s s'.
Proof.
  intros Hf. induction xs as [|x xs IH]; intros acc s o s' Hfold; simpl in Hfold.
  - apply ret_state in Hfold. subst. apply adds_refl.
  - eapply bind_adds; [| |exact Hfold].
    + intros o1 s1. apply Hf.
    + intros a s1 o2 s2. apply IH.
Qed.

Lemma run_step_of_adds step s o s' :
  run_step_of step s = (o, s') -> adds is_tool_event s s'.
Proof.
  unfold run_step_of. intros Hrun. eapply bind_adds; [| |exact Hrun].
  - intros o1 s1 Hl. apply lift_state in Hl. subst. apply adds_refl.
  - intros d s1 o2 s2. apply run_step_trace.
Qed.

Lemma worker_adds items idx s o s' :
  worker items idx s = (o, s') -> adds is_tool_event s s'.
Proof.
  unfold worker. destruct (items !! idx) as [step|].
  - intros Hw. eapply bind_adds; [| |exact Hw].
    + intros o1 s1 Htry. unfold try in Htry.
      destruct (run_step_of step s) as [r s2] eqn:Hrun. inversion Htry; subst.
      eapply run_step_of_adds. exact Hrun.
    + intros a s1 o2 s2 Hret. apply ret_state in Hret. subst. apply adds_refl.
  - intros Hret. apply ret_state in Hret. subst. apply adds_refl.
Qed.

Lemma collect_adds steps items results done s o s' :
  collect steps items results done s = (o, s') -> adds is_tool_event s s'.
Proof.
  unfold collect. destruct done as [idx [result|exc]].
  - intros Hret. apply ret_state in Hret. subst. apply adds_refl.
  - intros Hc. eapply bind_adds; [| |exact Hc].
    + intros o1 s1 Hl. apply lift_state in Hl. subst. apply adds_refl.
    + intros sv s1 o2 s2 Hc2. eapply bind_adds; [| |exact Hc2].
      * intros o3 s3 Hl. apply lift_state in Hl. subst. apply adds_refl.
      * intros d s3 o4 s4 Hret. apply ret_state in Hret. subst. apply adds_refl.
Qed.

(** Whatever its outcome, [execute] adds only tool calls to the trace. *)
Lemma execute_adds plan s o s' :
  execute plan s = (o, s') -> adds is_tool_event s s'.
Proof.
  unfold execute. intros He. eapply bind_adds; [| |exact He].
  { intros o1 s1 Hl. apply lift_state in Hl. subst. apply adds_refl. }
  intros n s1 o2 s2 He2. eapply bind_adds; [| |exact He2].
  { intros o1 s3 Hl. apply lift_state in Hl. subst. apply adds_refl. }
  intros items s3 o4 s4 He3. destruct (n <=? 1)%nat.
  - eapply mapM_adds; [|exact He3]. intros x. apply run_step_of_adds.
  - eapply bind_adds; [| |exact He3].
    { intros o5 s5 Ho. inversion Ho; subst. apply adds_refl. }
    intros order s5 o6 s6 He4. eapply bind_adds; [| |exact He4].
    { intros o7 s7. apply mapM_adds. intros x. apply worker_adds. }
    intros futures s7 o8 s8 He5. eapply bind_adds; [| |exact He5].
    { intros o9 s9. apply foldM_adds. intros acc x. apply collect_adds. }
    intros results s9 o10 s10 Hret. apply ret_state in Hret. subst. apply adds_refl.
Qed.

Lemma retry_one_adds step_map result s o s' :
  retry_one step_map result s = (o, s') -> adds is_tool_event s s'.
Proof.
  unfold retry_one. destruct (Py.eq_str (Py.get result "status") "error").
  - intros Hr. eapply bind_adds; [| |exact Hr].
    + intros o1 s1 Hl. apply lift_state in Hl. subst. apply adds_refl.
    + intros k s1 o2 s2. cbv beta. repeat case_match.
      * apply run_step_of_adds.
      * intros Hret. apply ret_state in Hret. subst. apply adds_refl.
      * intros Hret. apply ret_state in Hret. subst. apply adds_refl.
  - intros Hret. apply ret_state in Hret. subst. apply adds_refl.
Qed.

Lemma retry_failed_adds plan step_results s o s' :
  retry_failed plan step_results s = (o, s') -> adds is_tool_event s s'.
Proof.
  unfold retry_failed. intros Hr. eapply bind_adds; [| |exact Hr].
  { intros o1 s1 Hl. apply lift_state in Hl. subst. apply adds_refl. }
  intros steps s1 o2 s2 Hr2. eapply bind_adds; [| |exact Hr2].
  { intros o1 s3 Hl. apply lift_state in Hl. subst. apply adds_refl. }
  intros step_map s3 o4 s4. apply mapM_adds. intros x. apply retry_one_adds.
Qed.

Lemma tool_event_pass task ev : is_tool_event ev -> pass_event task ev.
Proof. destruct ev; simpl; intros []; exact I. Qed.

(** Whatever its outcome, [verify] adds tool calls and at most a call
    of the oracle about the task it was given. *)
Lemma verify_adds task plan step_results s o s' :
  verify task plan step_results s = (o, s') -> adds (pass_event task) s s'.
Proof.
  unfold verify. intros Hv. eapply bind_adds; [| |exact Hv].
  { intros o1 s1 Hr. eapply adds_weaken; [apply tool_event_pass|].
    eapply retry_failed_adds. exact Hr. }
  intros repaired s1 o2 s2 Hv2. eapply bind_adds; [| |exact Hv2].
  { intros o1 s3 Hl. apply lift_state in Hl. subst. apply adds_refl. }
  intros compact s3 o4 s4 Hv3. eapply bind_adds; [| |exact Hv3].
  { intros o5 s5 Hext. rewrite external_eq in Hext. inversion Hext; subst.
    eexists. split; [reflexivity|]. constructor; [reflexivity|constructor]. }
  intros oracle s5 o6 s6 Hv4. eapply bind_adds; [| |exact Hv4].
  { intros o1 s7 Hl. apply lift_state in Hl. subst. apply adds_refl. }
  intros allowed s7 o8 s8 Hv5. eapply bind_adds; [| |exact Hv5].
  { intros o1 s9 Hl. apply lift_state in Hl. subst. apply adds_refl. }
  intros steps s9 o10 s10 Hv6. eapply bind_adds; [| |exact Hv6].
  { intros o1 s11 Hl. apply lift_state in Hl. subst. apply adds_refl. }
  intros tools s11 o12 s12 Hv7. eapply bind_adds; [| |exact Hv7].
  { intros o1 s13 Hl. apply lift_state in Hl. subst. apply adds_refl. }
  intros verification s13 o14 s14 Hret. apply ret_state in Hret. subst. apply adds_refl.
Qed.

(** [create_plan] calls the planner's oracle once, whatever comes of it. *)
Lemma create_plan_trace task s o s' :
  create_plan task s = (o, s') -> trace s' = trace s ++ [EvPlanner task].
Proof.
  unfold create_plan. intros Hc.
  apply bind_cases in Hc as [(e & Hext & _)|(plan & s1 & Hext & Hl)];
    rewrite external_eq in Hext; inversion Hext; subst.
  - reflexivity.
  - apply lift_state in Hl. subst. reflexivity.
Qed.

End Traces.


Section RunFacts.
Context `{Host}.

Lemma pass_events_planner task evs :
  Forall (pass_event task) evs -> planner_calls evs = 0%nat.
Proof.
  unfold planner_calls, planner_tasks.
  induction 1 as [|ev evs Hev Hevs IH]; [reflexivity|].
  destruct ev; simpl in *; try contradiction; exact IH.
Qed.

Lemma pass_events_verifier task evs :
  Forall (pass_event task) evs -> Forall (fun t => t = task) (verifier_tasks evs).
Proof.
  unfold verifier_tasks. induction 1 as [|ev evs Hev Hevs IH]; [constructor|].
  destruct ev; simpl in *; try contradiction; try exact IH.
  constructor; [exact Hev|exact IH].
Qed.

Lemma planner_calls_app a b : planner_calls (a ++ b) = (planner_calls a + planner_calls b)%nat.
Proof. unfold planner_calls, planner_tasks. rewrite omap_app, length_app. reflexivity. Qed.

Lemma verifier_tasks_app a b : verifier_tasks (a ++ b) = verifier_tasks a ++ verifier_tasks b.
Proof. unfold verifier_tasks. apply omap_app. Qed.

(** A run calls the planner at most twice, and its verifier always
    about the task of the run. *)
Lemma run_trace_bounds task evs :
  run_trace task evs ->
  (1 <= planner_calls evs <= 2)%nat
  /\ Forall (fun t => t = task) (verifier_tasks evs).
Proof.
  intros (first & Hfirst & [->|(rt & second & -> & Hsecond)]).
  - change (EvPlanner task :: first) with ([EvPlanner task] ++ first).
    rewrite planner_calls_app, verifier_tasks_app.
    rewrite (pass_events_planner _ _ Hfirst). split; [simpl; lia|].
    apply pass_events_verifier. exact Hfirst.
  - change (EvPlanner task :: first ++ EvPlanner rt :: second)
      with ([EvPlanner task] ++ first ++ [EvPlanner rt] ++ second).
    rewrite !planner_calls_app, !verifier_tasks_app.
    rewrite (pass_events_planner _ _ Hfirst), (pass_events_planner _ _ Hsecond).
    split; [simpl; lia|]. simpl. apply Forall_app. split.
    + apply pass_events_verifier. exact Hfirst.
    + apply pass_events_verifier. exact Hsecond.
Qed.

Lemma replan_task_not_empty task steps final replan_task :
  _build_replan_task task steps final = Ok (Some replan_task) ->
  String.eqb replan_task "" = false.
Proof.
  unfold _build_replan_task. intros Hb.
  assert (Hshape : exists rest, replan_task = task +:+ newline +:+ rest).
  { destruct (_extract_step_errors steps) as [|e es];
      destruct (Py.truthy (Py.get_default final "limitations" (VList []))) eqn:Ht;
      try discriminate;
      try (destruct (Py.iter (Py.get_default final "limitations" (VList [])));
           try discriminate);
      inversion Hb; eexists; reflexivity. }
  destruct Hshape as [rest ->]. destruct task; reflexivity.
Qed.

End RunFacts.


Section RunBody.
Context `{Host}.

(** What has happened when the body of [run_task] returns. *)
Lemma run_body_returned task s resp s' :
  run_body task s = (Ok resp, s') ->
  exists first s3,
    pass_ran task task s first s3
    /\ resp_task resp = task
    /\ ((resp_auto_replan resp = None /\ s' = s3 /\ returns_pass resp first
         /\ (Py.eq_str (Py.get (pass_final first) "completeness") "partial" = false
             \/ _build_replan_task task (pass_steps first) (pass_final first) = Ok None))
        \/ exists replan_task second,
             Py.eq_str (Py.get (pass_final first) "completeness") "partial" = true
             /\ _build_replan_task task (pass_steps first) (pass_final first)
                = Ok (Some replan_task)
             /\ pass_ran replan_task task s3 second s'
             /\ resp_auto_replan resp = Some (envelope_of replan_task second)
             /\ returns_pass resp
                  (if Py.eq_str (Py.get (pass_final second) "completeness") "complete"
                   then second else first)).
Proof.
  unfold run_body. intros Hrun.
  apply bind_ok in Hrun as (plan & s1 & Hplan & Hrun).
  apply bind_ok in Hrun as (steps & s2 & Hexec & Hrun).
  apply bind_ok in Hrun as (final & s3 & Hverify & Hrun).
  apply bind_ok in Hrun as (tool_time_ms & s3' & Htime & Hrun).
  apply lift_ok in Htime as [Htime ->].
  apply bind_ok in Hrun as ([[[plan' steps'] final'] auto_replan] & s4 & Hreplan & Hrun).
  apply ret_ok in Hrun as [<- ->].
  exists {| pass_plan := plan; pass_steps := steps; pass_final := final |}, s3.
  split; [exists s1, s2; auto|]. split; [reflexivity|]. cbn [pass_plan pass_steps pass_final].
  destruct (Py.eq_str (Py.get final "completeness") "partial") eqn:Hpartial.
  - apply bind_ok in Hreplan as (replan_task & s3' & Hbuild & Hreplan).
    apply lift_ok in Hbuild as [Hbuild ->].
    destruct replan_task as [replan_task|].
    + rewrite (replan_task_not_empty _ _ _ _ Hbuild) in Hreplan. cbn [negb] in Hreplan.
      apply bind_ok in Hreplan as (rplan & s5 & Hrplan & Hreplan).
      apply bind_ok in Hreplan as (rsteps & s6 & Hrexec & Hreplan).
      apply bind_ok in Hreplan as (rfinal & s7 & Hrverify & Hreplan).
      right. exists replan_task,
        {| pass_plan := rplan; pass_steps := rsteps; pass_final := rfinal |}.
      split; [reflexivity|]. split; [exact Hbuild|].
      cbn [pass_plan pass_steps pass_final].
      destruct (Py.eq_str (Py.get rfinal "completeness") "complete");
        apply ret_ok in Hreplan as [Heq ->]; inversion Heq; subst;
        (split; [exists s5, s6; auto|]); split; try reflexivity; repeat split.
    + apply ret_ok in Hreplan as [Heq ->]. inversion Heq; subst.
      left. repeat split. right. exact Hbuild.
  - apply ret_ok in Hreplan as [Heq ->]. inversion Heq; subst.
    left. repeat split. left. reflexivity.
Qed.

Ltac same_state H := apply lift_state in H; subst.

Ltac flatten_trace :=
  repeat (rewrite <- app_assoc || rewrite <- app_comm_cons); reflexivity.

(** The events of the body of [run_task], whatever its outcome. *)
Lemma run_body_trace task s o s' :
  run_body task s = (o, s') ->
  exists evs, trace s' = trace s ++ evs /\ run_trace task evs.
Proof.
  unfold run_body. intros Hrun.
  assert (Hone : forall st first,
             trace st = trace s ++ EvPlanner task :: first ->
             Forall (pass_event task) first ->
             exists evs, trace st = trace s ++ evs /\ run_trace task evs).
  { intros st first Htr Hfirst. eexists. split; [exact Htr|].
    exists first. split; [exact Hfirst|]. left. reflexivity. }
  assert (Htwo : forall st first rt second,
             trace st = trace s ++ EvPlanner task :: first ++ EvPlanner rt :: second ->
             Forall (pass_event task) first ->
             Forall (pass_event task) second ->
             exists evs, trace st = trace s ++ evs /\ run_trace task evs).
  { intros st first rt second Htr Hfirst Hsecond. eexists. split; [exact Htr|].
    exists first. split; [exact Hfirst|]. right. exists rt, second. auto. }
  apply bind_cases in Hrun as [(e & Hplan & _)|(plan & s1 & Hplan & Hrun)];
    apply create_plan_trace in Hplan.
  { apply (Hone _ []); [exact Hplan|constructor]. }
  assert (Hexec : forall o2 s2, execute plan s1 = (o2, s2) ->
            exists e1, trace s2 = trace s ++ EvPlanner task :: e1
                       /\ Forall (pass_event task) e1).
  { intros o2 s2 He. apply execute_adds in He as (e1 & Htr & Hall).
    exists e1. split.
    - rewrite Htr, Hplan. flatten_trace.
    - eapply Forall_impl; [exact Hall|]. intros ev. apply tool_event_pass. }
  apply bind_cases in Hrun as [(e & He & _)|(steps & s2 & He & Hrun)];
    apply Hexec in He as (e1 & Htr1 & Hall1).
  { apply (Hone _ e1); assumption. }
  assert (Hverify : forall o3 s3, verify task plan steps s2 = (o3, s3) ->
            exists e2, trace s3 = trace s ++ EvPlanner task :: e2
                       /\ Forall (pass_event task) e2).
  { intros o3 s3 Hv. apply verify_adds in Hv as (e2 & Htr & Hall).
    exists (e1 ++ e2). split.
    - rewrite Htr, Htr1. flatten_trace.
    - apply Forall_app. auto. }
  apply bind_cases in Hrun as [(e & Hv & _)|(final & s3 & Hv & Hrun)];
    apply Hverify in Hv as (first & Htr & Hfirst).
  { apply (Hone _ first); assumption. }
  apply bind_cases in Hrun as [(e & Ht & _)|(tool_time_ms & s3' & Ht & Hrun)];
    same_state Ht.
  { apply (Hone _ first); assumption. }
  assert (Hreplan : forall o4 s4,
            (if Py.eq_str (Py.get final "completeness") "partial" then
               replan_task <- lift (_build_replan_task task steps final) ;;
               match replan_task with
               | Some replan_task =>
                   if negb (String.eqb replan_task "") then
                     replan_plan <- create_plan replan_task ;;
                     replan_steps <- execute replan_plan ;;
                     replan_final <- verify task replan_plan replan_steps ;;
                     let auto_replan :=
                       {| env_triggered := true;
                          env_reason := "Previous attempt incomplete";
                          env_task := replan_task;
                          env_plan := replan_plan;
                          env_steps := replan_steps;
                          env_final := replan_final |} in
                     if Py.eq_str (Py.get replan_final "completeness") "complete" then
                       ret (replan_plan, replan_steps, replan_final, Some auto_replan)
                     else ret (plan, steps, final, Some auto_replan)
                   else ret (plan, steps, final, None)
               | None => ret (plan, steps, final, None)
               end
             else ret (plan, steps, final, None)) s3 = (o4, s4) ->
            exists evs, trace s4 = trace s ++ evs /\ run_trace task evs).
  { intros o4 s4 Hr.
    destruct (Py.eq_str (Py.get final "completeness") "partial").
    2:{ apply ret_state in Hr. subst. apply (Hone _ first); assumption. }
    apply bind_cases in Hr as [(e & Hb & _)|(replan_task & s3' & Hb & Hr)];
      same_state Hb.
    { apply (Hone _ first); assumption. }
    destruct replan_task as [replan_task|].
    2:{ apply ret_state in Hr. subst. apply (Hone _ first); assumption. }
    destruct (negb (String.eqb replan_task "")).
    2:{ apply ret_state in Hr. subst. apply (Hone _ first); assumption. }
    apply bind_cases in Hr as [(e & Hp & _)|(rplan & s5 & Hp & Hr)];
      apply create_plan_trace in Hp.
    { apply (Htwo _ first replan_task []); [|assumption|constructor].
      rewrite Hp, Htr. flatten_trace. }
    assert (Hrexec : forall o6 s6, execute rplan s5 = (o6, s6) ->
              exists e3, trace s6 = trace s ++ EvPlanner task :: first
                                    ++ EvPlanner replan_task :: e3
                         /\ Forall (pass_event task) e3).
    { intros o6 s6 He. apply execute_adds in He as (e3 & Htr3 & Hall3).
      exists e3. split.
      - rewrite Htr3, Hp, Htr. flatten_trace.
      - eapply Forall_impl; [exact Hall3|]. intros ev. apply tool_event_pass. }
    apply bind_cases in Hr as [(e & He & _)|(rsteps & s6 & He & Hr)];
      apply Hrexec in He as (e3 & Htr3 & Hall3).
    { apply (Htwo _ first replan_task e3); assumption. }
    assert (Hrverify : forall o7 s7, verify task rplan rsteps s6 = (o7, s7) ->
              exists e4, trace s7 = trace s ++ EvPlanner task :: first
                                    ++ EvPlanner replan_task :: e4
                         /\ Forall (pass_event task) e4).
    { intros o7 s7 Hv. apply verify_adds in Hv as (e4 & Htr4 & Hall4).
      exists (e3 ++ e4). split.
      - rewrite Htr4, Htr3. flatten_trace.
      - apply Forall_app. auto. }
    apply bind_cases in Hr as [(e & Hv & _)|(rfinal & s7 & Hv & Hr)];
      apply Hrverify in Hv as (second & Htr4 & Hsecond).
    { apply (Htwo _ first replan_task second); assumption. }
    destruct (Py.eq_str (Py.get rfinal "completeness") "complete");
      apply ret_state in Hr; subst;
      apply (Htwo _ first replan_task second); assumption. }
  apply bind_cases in Hrun as [(e & Hr & _)|([[[plan' steps'] final'] ar] & s4 & Hr & Hrun)].
  { eapply Hreplan. exact Hr. }
  apply ret_state in Hrun. subst. eapply Hreplan. exact Hr.
Qed.

Lemma run_task_body task s :
  run_task task s = run_body task s.
Proof.
  unfold run_task, bind, try. destruct (run_body task s) as [[r|e] s1]; reflexivity.
Qed.

End RunBody.


Section OverrideFacts.
Context `{Host}.

Lemma narration_excludes_speech (tools_used : gset Py.hkey) repaired :
  tools_used ∩ {[Py.KStr "github_search"; Py.KStr "weather_current"]} <> ∅ ->
  ~ speech_applies tools_used repaired.
Proof.
  intros Hint [-> _]. apply Hint. apply set_eq. intros k. split; [|set_solver].
  intros Hk. apply elem_of_intersection in Hk as [Hk1 Hk2].
  apply elem_of_singleton in Hk1. subst k.
  apply elem_of_union in Hk2 as [Hk2|Hk2]; apply elem_of_singleton in Hk2; discriminate.
Qed.

(** The answer and the data when the narration of repositories and
    weather is the one that applies. *)
Lemma enrich_narration tools_used repaired allowed oracle :
  tools_used ∩ {[Py.KStr "github_search"; Py.KStr "weather_current"]} <> ∅ ->
  let sc := scan_results repaired in
  let v := enrich tools_used repaired allowed oracle in
  Py.get v "data" = Py.get oracle "data"
  /\ Py.get v "final_answer"
     = match composed_answer (repositories_sentence (repo_items sc)) (weather_info sc) with
       | Some answer => VStr answer
       | None => Py.get oracle "final_answer"
       end.
Proof.
  intros Hint sc v. unfold v, enrich.
  rewrite (speech_sources_kept _ _ allowed oracle (narration_excludes_speech _ repaired Hint)).
  cbn [fst snd]. fold sc. split.
  - rewrite downgrade_other by discriminate. rewrite get_set_ne by discriminate.
    apply narration_other. discriminate.
  - rewrite downgrade_other by discriminate. rewrite get_set_ne by discriminate.
    unfold narration_override. rewrite decide_True by exact Hint.
    pose proof (narration_composed sc) as Hc.
    destruct (composed_answer (repositories_sentence (repo_items sc)) (weather_info sc))
      as [answer|].
    + destruct Hc as [Hne Hstrip]. destruct (narration_parts sc) as [|p ps] eqn:Hparts;
        [contradiction|]. rewrite get_set_eq, Hstrip. reflexivity.
    + rewrite Hc. reflexivity.
Qed.

End OverrideFacts.

Section SpeechDecided.
Context `{Host}.


End SpeechDecided.

Section ReplanTask.
Context `{Host}.

Lemma error_entry_extracted steps result :
  result ∈ steps ->
  Py.get result "status" = VStr "error" ->
  error_entry result ∈ _extract_step_errors steps.
Proof.
  intros Hin Hstatus. unfold _extract_step_errors.
  apply list_elem_of_omap. exists result. split; [exact Hin|].
  rewrite Hstatus. reflexivity.
Qed.

(** The corrective task starts with the task and lists the errors. *)
Lemma replan_task_lists_errors task steps final replan_task :
  _build_replan_task task steps final = Ok (Some replan_task) ->
  _extract_step_errors steps <> [] ->
  exists rest,
    replan_task
    = task +:+ newline +:+ newline
      +:+ "Fix missing or failed info from the previous attempt. "
      +:+ "Use only the necessary tools. "
      +:+ Py.join " " (("Errors: " +:+ Py.join "; " (_extract_step_errors steps)) :: rest).
Proof.
  unfold _build_replan_task. intros Hb Hne.
  destruct (_extract_step_errors steps) as [|e es]; [contradiction|].
  destruct (Py.truthy (Py.get_default final "limitations" (VList []))).
  - destruct (Py.iter (Py.get_default final "limitations" (VList []))) as [ls|];
      [|discriminate].
    exists ["Limitations: " +:+ Py.join "; " (map py_str ls)].
    injection Hb as <-. reflexivity.
  - exists []. injection Hb as <-. reflexivity.
Qed.

End ReplanTask.

(** * Theorems *)

(** ** Step Runner *)

(** C1. Running a step is crash-isolated.  A step whose tool is not a key
    of the registry gets an error result with the message
    ["Unknown tool: <name>"], and no tool is called for it (the trace is
    unchanged); when the tool raises, its message becomes the error of a
    well-formed error result; and on a plan whose steps are dicts with a
    hashable tool, [execute] does not raise: every step has its result,
    the one its own run produced, whatever happened to the others. *)
Theorem step_failure_isolated `{Host} (plan : dict) (steps : list dict) (s : state) :
  plan_steps plan steps ->
  tools_hashable steps ->
  (forall step st k,
      Py.hash_key (Py.get step "tool") = Ok k ->
      registry_lookup k = None ->
      exists ms st',
        _run_step step st = (Ok (unknown_result step ms), st')
        /\ trace st' = trace st)
  /\ (forall step st k name fn msg w1,
        Py.hash_key (Py.get step "tool") = Ok k ->
        registry_lookup k = Some (name, fn) ->
        fn (Py.or (Py.get step "args") (VDict [])) (perf_counter (world st)).2
        = (Raised msg, w1) ->
        exists ms st',
          _run_step step st = (Ok (error_result step msg ms), st')
          /\ describes step (error_result step msg ms)
          /\ well_formed_result (error_result step msg ms))
  /\ exists results s',
       execute plan s = (Ok results, s')
       /\ Forall2 (fun step result =>
                     produced step result /\ describes step result
                     /\ well_formed_result result)
                  steps results.
Proof.
  intros Hplan Htools. split; [|split].
  - intros step st k Hk Hreg.
    destruct (run_step_unknown step st k Hk Hreg) as (ms & w' & Hrun).
    exists ms, {| world := w'; trace := trace st |}. split; [exact Hrun|reflexivity].
  - intros step st k name fn msg w1 Hk Hreg Hfn.
    destruct (run_step_error step st k name fn msg w1 Hk Hreg Hfn) as (ms & w' & Hrun).
    eexists ms, _. split; [exact Hrun|].
    apply (run_step_describes _ _ _ _ Hrun).
  - destruct (execute_returns plan steps s Hplan Htools) as (results & s' & Hexec & Hall & _).
    exists results, s'. split; [exact Hexec|].
    eapply Forall2_impl; [exact Hall|].
    intros step result Hprod. split; [exact Hprod|].
    destruct Hprod as (st & st' & Hrun). apply (run_step_describes _ _ _ _ Hrun).
Qed.

Lemma step_failure_isolated_witness :
  plan_steps (Demo.plan_of Demo.mixed_steps) Demo.mixed_steps
  /\ tools_hashable Demo.mixed_steps
  /\ exists results s',
       execute (H:=Demo.host) (Demo.plan_of Demo.mixed_steps) Demo.start = (Ok results, s')
       /\ Forall2 (fun step result =>
                     produced (H:=Demo.host) step result /\ describes step result
                     /\ well_formed_result result)
                  Demo.mixed_steps results.
Proof.
  assert (Hplan : plan_steps (Demo.plan_of Demo.mixed_steps) Demo.mixed_steps)
    by reflexivity.
  assert (Htools : tools_hashable Demo.mixed_steps) by (repeat constructor).
  split; [exact Hplan|]. split; [exact Htools|].
  exact (proj2 (proj2 (step_failure_isolated (H:=Demo.host) _ _ Demo.start Hplan Htools))).
Defined.

(** In the small world: the unknown tool and the weather that times out
    have their error results, the speech between them its success. *)
Example mixed_plan_executed :
  (execute (H:=Demo.host) (Demo.plan_of Demo.mixed_steps) Demo.start).1
  = Ok Demo.executed_mixed
  /\ (fun r => Py.get r "status") <$> Demo.executed_mixed
     = [VStr "error"; VStr "success"; VStr "error"]
  /\ (fun r => Py.get r "error") <$> Demo.executed_mixed
     = [VStr "Unknown tool: translate"; VNone; VStr "request timed out"].
Proof. vm_compute. auto. Qed.

(** C2. [execute] returns exactly one result per step, the i-th result
    being that of the i-th step, whatever the order in which the pool
    completes its workers (the order [pool_order] of the host is any
    permutation of the indices). *)
Theorem execute_one_result_per_step `{Host} (plan : dict) (steps : list dict) (s : state) :
  plan_steps plan steps ->
  tools_hashable steps ->
  (1 <= length steps)%nat ->
  exists results s',
    execute plan s = (Ok results, s')
    /\ length results = length steps
    /\ forall i step,
         steps !! i = Some step ->
         exists result,
           results !! i = Some result
           /\ produced step result
           /\ describes step result.
Proof.
  intros Hplan Htools _.
  destruct (execute_returns plan steps s Hplan Htools) as (results & s' & Hexec & Hall & _).
  exists results, s'. split; [exact Hexec|]. split.
  - symmetry. eapply Forall2_length. exact Hall.
  - intros i step Hstep.
    destruct (Forall2_lookup_l _ _ _ _ _ Hall Hstep) as (result & Hres & Hprod).
    exists result. split; [exact Hres|]. split; [exact Hprod|].
    destruct Hprod as (st & st' & Hrun). apply (run_step_describes _ _ _ _ Hrun).
Qed.

Lemma execute_one_result_per_step_witness :
  plan_steps (Demo.plan_of Demo.mixed_steps) Demo.mixed_steps
  /\ tools_hashable Demo.mixed_steps
  /\ (1 <= length Demo.mixed_steps)%nat
  /\ exists results s',
       execute (H:=Demo.host) (Demo.plan_of Demo.mixed_steps) Demo.start = (Ok results, s')
       /\ length results = length Demo.mixed_steps
       /\ forall i step,
            Demo.mixed_steps !! i = Some step ->
            exists result,
              results !! i = Some result
              /\ produced (H:=Demo.host) step result
              /\ describes step result.
Proof.
  assert (Hplan : plan_steps (Demo.plan_of Demo.mixed_steps) Demo.mixed_steps)
    by reflexivity.
  assert (Htools : tools_hashable Demo.mixed_steps) by (repeat constructor).
  assert (Hlen : (1 <= length Demo.mixed_steps)%nat) by (simpl; lia).
  split; [exact Hplan|]. split; [exact Htools|]. split; [exact Hlen|].
  exact (execute_one_result_per_step (H:=Demo.host) _ _ Demo.start Hplan Htools Hlen).
Defined.

(** C4. [retry_failed] treats the results one by one: a result that is
    not an error stays, an error whose step id is the id of no step of the
    plan stays, an error whose step id is that of a step is replaced by a
    fresh run of that step; applied to results that are all successes it
    changes neither the results nor the world. *)
Theorem retry_failed_pointwise `{Host}
    (plan : dict) (steps : list dict) (step_results : list dict) (s : state) :
  plan_steps plan steps ->
  ids_hashable steps ->
  tools_hashable steps ->
  Forall (fun r => hashable (Py.get r "step_id") = true) step_results ->
  exists updated s',
    retry_failed plan step_results s = (Ok updated, s')
    /\ Forall2 (retried steps) step_results updated
    /\ (Forall (fun r => Py.get r "status" = VStr "success") step_results ->
        updated = step_results /\ s' = s).
Proof.
  intros Hplan Hids Htools Hres.
  destruct (retry_failed_returns plan steps step_results s Hplan Hids Htools Hres)
    as (updated & s' & Hretry & Hall & _ & Hsame).
  exists updated, s'. auto.
Qed.

Lemma retry_failed_pointwise_witness :
  plan_steps (Demo.plan_of Demo.down_steps) Demo.down_steps
  /\ ids_hashable Demo.down_steps
  /\ tools_hashable Demo.down_steps
  /\ Forall (fun r => hashable (Py.get r "step_id") = true)
            [Demo.failed_search; Demo.stale_error; Demo.good_weather]
  /\ exists updated s',
       retry_failed (H:=Demo.host) (Demo.plan_of Demo.down_steps)
                    [Demo.failed_search; Demo.stale_error; Demo.good_weather] Demo.start
       = (Ok updated, s')
       /\ Forall2 (retried (H:=Demo.host) Demo.down_steps)
                  [Demo.failed_search; Demo.stale_error; Demo.good_weather] updated
       /\ (Forall (fun r => Py.get r "status" = VStr "success")
                  [Demo.failed_search; Demo.stale_error; Demo.good_weather] ->
           updated = [Demo.failed_search; Demo.stale_error; Demo.good_weather]
           /\ s' = Demo.start).
Proof.
  assert (Hplan : plan_steps (Demo.plan_of Demo.down_steps) Demo.down_steps)
    by reflexivity.
  assert (Hids : ids_hashable Demo.down_steps) by (repeat constructor; eexists; reflexivity).
  assert (Htools : tools_hashable Demo.down_steps) by (repeat constructor).
  assert (Hres : Forall (fun r => hashable (Py.get r "step_id") = true)
                        [Demo.failed_search; Demo.stale_error; Demo.good_weather])
    by (repeat constructor).
  split; [exact Hplan|]. split; [exact Hids|]. split; [exact Htools|]. split; [exact Hres|].
  exact (retry_failed_pointwise (H:=Demo.host) _ _ _ Demo.start Hplan Hids Htools Hres).
Defined.

(** In the small world: the failed search is run again (and fails again
    with the message of the new run), the stale error and the success are
    handed back as they came. *)
Example down_results_retried :
  (retry_failed (H:=Demo.host) (Demo.plan_of Demo.down_steps)
                [Demo.failed_search; Demo.stale_error; Demo.good_weather] Demo.start).1
  = Ok Demo.retried_down
  /\ Demo.retried_down !! 1%nat = Some Demo.stale_error
  /\ Demo.retried_down !! 2%nat = Some Demo.good_weather
  /\ (fun r => Py.get r "error") <$> Demo.retried_down !! 0%nat
     = Some (VStr "403 Client Error: rate limit exceeded").
Proof. vm_compute. auto. Qed.

(** ** Result Reconciler *)

(** C3. When a result is still not a success after the repair pass of
    [verify], the verification returned has completeness ["partial"] and
    its limitations end with the fixed sentence, after those of the oracle
    when it supplied a list and alone otherwise. *)
Theorem verify_downgrades_when_missing `{Host}
    (task : string) (plan : dict) (step_results : list dict) (s : state)
    (v : dict) (s' : state) (repaired : list dict) (s1 : state) (r : dict) :
  verify task plan step_results s = (Ok v, s') ->
  retry_failed plan step_results s = (Ok repaired, s1) ->
  r ∈ repaired ->
  Py.get r "status" <> VStr "success" ->
  Py.get v "completeness" = VStr "partial"
  /\ exists compact oracle w2 limitations,
       verifier_chat_json task plan compact (world s1) = (Ok (VDict oracle), w2)
       /\ Py.get v "limitations" = VList limitations
       /\ VStr "Some tools failed after retry; partial data returned." ∈ limitations
       /\ limitations
          = match Py.get oracle "limitations" with VList l => l | _ => [] end
            ++ [VStr "Some tools failed after retry; partial data returned."].
Proof.
  intros Hverify Hretry Hin Hstatus.
  destruct (verify_returned _ _ _ _ _ _ Hverify)
    as (repaired' & s1' & compact & oracle & w2 & allowed & steps & tools_used
        & Hretry' & _ & Horacle & _ & _ & _ & _ & ->).
  rewrite Hretry in Hretry'. inversion Hretry'; subst repaired' s1'.
  destruct (enrich_limitations tools_used repaired allowed oracle
              (still_missing_nonempty _ _ Hin Hstatus)) as [Hcomplete Hlimits].
  split; [exact Hcomplete|].
  exists compact, oracle, w2. eexists. split; [exact Horacle|].
  split; [exact Hlimits|]. split; [|reflexivity].
  apply elem_of_app. right. left.
Qed.

Lemma verify_downgrades_when_missing_witness :
  Py.get Demo.verified_down "completeness" = VStr "partial"
  /\ exists compact oracle w2 limitations,
       @verifier_chat_json Demo.host "status" (Demo.plan_of Demo.down_steps) compact 1%nat
       = (Ok (VDict oracle), w2)
       /\ Py.get Demo.verified_down "limitations" = VList limitations
       /\ VStr "Some tools failed after retry; partial data returned." ∈ limitations
       /\ limitations
          = match Py.get oracle "limitations" with VList l => l | _ => [] end
            ++ [VStr "Some tools failed after retry; partial data returned."].
Proof.
  eapply (verify_downgrades_when_missing (H:=Demo.host)
            "status" (Demo.plan_of Demo.down_steps) [Demo.failed_search] Demo.start
            Demo.verified_down _ _
            (@St Demo.host 1%nat [EvTool "github_search" (VDict [("query", VStr "down")])])
            _).
  - vm_compute. reflexivity.
  - vm_compute. reflexivity.
  - left.
  - discriminate.
Defined.

(** C6. When the tools of the plan are exactly the text-generation tool
    and the first successful result of that tool carries a text that is
    not empty once stripped, the verification returned has that text as
    its final answer, [{kind: "introduction_speech", word_count: n}] as
    its data, [n] being the number of whitespace-separated words of the
    text, and no sources, whatever the oracle had put there. *)
Theorem speech_is_the_answer `{Host}
    (task : string) (plan : dict) (step_results : list dict) (s : state)
    (v : dict) (s' : state) (repaired : list dict) (s1 : state)
    (steps : list value) (before : list dict) (result : dict) (after : list dict)
    (output : dict) :
  verify task plan step_results s = (Ok v, s') ->
  retry_failed plan step_results s = (Ok repaired, s1) ->
  Py.iter (Py.get_default plan "steps" (VList [])) = Ok steps ->
  tools_of steps = Ok {[Py.KStr "llm_generate"]} ->
  repaired = before ++ result :: after ->
  Forall (fun r => ~ llm_success r) before ->
  llm_success result ->
  Py.get result "output" = VDict output ->
  generated_text output <> "" ->
  Py.get v "final_answer" = VStr (generated_text output)
  /\ Py.get v "data"
     = VDict [("kind", VStr "introduction_speech");
              ("word_count", VInt (Z.of_nat (length (Py.split (generated_text output)))))]
  /\ Py.get v "sources" = VList [].
Proof.
  intros Hverify Hretry Hsteps Htools Hsplit Hbefore Hresult Houtput Htext.
  destruct (verify_returned _ _ _ _ _ _ Hverify)
    as (repaired' & s1' & compact & oracle & w2 & allowed & steps' & tools_used
        & Hretry' & _ & _ & _ & _ & Hsteps' & Htools' & ->).
  rewrite Hretry in Hretry'. inversion Hretry'; subst repaired' s1'.
  rewrite Hsteps in Hsteps'. inversion Hsteps'; subst steps'.
  rewrite Htools in Htools'. inversion Htools'; subst tools_used.
  apply enrich_speech; [|exact Htext].
  rewrite Hsplit. apply find_speech_first; assumption.
Qed.

Lemma speech_is_the_answer_witness :
  Py.get Demo.verified_speech "final_answer" = VStr "Hello World"
  /\ Py.get Demo.verified_speech "data"
     = VDict [("kind", VStr "introduction_speech"); ("word_count", VInt 2)]
  /\ Py.get Demo.verified_speech "sources" = VList [].
Proof.
  eapply (speech_is_the_answer (H:=Demo.host)
            "intro" (Demo.plan_of Demo.speech_steps) [Demo.good_speech] Demo.start
            Demo.verified_speech _ [Demo.good_speech] Demo.start
            (VDict <$> Demo.speech_steps) [] Demo.good_speech []
            [("text", VStr "Hello World")]).
  - vm_compute. reflexivity.
  - vm_compute. reflexivity.
  - reflexivity.
  - cbn; f_equal; try set_solver.
  - reflexivity.
  - constructor.
  - split; reflexivity.
  - reflexivity.
  - discriminate.
Defined.

(** In the small world: a no-break space (U+00A0) separates words like
    any other space, and the spaces around the text, whatever their
    kind, are not part of the answer. *)
Example no_break_space_separates_words :
  (verify (H:=Demo.host) "intro" (Demo.plan_of Demo.speech_steps)
          [Demo.spaced_speech] Demo.start).1
  = Ok Demo.verified_spaced_speech
  /\ Py.get Demo.verified_spaced_speech "final_answer"
     = VStr ("Hello" +:+ Demo.nbsp +:+ "World")
  /\ Py.get Demo.verified_spaced_speech "data"
     = VDict [("kind", VStr "introduction_speech"); ("word_count", VInt 2)]
  /\ Py.get Demo.verified_spaced_speech "sources" = VList [].
Proof. repeat split; vm_compute; reflexivity. Qed.


(** C7, as amended.  When the tools of the plan meet
    [{github_search, weather_current}], the final answer is composed from
    the results: first the sentence ["Top repositories: ..."] listing
    those of the first three repository items that have a name and a url,
    each as ["<name> (<url>, <stars>★)"] or ["<name> (<url>)"], joined by
    ["; "] (no sentence when none of the three can be listed); then the
    sentence on the weather when a weather result exists, its missing
    fields left out.  When at least one sentence results they replace the
    oracle's answer, otherwise the oracle's answer stays; the oracle's
    data is kept in both cases. *)
Theorem narration_composed_from_results `{Host}
    (task : string) (plan : dict) (step_results : list dict) (s : state)
    (v : dict) (s' : state) (repaired : list dict) (s1 : state)
    (steps : list value) (tools_used : gset Py.hkey) :
  verify task plan step_results s = (Ok v, s') ->
  retry_failed plan step_results s = (Ok repaired, s1) ->
  Py.iter (Py.get_default plan "steps" (VList [])) = Ok steps ->
  tools_of steps = Ok tools_used ->
  tools_used ∩ {[Py.KStr "github_search"; Py.KStr "weather_current"]} <> ∅ ->
  exists compact oracle w2,
    verifier_chat_json task plan compact (world s1) = (Ok (VDict oracle), w2)
    /\ Py.get v "data" = Py.get oracle "data"
    /\ Py.get v "final_answer"
       = match composed_answer
                 (repositories_sentence (repo_items (scan_results repaired)))
                 (weather_info (scan_results repaired)) with
         | Some answer => VStr answer
         | None => Py.get oracle "final_answer"
         end.
Proof.
  intros Hverify Hretry Hsteps Htools Hint.
  destruct (verify_returned _ _ _ _ _ _ Hverify)
    as (repaired' & s1' & compact & oracle & w2 & allowed & steps' & tools_used'
        & Hretry' & _ & Horacle & _ & _ & Hsteps' & Htools' & ->).
  rewrite Hretry in Hretry'. inversion Hretry'; subst repaired' s1'.
  rewrite Hsteps in Hsteps'. inversion Hsteps'; subst steps'.
  rewrite Htools in Htools'. inversion Htools'; subst tools_used'.
  exists compact, oracle, w2. split; [exact Horacle|].
  apply enrich_narration. exact Hint.
Qed.

Lemma narration_composed_from_results_witness :
  exists compact oracle w2,
    @verifier_chat_json Demo.host "repos and weather" (Demo.plan_of Demo.search_steps)
                        compact 0%nat
    = (Ok (VDict oracle), w2)
    /\ Py.get Demo.verified_search "data" = Py.get oracle "data"
    /\ Py.get Demo.verified_search "final_answer"
       = VStr ("Top repositories: "
               +:+ "rocq-prover/rocq (https://github.com/rocq-prover/rocq, 100★); "
               +:+ "rocq-prover/stdlib (https://github.com/rocq-prover/stdlib, 50★); "
               +:+ "rocq-prover/opam (https://github.com/rocq-prover/opam, 10★). "
               +:+ "Current weather in Pune, India: Clear sky, 30°C, wind 12 kph.").
Proof.
  eapply (narration_composed_from_results (H:=Demo.host)
            "repos and weather" (Demo.plan_of Demo.search_steps)
            [Demo.good_search; Demo.good_search; Demo.good_weather] Demo.start
            Demo.verified_search _
            [Demo.good_search; Demo.good_search; Demo.good_weather] Demo.start
            (VDict <$> Demo.search_steps)
            {[Py.KStr "github_search"; Py.KStr "weather_current"]}).
  - vm_compute. reflexivity.
  - vm_compute. reflexivity.
  - reflexivity.
  - cbn; f_equal; try set_solver.
  - intros Hempty.
    assert (Hin : Py.KStr "github_search"
                  ∈ ({[Py.KStr "github_search"; Py.KStr "weather_current"]}
                     ∩ {[Py.KStr "github_search"; Py.KStr "weather_current"]}
                     : gset Py.hkey)) by set_solver.
    rewrite Hempty in Hin. exact (not_elem_of_empty _ Hin).
Defined.

(** C7, as stated, fails: a repository item exists (it has a name but no
    url), the sentence that lists every item would be
    ["Top repositories: rocq (None)."], and the answer returned is the
    oracle's. *)
Lemma narration_skips_items_without_url :
  exists v s' repaired s1 stated,
    verify (H:=Demo.host) "repos" (Demo.plan_of Demo.search_steps)
           [Demo.nameless_search] Demo.start = (Ok v, s')
    /\ retry_failed (H:=Demo.host) (Demo.plan_of Demo.search_steps)
                    [Demo.nameless_search] Demo.start = (Ok repaired, s1)
    /\ repo_items (scan_results repaired) <> []
    /\ repositories_sentence_as_stated (H:=Demo.host) (repo_items (scan_results repaired))
       = Some stated
    /\ Py.get v "final_answer" = VStr "from oracle"
    /\ Py.get v "final_answer" <> VStr stated.
Proof.
  eexists _, _, _, _, _.
  split; [vm_compute; reflexivity|].
  split; [vm_compute; reflexivity|].
  split; [vm_compute; discriminate|].
  split; [vm_compute; reflexivity|].
  split; [vm_compute; reflexivity|].
  vm_compute. discriminate.
Qed.



(** In the small world: two searches that return the same repositories
    and the weather give eight declared sources and five distinct ones. *)
Example search_sources_listed :
  length (declared_sources [Demo.good_search; Demo.good_search; Demo.good_weather]) = 9%nat
  /\ Py.get Demo.verified_search "sources"
     = VList [VStr "https://api.github.com/search/repositories?q=rocq";
              VStr "https://api.open-meteo.com/v1/forecast?latitude=18";
              VStr "https://github.com/rocq-prover/rocq";
              VStr "https://github.com/rocq-prover/stdlib";
              VStr "https://github.com/rocq-prover/opam"].
Proof. vm_compute. auto. Qed.

(** In the small world: the single-tool narration overrides the
    sources -- a speech whose output names a source is returned without
    it. *)
Example speech_override_clears_sources :
  (verify (H:=Demo.host) "intro" (Demo.plan_of Demo.speech_steps)
          [Demo.sourced_speech] Demo.start).1
  = Ok Demo.verified_sourced_speech
  /\ declared_sources [Demo.sourced_speech] = [VStr "https://example.org/speech"]
  /\ Py.get Demo.verified_sourced_speech "final_answer" = VStr "Hello World"
  /\ Py.get Demo.verified_sourced_speech "sources" = VList [].
Proof. repeat split; vm_compute; reflexivity. Qed.

(** A generated text that is a no-break space and nothing else is empty
    once stripped: the narration does not apply and the source stays. *)
Example blank_speech_keeps_sources :
  (verify (H:=Demo.host) "intro" (Demo.plan_of Demo.speech_steps)
          [Demo.blank_sourced_speech] Demo.start).1
  = Ok Demo.verified_blank_speech
  /\ find_speech (H:=Demo.host) [Demo.blank_sourced_speech] = ""
  /\ Py.get Demo.verified_blank_speech "final_answer" = VStr "from oracle"
  /\ Py.get Demo.verified_blank_speech "sources"
     = VList [VStr "https://example.org/speech"].
Proof. repeat split; vm_compute; reflexivity. Qed.


(** ** Plan Builder *)

(** C9, as amended.  In the plan [_normalize_plan] returns, a step that
    came without an id (or with an empty one) has the id
    ["step_<1-based index>"] and a step that came with an id keeps it;
    the ids are unique within the plan whenever no id the oracle supplied
    is also the id of another step. *)
Theorem normalized_ids `{Host} (plan : value) (task : string) (p : dict) :
  _normalize_plan plan task = Ok p ->
  exists oracle given normalized,
    plan = VDict oracle
    /\ Py.get oracle "steps" = VList (VDict <$> given)
    /\ Py.get p "steps" = VList (VDict <$> normalized)
    /\ length normalized = length given
    /\ (forall i step,
          given !! i = Some step ->
          exists n, normalized !! i = Some n /\ Py.get n "id" = assigned_id (S i) step)
    /\ (supplied_ids_distinct given -> NoDup (step_ids normalized)).
Proof.
  intros Hnorm.
  destruct (normalize_plan_ok _ _ _ Hnorm)
    as (oracle & given & normalized & -> & Hgiven & _ & -> & Hlen & Hall).
  exists oracle, given, normalized.
  assert (Hids : forall i step,
             given !! i = Some step ->
             exists n, normalized !! i = Some n /\ Py.get n "id" = assigned_id (S i) step).
  { intros i step Hstep. destruct (Hall i step Hstep) as (n & Hn & Hid & _).
    exists n. auto. }
  split; [reflexivity|]. split; [exact Hgiven|]. split; [reflexivity|].
  split; [exact Hlen|]. split; [exact Hids|].
  apply assigned_ids_unique; assumption.
Qed.

Lemma normalized_ids_witness :
  exists oracle given normalized,
    Demo.reply_without_ids = VDict oracle
    /\ Py.get oracle "steps" = VList (VDict <$> given)
    /\ Py.get Demo.normalized_without_ids "steps" = VList (VDict <$> normalized)
    /\ length normalized = length given
    /\ (forall i step,
          given !! i = Some step ->
          exists n, normalized !! i = Some n /\ Py.get n "id" = assigned_id (S i) step)
    /\ (supplied_ids_distinct given -> NoDup (step_ids normalized)).
Proof.
  apply (normalized_ids (H:=Demo.host) Demo.reply_without_ids "t").
  vm_compute. reflexivity.
Defined.

(** In the small world: the step without id is ["step_1"], the other
    keeps ["fetch"]. *)
Example ids_assigned :
  _normalize_plan (H:=Demo.host) Demo.reply_without_ids "t" = Ok Demo.normalized_without_ids
  /\ Py.get Demo.normalized_without_ids "steps"
     = VList [VDict [("id", VStr "step_1"); ("tool", VStr "llm_generate");
                     ("args", VDict []); ("purpose", VStr "")];
              VDict [("id", VStr "fetch"); ("tool", VStr "weather_current");
                     ("args", VDict []); ("purpose", VStr "")]].
Proof. vm_compute. auto. Qed.

(** C9, as stated, fails: the oracle names both of its steps ["a"], the
    plan is accepted, and both steps of the normalized plan have the id
    ["a"]. *)
Lemma equal_ids_accepted :
  exists p normalized,
    _normalize_plan (H:=Demo.host) Demo.reply_with_equal_ids "t" = Ok p
    /\ Py.get p "steps" = VList (VDict <$> normalized)
    /\ step_ids normalized = [VStr "a"; VStr "a"]
    /\ ~ NoDup (step_ids normalized).
Proof.
  eexists _, [_; _].
  split; [vm_compute; reflexivity|].
  split; [vm_compute; reflexivity|].
  split; [vm_compute; reflexivity|].
  vm_compute. intros Hnd. apply NoDup_cons in Hnd as [Hnotin _].
  apply Hnotin. left.
Qed.

(** ** Orchestrator *)

(** C5. A run makes at most one replan attempt: its events are the call
    of the planner, one pass, and at most once more a call of the planner
    and a pass -- so the planner is called at most twice, also when the
    second pass is partial again.  Every call of the verifier's oracle,
    that of the replan included, is about the original task.  The plan,
    steps and verification of the replan are the ones returned exactly
    when the completeness of the replan is ["complete"]; otherwise the
    first outcome is returned, with the envelope of the replan attached. *)
Theorem at_most_one_replan `{Host}
    (task : string) (s : state) (o : outcome response) (s' : state) :
  run_task task s = (o, s') ->
  exists evs,
    trace s' = trace s ++ evs
    /\ run_trace task evs
    /\ (planner_calls evs <= 2)%nat
    /\ Forall (fun t => t = task) (verifier_tasks evs)
    /\ forall resp,
         o = Ok resp ->
         exists first s3,
           pass_ran task task s first s3
           /\ ((resp_auto_replan resp = None /\ returns_pass resp first)
               \/ exists replan_task second,
                    pass_ran replan_task task s3 second s'
                    /\ resp_auto_replan resp = Some (envelope_of replan_task second)
                    /\ (Py.get (pass_final second) "completeness" = VStr "complete" ->
                        returns_pass resp second)
                    /\ (Py.get (pass_final second) "completeness" <> VStr "complete" ->
                        returns_pass resp first)).
Proof.
  intros Hrun. rewrite run_task_body in Hrun.
  destruct (run_body_trace _ _ _ _ Hrun) as (evs & Htrace & Hshape).
  destruct (run_trace_bounds _ _ Hshape) as [[_ Hcalls] Htasks].
  exists evs. split; [exact Htrace|]. split; [exact Hshape|].
  split; [exact Hcalls|]. split; [exact Htasks|].
  intros resp ->.
  destruct (run_body_returned _ _ _ _ Hrun)
    as (first & s3 & Hfirst & _
        & [(Hnone & _ & Hret & _)|(replan_task & second & _ & _ & Hsecond & Henv & Hret)]).
  - exists first, s3. split; [exact Hfirst|]. left. auto.
  - exists first, s3. split; [exact Hfirst|]. right.
    exists replan_task, second. split; [exact Hsecond|]. split; [exact Henv|].
    split.
    + intros Hcomplete. apply eq_str_true in Hcomplete. rewrite Hcomplete in Hret. exact Hret.
    + intros Hpartial. apply eq_str_false in Hpartial. rewrite Hpartial in Hret. exact Hret.
Qed.

Lemma at_most_one_replan_witness :
  exists evs,
    trace Demo.status_run.2 = trace Demo.start ++ evs
    /\ run_trace "status" evs
    /\ (planner_calls evs <= 2)%nat
    /\ Forall (fun t => t = "status") (verifier_tasks evs)
    /\ forall resp,
         Demo.status_run.1 = Ok resp ->
         exists first s3,
           pass_ran (H:=Demo.host) "status" "status" Demo.start first s3
           /\ ((resp_auto_replan resp = None /\ returns_pass resp first)
               \/ exists replan_task second,
                    pass_ran (H:=Demo.host) replan_task "status" s3 second Demo.status_run.2
                    /\ resp_auto_replan resp = Some (envelope_of replan_task second)
                    /\ (Py.get (pass_final second) "completeness" = VStr "complete" ->
                        returns_pass resp second)
                    /\ (Py.get (pass_final second) "completeness" <> VStr "complete" ->
                        returns_pass resp first)).
Proof.
  apply (at_most_one_replan (H:=Demo.host) "status" Demo.start
           Demo.status_run.1 Demo.status_run.2).
  vm_compute. reflexivity.
Defined.

(** In the small world the replan is partial again: the planner was
    called twice, the verifier twice about ["status"], and the response
    is the first outcome with the envelope attached. *)
Example status_run_replanned_once :
  run_task (H:=Demo.host) "status" Demo.start = Demo.status_run
  /\ planner_calls (trace Demo.status_run.2) = 2%nat
  /\ verifier_tasks (trace Demo.status_run.2) = ["status"; "status"]
  /\ Py.get (resp_final Demo.status_response) "completeness" = VStr "partial"
  /\ (env_final <$> resp_auto_replan Demo.status_response)
       ≫= (fun final => Some (Py.get final "completeness"))
     = Some (VStr "partial").
Proof. vm_compute. auto. Qed.

(** C10. The steps returned to the caller are the output of [execute] in
    the pass whose plan and verification are returned, as [verify]
    received them and not as it repaired them -- the output of the first
    [execute] unless the replan is adopted; and the corrective task of a
    replan is built from the output of the first [execute], so that every
    result that was an error there, repaired afterwards or not, has its
    ["<tool>: <error>"] entry among the errors the corrective task
    lists. *)
Theorem returned_steps_are_unrepaired `{Host}
    (task : string) (s : state) (resp : response) (s' : state) :
  run_task task s = (Ok resp, s') ->
  exists first s3,
    pass_ran task task s first s3
    /\ (exists planned_task returned sa sb,
          pass_ran planned_task task sa returned sb /\ returns_pass resp returned)
    /\ ((resp_auto_replan resp = None
         \/ exists env, resp_auto_replan resp = Some env
                        /\ Py.get (env_final env) "completeness" <> VStr "complete") ->
        resp_steps resp = pass_steps first)
    /\ forall env,
         resp_auto_replan resp = Some env ->
         _build_replan_task task (pass_steps first) (pass_final first)
         = Ok (Some (env_task env))
         /\ forall result,
              result ∈ pass_steps first ->
              Py.get result "status" = VStr "error" ->
              error_entry result ∈ _extract_step_errors (pass_steps first)
              /\ exists rest,
                   env_task env
                   = task +:+ newline +:+ newline
                     +:+ "Fix missing or failed info from the previous attempt. "
                     +:+ "Use only the necessary tools. "
                     +:+ Py.join " "
                           (("Errors: "
                             +:+ Py.join "; " (_extract_step_errors (pass_steps first)))
                            :: rest).
Proof.
  intros Hrun. rewrite run_task_body in Hrun.
  destruct (run_body_returned _ _ _ _ Hrun)
    as (first & s3 & Hfirst & _
        & [(Hnone & _ & Hret & _)
          |(replan_task & second & _ & Hbuild & Hsecond & Henv & Hret)]).
  - exists first, s3. split; [exact Hfirst|]. split; [|split].
    + exists task, first, s, s3. auto.
    + intros _. apply Hret.
    + intros env Hsome. rewrite Hnone in Hsome. discriminate.
  - exists first, s3. split; [exact Hfirst|]. split; [|split].
    + destruct (Py.eq_str (Py.get (pass_final second) "completeness") "complete").
      * exists replan_task, second, s3, s'. auto.
      * exists task, first, s, s3. auto.
    + intros [Hnone|(env & Hsome & Hpartial)].
      * rewrite Henv in Hnone. discriminate.
      * rewrite Henv in Hsome. inversion Hsome; subst env. simpl in Hpartial.
        apply eq_str_false in Hpartial. rewrite Hpartial in Hret. apply Hret.
    + intros env Hsome. rewrite Henv in Hsome. inversion Hsome; subst env.
      split; [exact Hbuild|]. intros result Hin Hstatus.
      pose proof (error_entry_extracted _ _ Hin Hstatus) as Hentry.
      split; [exact Hentry|].
      apply (replan_task_lists_errors _ _ _ _ Hbuild).
      intros Hnil. rewrite Hnil in Hentry. inversion Hentry.
Qed.

Lemma returned_steps_are_unrepaired_witness :
  exists first s3,
    pass_ran (H:=Demo.host) "status" "status" Demo.start first s3
    /\ (exists planned_task returned sa sb,
          pass_ran (H:=Demo.host) planned_task "status" sa returned sb
          /\ returns_pass Demo.status_response returned)
    /\ ((resp_auto_replan Demo.status_response = None
         \/ exists env, resp_auto_replan Demo.status_response = Some env
                        /\ Py.get (env_final env) "completeness" <> VStr "complete") ->
        resp_steps Demo.status_response = pass_steps first)
    /\ forall env,
         resp_auto_replan Demo.status_response = Some env ->
         _build_replan_task (H:=Demo.host) "status" (pass_steps first) (pass_final first)
         = Ok (Some (env_task env))
         /\ forall result,
              result ∈ pass_steps first ->
              Py.get result "status" = VStr "error" ->
              error_entry (H:=Demo.host) result
              ∈ _extract_step_errors (H:=Demo.host) (pass_steps first)
              /\ exists rest,
                   env_task env
                   = "status" +:+ newline +:+ newline
                     +:+ "Fix missing or failed info from the previous attempt. "
                     +:+ "Use only the necessary tools. "
                     +:+ Py.join " "
                           (("Errors: "
                             +:+ Py.join "; "
                                     (_extract_step_errors (H:=Demo.host)
                                        (pass_steps first)))
                            :: rest).
Proof.
  apply (returned_steps_are_unrepaired (H:=Demo.host) "status" Demo.start
           Demo.status_response Demo.status_run.2).
  vm_compute. reflexivity.
Defined.

(** In the small world: the weather step failed in [execute] and
    succeeded when [verify] ran it again (the verification narrates the
    weather); the steps returned still show its error, and the corrective
    task lists it. *)
Example repaired_step_still_reported :
  (fun r => Py.get r "status") <$> resp_steps Demo.status_response
  = [VStr "error"; VStr "error"]
  /\ (fun r => Py.get r "status")
     <$> Demo.returned []
           (retry_failed (H:=Demo.host) (resp_plan Demo.status_response)
                         (resp_steps Demo.status_response)
                         (@St Demo.host 2%nat []))
     = [VStr "error"; VStr "success"]
  /\ Py.get (resp_final Demo.status_response) "final_answer"
     = VStr "Current weather in Pune, India: Clear sky, 30°C, wind 12 kph."
  /\ _extract_step_errors (H:=Demo.host) (resp_steps Demo.status_response)
     = ["github_search: 403 Client Error: rate limit exceeded";
        "weather_current: request timed out"].
Proof. vm_compute. auto. Qed.

(** * More of the code: supporting lemmas *)

(** ** Texts *)

Lemma skip_not_leading backwards s :
  leading backwards s = false -> Py.skip_spaces backwards s = s.
Proof.
  destruct s as [|a [|b [|c rest3]]]; cbn [leading Py.skip_spaces]; [reflexivity|..].
  - rewrite orb_false_r. intros ->. reflexivity.
  - intros Hl. apply orb_false_elim in Hl as [-> Hl]. rewrite orb_false_r in Hl.
    rewrite Hl. reflexivity.
  - intros Hl. apply orb_false_elim in Hl as [-> Hl].
    apply orb_false_elim in Hl as [-> ->]. reflexivity.
Qed.

(** What [skip_spaces] returns is the end of the text, and starts with
    no whitespace. *)
Lemma skip_spaces_spec backwards n :
  forall s, (String.length s <= n)%nat ->
    leading backwards (Py.skip_spaces backwards s) = false
    /\ exists skipped, s = skipped +:+ Py.skip_spaces backwards s.
Proof.
  induction n as [|n IH]; intros s Hlen.
  - destruct s; [|simpl in Hlen; lia]. split; [reflexivity|]. exists "". reflexivity.
  - destruct s as [|a rest]; [split; [reflexivity|exists ""; reflexivity]|].
    cbn [String.length] in Hlen. cbn [Py.skip_spaces].
    destruct (Py.is_space a) eqn:Ha.
    { destruct (IH rest ltac:(lia)) as [Hl [u Hu]]. split; [exact Hl|].
      exists (String a u). rewrite Hu at 1. reflexivity. }
    destruct rest as [|b rest2].
    { split; [cbn [leading]; rewrite Ha; reflexivity|exists ""; reflexivity]. }
    cbn [String.length] in Hlen.
    destruct (Py.space2 backwards a b) eqn:Hb.
    { destruct (IH rest2 ltac:(lia)) as [Hl [u Hu]]. split; [exact Hl|].
      exists (String a (String b u)). rewrite Hu at 1. reflexivity. }
    destruct rest2 as [|c rest3].
    { split; [cbn [leading]; rewrite Ha, Hb; reflexivity|exists ""; reflexivity]. }
    cbn [String.length] in Hlen.
    destruct (Py.space3 backwards a b c) eqn:Hc.
    { destruct (IH rest3 ltac:(lia)) as [Hl [u Hu]]. split; [exact Hl|].
      exists (String a (String b (String c u))). rewrite Hu at 1. reflexivity. }
    split; [cbn [leading]; rewrite Ha, Hb, Hc; reflexivity|exists ""; reflexivity].
Qed.

Lemma skip_headless backwards s :
  leading backwards (Py.skip_spaces backwards s) = false.
Proof. apply (skip_spaces_spec backwards (String.length s) s). lia. Qed.

Lemma skip_suffix backwards s :
  exists skipped, s = skipped +:+ Py.skip_spaces backwards s.
Proof. apply (skip_spaces_spec backwards (String.length s) s). lia. Qed.

Lemma skip_idem backwards s :
  Py.skip_spaces backwards (Py.skip_spaces backwards s) = Py.skip_spaces backwards s.
Proof. apply skip_not_leading, skip_headless. Qed.

Lemma append_length (s t : string) :
  String.length (s +:+ t) = (String.length s + String.length t)%nat.
Proof.
  induction s as [|c s IH]; [reflexivity|].
  change (String c s +:+ t) with (String c (s +:+ t)). cbn [String.length]. rewrite IH.
  reflexivity.
Qed.

(** A text that [skip_spaces] leaves as it is starts with no whitespace. *)
Lemma kept_not_leading backwards s :
  Py.skip_spaces backwards s = s -> leading backwards s = false.
Proof. intros Hs. rewrite <- Hs. apply skip_headless. Qed.

(** The beginning of a text that starts with no whitespace starts with
    none. *)
Lemma leading_prefix backwards p q :
  leading backwards (p +:+ q) = false -> leading backwards p = false.
Proof.
  destruct p as [|a [|b [|c rest3]]]; [reflexivity|..].
  - change (String a "" +:+ q) with (String a q). cbn [leading].
    intros Hl. apply orb_false_elim in Hl as [-> _]. reflexivity.
  - change (String a (String b "") +:+ q) with (String a (String b q)). cbn [leading].
    intros Hl. apply orb_false_elim in Hl as [-> Hl].
    apply orb_false_elim in Hl as [-> _]. reflexivity.
  - change (String a (String b (String c rest3)) +:+ q)
      with (String a (String b (String c (rest3 +:+ q)))).
    cbn [leading]. intros Hl. exact Hl.
Qed.

Lemma lstrip_idem s : Py.lstrip (Py.lstrip s) = Py.lstrip s.
Proof. apply skip_idem. Qed.

Lemma rstrip_idem s : Py.rstrip (Py.rstrip s) = Py.rstrip s.
Proof. unfold Py.rstrip. rewrite rev_involutive, skip_idem. reflexivity. Qed.

(** [rstrip] keeps the beginning of the text. *)
Lemma rstrip_prefix s : exists dropped, s = Py.rstrip s +:+ dropped.
Proof.
  unfold Py.rstrip. destruct (skip_suffix true (String.rev s)) as [u Hu].
  exists (String.rev u). rewrite <- rev_append, <- Hu. symmetry. apply rev_involutive.
Qed.

Lemma strip_stripped s : stripped (Py.strip s).
Proof.
  unfold stripped, Py.strip. split.
  - destruct (rstrip_prefix (Py.lstrip s)) as [dropped Hd].
    apply (leading_prefix false _ dropped). rewrite <- Hd. apply skip_headless.
  - unfold Py.rstrip. rewrite rev_involutive. apply skip_headless.
Qed.

(** [strip] leaves a text as it is exactly when the text is stripped. *)
Lemma stripped_strip s : stripped s -> Py.strip s = s.
Proof.
  intros [Hl Hr]. unfold Py.strip, Py.lstrip, Py.rstrip.
  rewrite (skip_not_leading false s Hl), (skip_not_leading true _ Hr).
  apply rev_involutive.
Qed.

Lemma strip_idem s : Py.strip (Py.strip s) = Py.strip s.
Proof. apply stripped_strip, strip_stripped. Qed.

Section ExecutorEdges.
Context `{Host}.

(** The run of a step whose tool cannot be hashed: the clock is read,
    then the lookup in the registry raises. *)
Lemma run_step_unhashable step s msg :
  unhashable_message (Py.get step "tool") = Some msg ->
  exists w', _run_step step s = (Raised msg, {| world := w'; trace := trace s |}).
Proof.
  intros Hmsg. unfold _run_step. rewrite (bind_step _ _ _ _ _ (clock_eq s)).
  exists (perf_counter (world s)).2.
  destruct (Py.get step "tool"); simpl in Hmsg; try discriminate;
    inversion Hmsg; subst; reflexivity.
Qed.

Lemma hashable_or_message v :
  (hashable v = true /\ unhashable_message v = None)
  \/ exists msg, unhashable_message v = Some msg.
Proof. destruct v; simpl; eauto. Qed.

Lemma workers_run_any steps order s :
  Forall (fun i => (i < length steps)%nat) order ->
  exists futures s',
    mapM (worker (VDict <$> steps)) order s = (Ok futures, s')
    /\ futures.*1 = order
    /\ Forall (fun f => exists step,
                   steps !! f.1 = Some step /\ pooled step (settled steps f).2)
              futures
    /\ tool_calls_only s s'.
Proof.
  intros Hord. revert s. induction Hord as [|i order Hi Hord IH]; intros s.
  - exists [], s. repeat split; [constructor|apply tool_calls_only_refl].
  - destruct (lookup_lt_is_Some_2 steps i Hi) as [step Hstep].
    assert (Hone : exists fut s1,
               try (_run_step step) s = (Ok fut, s1)
               /\ tool_calls_only s s1
               /\ pooled step (settled steps (i, fut)).2).
    { unfold pooled, settled. simpl.
      destruct (hashable_or_message (Py.get step "tool")) as [[Hh Hnone]|[msg Hmsg]].
      - destruct (run_step_returns step s Hh) as (r & s1 & Hrun & Ht).
        exists (Ok r), s1. split; [unfold try; rewrite Hrun; reflexivity|].
        split; [exact Ht|]. rewrite Hnone. exists s, s1. exact Hrun.
      - destruct (run_step_unhashable step s msg Hmsg) as (w' & Hrun).
        exists (Raised msg), {| world := w'; trace := trace s |}.
        split; [unfold try; rewrite Hrun; reflexivity|].
        split; [exists []; simpl; rewrite app_nil_r; split; [reflexivity|constructor]|].
        rewrite Hmsg, Hstep. reflexivity. }
    destruct Hone as (fut & s1 & Htry & Ht1 & Hfut).
    destruct (IH s1) as (futures & s2 & Hmap & Hfst & Hall & Ht2).
    exists ((i, fut) :: futures), s2. split; [|split; [|split]].
    + simpl. unfold worker at 1. rewrite list_lookup_fmap, Hstep. simpl.
      rewrite run_step_of_dict.
      unfold bind at 1. unfold bind at 1. rewrite Htry. unfold ret at 1.
      rewrite (bind_step _ _ _ _ _ Hmap). reflexivity.
    + rewrite fmap_cons, Hfst. reflexivity.
    + constructor; [|exact Hall]. exists step. split; [exact Hstep|exact Hfut].
    + eapply tool_calls_only_trans; eassumption.
Qed.

Lemma collect_any steps futures results s :
  Forall (fun f : nat * outcome dict => is_Some (steps !! f.1)) futures ->
  foldM (collect (VList (VDict <$> steps)) (VDict <$> steps)) results futures s
  = (Ok (fold_left place (settled steps <$> futures) results), s).
Proof.
  intros Hall. revert results.
  induction Hall as [|[i fut] futures [step Hstep] Hall IH]; intros results; simpl.
  - reflexivity.
  - simpl in Hstep. destruct fut as [r|msg].
    + unfold bind, ret at 1. simpl. apply IH.
    + unfold collect, steps_index. rewrite list_lookup_fmap, Hstep. simpl.
      unfold bind at 1. simpl. unfold settled at 2. simpl. rewrite Hstep. simpl.
      apply IH.
Qed.

Lemma execute_pool_returns plan steps s :
  plan_steps plan steps ->
  (2 <= length steps)%nat ->
  exists results s',
    execute plan s = (Ok results, s')
    /\ Forall2 pooled steps results
    /\ tool_calls_only s s'.
Proof.
  intros Hplan Hlen. unfold execute. rewrite Hplan. simpl Py.len. simpl Py.iter.
  rewrite !bind_lift_ok. rewrite length_fmap.
  destruct (length steps <=? 1)%nat eqn:Hn; [apply Nat.leb_le in Hn; lia|].
  set (n := length steps). set (order := pool_order (world s) n).
  assert (Hperm : Permutation order (seq 0 n)) by apply pool_order_perm.
  assert (Hord : Forall (fun i => (i < length steps)%nat) order).
  { apply Forall_forall. intros i Hi. rewrite Hperm in Hi.
    apply elem_of_seq in Hi. fold n. lia. }
  destruct (workers_run_any steps order s Hord) as (futures & s1 & Hmap & Hfst & Hall & Ht).
  unfold bind at 1. unfold ret at 1. fold order.
  rewrite (bind_step _ _ _ _ _ Hmap).
  assert (Hsome : Forall (fun f : nat * outcome dict => is_Some (steps !! f.1)) futures).
  { eapply Forall_impl; [exact Hall|]. intros f (step & Hstep & _). eauto. }
  rewrite (bind_step _ _ _ _ _ (collect_any steps futures _ s1 Hsome)).
  set (placed := settled steps <$> futures).
  set (slots := fold_left place placed (replicate n None)).
  assert (Hplaced_fst : placed.*1 = order).
  { unfold placed. rewrite <- Hfst. rewrite <- !list_fmap_compose.
    apply list_fmap_ext. intros i [j fut] _. unfold settled. simpl. destruct fut; reflexivity. }
  assert (Hslots_len : length slots = n).
  { unfold slots. rewrite fold_place_length. apply length_replicate. }
  assert (Hnd : NoDup placed.*1).
  { rewrite Hplaced_fst, Hperm. apply NoDup_seq. }
  assert (Hfill : forall i, (i < n)%nat ->
             exists step r, steps !! i = Some step /\ slots !! i = Some (Some r)
                            /\ pooled step r).
  { intros i Hi.
    assert (Hin : i ∈ futures.*1).
    { rewrite Hfst, Hperm. apply elem_of_seq. lia. }
    apply list_elem_of_fmap in Hin as ([j fut] & Hj & Hin). simpl in Hj. subst j.
    pose proof (proj1 (Forall_forall _ _) Hall _ Hin) as (step & Hstep & Hfut).
    simpl in Hstep.
    exists step, (settled steps (i, fut)).2. split; [exact Hstep|]. split; [|exact Hfut].
    unfold slots. apply fold_place_at; [exact Hnd| |rewrite length_replicate; exact Hi].
    unfold placed. apply list_elem_of_fmap. exists (i, fut). split; [|exact Hin].
    unfold settled. simpl. destruct fut; reflexivity. }
  exists (omap id slots), s1. split; [reflexivity|]. split; [|exact Ht].
  assert (Hfilled : Some <$> omap id slots = slots).
  { apply all_filled. intros i Hi. rewrite Hslots_len in Hi.
    destruct (Hfill i Hi) as (step & r & _ & Hr & _). eauto. }
  apply Forall2_same_length_lookup_2.
  + rewrite <- (length_fmap Some (omap id slots)), Hfilled, Hslots_len. reflexivity.
  + intros i step r Hstep Hr.
    assert (Hi : (i < n)%nat) by (apply lookup_lt_Some in Hstep; exact Hstep).
    destruct (Hfill i Hi) as (step' & r' & Hstep' & Hr' & Hpooled).
    rewrite Hstep in Hstep'. inversion Hstep'; subst step'.
    rewrite <- Hfilled, list_lookup_fmap, Hr in Hr'. simpl in Hr'.
    inversion Hr'; subst r'. exact Hpooled.
Qed.

(** The map of the steps stops at the first step without an id. *)
Lemma build_step_map_missing_id before step after m :
  ids_hashable before ->
  Py.lookup step "id" = None ->
  build_step_map m (VDict <$> before ++ step :: after) = Raised "'id'".
Proof.
  intros Hids Hno. revert m. induction Hids as [|b before [k Hk] Hids IH]; intros m.
  - simpl. unfold step_map_add, subscript_id. rewrite Hno. reflexivity.
  - simpl. rewrite (step_map_add_dict m b k Hk). apply IH.
Qed.

(** The entry of a key is the last step that has it. *)
Lemma build_step_map_last before step after k m :
  ids_hashable (before ++ step :: after) ->
  step_key step = Some k ->
  Forall (fun later => step_key later <> Some k) after ->
  exists m', build_step_map m (VDict <$> before ++ step :: after) = Ok m'
             /\ m' !! k = Some (VDict step).
Proof.
  intros Hids Hk Hafter.
  assert (Hrest : forall steps m0,
             ids_hashable steps ->
             Forall (fun later => step_key later <> Some k) steps ->
             exists m', build_step_map m0 (VDict <$> steps) = Ok m' /\ m' !! k = m0 !! k).
  { induction steps as [|st steps IH]; intros m0 Hh Hne.
    - exists m0. split; reflexivity.
    - inversion Hh as [|? ? [k' Hk'] Hh']; subst. inversion Hne as [|? ? Hne1 Hne']; subst.
      simpl. rewrite (step_map_add_dict m0 st k' Hk').
      destruct (IH (<[k' := VDict st]> m0) Hh' Hne') as (m' & Hm' & Hlook).
      exists m'. split; [exact Hm'|]. rewrite Hlook. apply lookup_insert_ne.
      intros ->. apply Hne1. exact Hk'. }
  revert m. induction before as [|b before IH]; intros m.
  - simpl in *. inversion Hids as [|? ? _ Hids']; subst.
    rewrite (step_map_add_dict m step k Hk).
    destruct (Hrest after (<[k := VDict step]> m) Hids' Hafter) as (m' & Hm' & Hlook).
    exists m'. split; [exact Hm'|]. rewrite Hlook. apply lookup_insert_eq.
  - simpl in *. inversion Hids as [|? ? [kb Hkb] Hids']; subst.
    rewrite (step_map_add_dict m b kb Hkb). apply IH. exact Hids'.
Qed.

End ExecutorEdges.

Section PlannerEdges.
Context `{Host}.

Lemma or_or a b : Py.or (Py.or a b) b = Py.or a b.
Proof. unfold Py.or. destruct (Py.truthy a) eqn:Ha; [rewrite Ha|]; [reflexivity|]. destruct (Py.truthy b); reflexivity. Qed.

Lemma registry_lookup_some k name fn :
  registry_lookup k = Some (name, fn) <-> k = Py.KStr name /\ TOOL_REGISTRY !! name = Some fn.
Proof.
  destruct k as [|n|n]; simpl; try (split; [discriminate|intros [? _]; discriminate]).
  destruct (TOOL_REGISTRY !! n) as [f|] eqn:Hn; simpl; split.
  - intros [= <- <-]. rewrite Hn. auto.
  - intros [[= <-] Hf]. rewrite Hn in Hf. injection Hf as <-. reflexivity.
  - discriminate.
  - intros [[= <-] Hf]. rewrite Hn in Hf. discriminate.
Qed.

Lemma hash_key_str v name : Py.hash_key v = Ok (Py.KStr name) <-> v = VStr name.
Proof.
  split; [|intros ->; reflexivity].
  destruct v as [|[]| | | |]; simpl; intros Hk; inversion Hk; reflexivity.
Qed.

Lemma truthy_str name : Py.truthy (VStr name) = true <-> name <> "".
Proof.
  simpl. rewrite negb_true_iff. split.
  - intros Hne ->. discriminate.
  - intros Hne. apply String.eqb_neq. exact Hne.
Qed.

Lemma acceptable_step_tool d name fn :
  Py.get d "tool" = VStr name -> name <> "" -> TOOL_REGISTRY !! name = Some fn ->
  Py.truthy (Py.get d "tool") = true
  /\ Py.hash_key (Py.get d "tool") = Ok (Py.KStr name)
  /\ registry_lookup (Py.KStr name) = Some (name, fn).
Proof.
  intros -> Hne Hfn. split; [apply truthy_str; exact Hne|]. split; [reflexivity|].
  simpl. rewrite Hfn. reflexivity.
Qed.

Lemma normalize_step_accepts idx step :
  (exists n, normalize_step idx step = Ok n) <-> acceptable_step step.
Proof.
  split.
  - intros [n Hn]. unfold normalize_step in Hn.
    destruct step as [| | | | |d]; simpl in Hn; try discriminate.
    destruct (Py.truthy (Py.get d "tool")) eqn:Ht; simpl in Hn; [|discriminate].
    destruct (Py.hash_key (Py.get d "tool")) as [k|e] eqn:Hk; [|discriminate].
    destruct (registry_lookup k) as [[name fn]|] eqn:Hreg; [|discriminate].
    apply registry_lookup_some in Hreg as [-> Hfn].
    apply hash_key_str in Hk. exists d, name. split; [reflexivity|]. split; [exact Hk|].
    split; [|rewrite Hfn; eauto]. apply truthy_str. rewrite <- Hk. exact Ht.
  - intros (d & name & -> & Htool & Hne & [fn Hfn]).
    destruct (acceptable_step_tool d name fn Htool Hne Hfn) as (Ht & Hk & Hreg).
    unfold normalize_step. simpl as_dict. cbv iota. rewrite Ht, Hk. simpl negb. cbv iota.
    rewrite Hreg. eauto.
Qed.

Lemma normalize_steps_accepts steps :
  forall idx, (exists ns, normalize_steps idx steps = Ok ns) <-> Forall acceptable_step steps.
Proof.
  induction steps as [|step steps IH]; intros idx; simpl.
  - split; [constructor|eauto].
  - split.
    + intros [ns Hns].
      destruct (normalize_step idx step) as [n|e] eqn:Hn; [|discriminate].
      destruct (normalize_steps (S idx) steps) as [ns'|e] eqn:Hns'; [|discriminate].
      constructor; [apply (normalize_step_accepts idx); eauto|apply (IH (S idx)); eauto].
    + intros Hall. inversion Hall as [|? ? Hstep Hrest]; subst.
      apply (normalize_step_accepts idx) in Hstep as [n ->].
      apply (IH (S idx)) in Hrest as [ns ->]. eauto.
Qed.

Lemma normalize_steps_length steps :
  forall idx ns, normalize_steps idx steps = Ok ns -> length ns = length steps.
Proof.
  induction steps as [|step steps IH]; intros idx ns; simpl.
  - intros [= <-]. reflexivity.
  - destruct (normalize_step idx step) as [n|e]; [|discriminate].
    destruct (normalize_steps (S idx) steps) as [ns'|e] eqn:Hns'; [|discriminate].
    intros [= <-]. simpl. f_equal. eapply IH. exact Hns'.
Qed.

Lemma normalize_step_rejects idx d :
  unregistered (Py.get d "tool") ->
  normalize_step idx (VDict d)
  = Raised ("Unknown tool in plan: " +:+ py_str (Py.get d "tool")).
Proof.
  intros [Hf|(k & Hk & Hreg)]; unfold normalize_step; simpl as_dict; cbv iota.
  - rewrite Hf. reflexivity.
  - destruct (Py.truthy (Py.get d "tool")); simpl negb; cbv iota; [|reflexivity].
    rewrite Hk, Hreg. reflexivity.
Qed.

Lemma normalize_steps_rejects before d after :
  Forall acceptable_step before ->
  unregistered (Py.get d "tool") ->
  forall idx,
    normalize_steps idx (before ++ VDict d :: after)
    = Raised ("Unknown tool in plan: " +:+ py_str (Py.get d "tool")).
Proof.
  intros Hbefore Hbad. induction Hbefore as [|b before Hb Hbefore IH]; intros idx.
  - simpl app. cbn [normalize_steps]. rewrite (normalize_step_rejects idx d Hbad). reflexivity.
  - simpl app. cbn [normalize_steps].
    apply (normalize_step_accepts idx) in Hb as [n ->]. rewrite IH. reflexivity.
Qed.

Lemma normalize_step_fix idx step n :
  normalize_step idx step = Ok n -> normalize_step idx n = Ok n.
Proof.
  intros Hn. unfold normalize_step in Hn.
  destruct step as [| | | | |d]; try discriminate. cbn [as_dict] in Hn.
  destruct (Py.truthy (Py.get d "tool")) eqn:Ht; cbn [negb] in Hn; [|discriminate].
  destruct (Py.hash_key (Py.get d "tool")) as [k|e] eqn:Hk; [|discriminate].
  destruct (registry_lookup k) as [[name fn]|] eqn:Hreg; [|discriminate].
  injection Hn as <-. unfold normalize_step. cbn [as_dict].
  change (Py.get [("id", _); ("tool", _); ("args", _); ("purpose", _)] "tool")
    with (Py.get d "tool").
  rewrite Ht, Hk. cbn [negb]. rewrite Hreg.
  change (Py.get [("id", _); ("tool", _); ("args", _); ("purpose", _)] "id")
    with (Py.or (Py.get d "id") (VStr ("step_" +:+ pretty idx))).
  change (Py.get [("id", _); ("tool", _); ("args", _); ("purpose", _)] "args")
    with (Py.or (Py.get d "args") (VDict [])).
  change (Py.get [("id", _); ("tool", _); ("args", _); ("purpose", _)] "purpose")
    with (Py.or (Py.get d "purpose") (VStr "")).
  rewrite !or_or. reflexivity.
Qed.

Lemma normalize_steps_fix steps :
  forall idx ns, normalize_steps idx steps = Ok ns -> normalize_steps idx ns = Ok ns.
Proof.
  induction steps as [|step steps IH]; intros idx ns; simpl.
  - intros [= <-]. reflexivity.
  - destruct (normalize_step idx step) as [n|e] eqn:Hn; [|discriminate].
    destruct (normalize_steps (S idx) steps) as [ns'|e] eqn:Hns'; [|discriminate].
    intros [= <-]. cbn [normalize_steps].
    rewrite (normalize_step_fix idx step n Hn), (IH (S idx) ns' Hns'). reflexivity.
Qed.

End PlannerEdges.

(** [execute] step by step: when every step of the plan runs to a result
    that satisfies [Q] and adds the events [ev] to the trace, the results
    satisfy [Q] step by step and the trace grows by the events of all the
    steps, in the order in which the pool ran them. *)
Section ExecuteStepwise.
Context `{Host}.
Variable Q : dict -> dict -> Prop.
Variable ev : dict -> list event.
Variable steps : list dict.
Hypothesis every_step :
  forall step st, step ∈ steps ->
    exists r st', _run_step step st = (Ok r, st') /\ Q step r
                  /\ trace st' = trace st ++ ev step.

Lemma seq_bind_lookup {B} (l : list dict) (g : dict -> list B) :
  seq 0 (length l) ≫= (fun i => g (default [] (l !! i))) = l ≫= g.
Proof.
  induction l as [|x l IH]; [reflexivity|].
  cbn [length]. rewrite <- cons_seq, bind_cons, <- fmap_S_seq.
  cbn [lookup list_lookup default]. rewrite bind_cons. f_equal.
  rewrite <- IH. clear IH. generalize (seq 0 (length l)). intros js.
  induction js as [|j js IHj]; [reflexivity|].
  rewrite fmap_cons, !bind_cons, IHj. reflexivity.
Qed.

Lemma inline_stepwise (some : list dict) s :
  some ⊆ steps ->
  exists results s',
    mapM run_step_of (VDict <$> some) s = (Ok results, s')
    /\ Forall2 Q some results
    /\ trace s' = trace s ++ (some ≫= ev).
Proof.
  revert s. induction some as [|step some IH]; intros s Hsub.
  - exists [], s. split; [reflexivity|]. split; [constructor|].
    simpl. rewrite app_nil_r. reflexivity.
  - destruct (every_step step s) as (r & s1 & Hrun & Hq & Ht1).
    { apply Hsub. left. }
    destruct (IH s1) as (results & s2 & Hmap & Hall & Ht2).
    { intros x Hx. apply Hsub. right. exact Hx. }
    exists (r :: results), s2. split; [|split].
    + rewrite fmap_cons. cbn [mapM]. rewrite run_step_of_dict.
      rewrite (bind_step _ _ _ _ _ Hrun), (bind_step _ _ _ _ _ Hmap). reflexivity.
    + constructor; assumption.
    + rewrite Ht2, Ht1, bind_cons, app_assoc. reflexivity.
Qed.

Lemma workers_stepwise order s :
  Forall (fun i => (i < length steps)%nat) order ->
  exists placed s',
    mapM (worker (VDict <$> steps)) order s = (Ok (in_future <$> placed), s')
    /\ placed.*1 = order
    /\ Forall (fun p => exists step, steps !! p.1 = Some step /\ Q step p.2) placed
    /\ trace s' = trace s ++ (order ≫= fun i => ev (default [] (steps !! i))).
Proof.
  intros Hord. revert s. induction Hord as [|i order Hi Hord IH]; intros s.
  - exists [], s. split; [reflexivity|]. split; [reflexivity|]. split; [constructor|].
    simpl. rewrite app_nil_r. reflexivity.
  - destruct (lookup_lt_is_Some_2 steps i Hi) as [step Hstep].
    destruct (every_step step s) as (r & s1 & Hrun & Hq & Ht1).
    { eapply list_elem_of_lookup_2. exact Hstep. }
    destruct (IH s1) as (placed & s2 & Hmap & Hfst & Hall & Ht2).
    exists ((i, r) :: placed), s2. split; [|split; [|split]].
    + cbn [mapM]. unfold worker at 1. rewrite list_lookup_fmap, Hstep. simpl.
      rewrite run_step_of_dict.
      unfold bind at 1. unfold bind at 1. unfold try. rewrite Hrun. unfold ret at 1.
      rewrite (bind_step _ _ _ _ _ Hmap). reflexivity.
    + rewrite fmap_cons, Hfst. reflexivity.
    + constructor; [|exact Hall]. exists step. split; [exact Hstep|exact Hq].
    + rewrite Ht2, Ht1, bind_cons, Hstep, app_assoc. reflexivity.
Qed.

Lemma execute_stepwise plan s :
  plan_steps plan steps ->
  exists results s' evs,
    execute plan s = (Ok results, s')
    /\ Forall2 Q steps results
    /\ trace s' = trace s ++ evs
    /\ evs ≡ₚ steps ≫= ev.
Proof.
  intros Hplan. unfold execute. rewrite Hplan. simpl Py.len. simpl Py.iter.
  rewrite !bind_lift_ok. rewrite length_fmap.
  destruct (length steps <=? 1)%nat eqn:Hn.
  - destruct (inline_stepwise steps s) as (results & s' & Hmap & Hall & Ht); [done|].
    exists results, s', (steps ≫= ev). repeat split; assumption || reflexivity.
  - set (n := length steps). set (order := pool_order (world s) n).
    assert (Hperm : Permutation order (seq 0 n)) by apply pool_order_perm.
    assert (Hord : Forall (fun i => (i < length steps)%nat) order).
    { apply Forall_forall. intros i Hi. rewrite Hperm in Hi.
      apply elem_of_seq in Hi. fold n. lia. }
    destruct (workers_stepwise order s Hord) as (placed & s1 & Hmap & Hfst & Hall & Ht).
    unfold bind at 1. unfold ret at 1. fold order.
    rewrite (bind_step _ _ _ _ _ Hmap).
    rewrite (bind_step _ _ _ _ _ (collect_all _ _ placed _ s1)).
    set (slots := fold_left place placed (replicate n None)).
    assert (Hslots_len : length slots = n).
    { unfold slots. rewrite fold_place_length. apply length_replicate. }
    assert (Hnd : NoDup placed.*1).
    { rewrite Hfst, Hperm. apply NoDup_seq. }
    assert (Hfill : forall i, (i < n)%nat ->
               exists step r, steps !! i = Some step /\ slots !! i = Some (Some r)
                              /\ Q step r).
    { intros i Hi.
      assert (Hin : i ∈ placed.*1).
      { rewrite Hfst, Hperm. apply elem_of_seq. lia. }
      apply list_elem_of_fmap in Hin as ([j r] & Hj & Hin). simpl in Hj. subst j.
      pose proof (proj1 (Forall_forall _ _) Hall _ Hin) as (step & Hstep & Hq).
      simpl in Hstep, Hq.
      exists step, r. split; [exact Hstep|]. split; [|exact Hq].
      unfold slots. apply fold_place_at; [exact Hnd|exact Hin|].
      rewrite length_replicate. exact Hi. }
    exists (omap id slots), s1, (order ≫= fun i => ev (default [] (steps !! i))).
    split; [reflexivity|]. split; [|split; [exact Ht|]].
    + assert (Hfilled : Some <$> omap id slots = slots).
      { apply all_filled. intros i Hi. rewrite Hslots_len in Hi.
        destruct (Hfill i Hi) as (step & r & _ & Hr & _). eauto. }
      apply Forall2_same_length_lookup_2.
      * rewrite <- (length_fmap Some (omap id slots)), Hfilled, Hslots_len. reflexivity.
      * intros i step r Hstep Hr.
        assert (Hi : (i < n)%nat) by (apply lookup_lt_Some in Hstep; exact Hstep).
        destruct (Hfill i Hi) as (step' & r' & Hstep' & Hr' & Hq).
        rewrite Hstep in Hstep'. inversion Hstep'; subst step'.
        rewrite <- Hfilled, list_lookup_fmap, Hr in Hr'. simpl in Hr'.
        inversion Hr'; subst r'. exact Hq.
    + rewrite Hperm. unfold n. rewrite (seq_bind_lookup steps ev). reflexivity.
Qed.

End ExecuteStepwise.

Section AcceptedPlans.
Context `{Host}.

(** The run of a step whose tool is registered calls the tool, once,
    and reports what the tool returned or raised. *)
Lemma run_step_registered step s name fn :
  Py.get step "tool" = VStr name ->
  TOOL_REGISTRY !! name = Some fn ->
  exists r s',
    _run_step step s = (Ok r, s')
    /\ (tool_was_called step r /\ produced step r)
    /\ trace s' = trace s ++ call_of step.
Proof.
  intros Htool Hfn.
  assert (Hk : Py.hash_key (Py.get step "tool") = Ok (Py.KStr name)) by (rewrite Htool; reflexivity).
  assert (Hreg : registry_lookup (Py.KStr name) = Some (name, fn)) by (simpl; rewrite Hfn; reflexivity).
  unfold call_of. rewrite Htool.
  destruct (fn (Py.or (Py.get step "args") (VDict [])) (perf_counter (world s)).2)
    as [[output|msg] w1] eqn:Hcall.
  - destruct (run_step_success step s _ name fn output w1 Hk Hreg Hcall) as (ms & w' & Hrun).
    eexists _, _. split; [exact Hrun|]. split; [|reflexivity].
    split; [|exists s; eexists; exact Hrun].
    exists name, fn. split; [exact Htool|]. split; [exact Hfn|].
    exists (perf_counter (world s)).2, w1, ms. left. eauto.
  - destruct (run_step_error step s _ name fn msg w1 Hk Hreg Hcall) as (ms & w' & Hrun).
    eexists _, _. split; [exact Hrun|]. split; [|reflexivity].
    split; [|exists s; eexists; exact Hrun].
    exists name, fn. split; [exact Htool|]. split; [exact Hfn|].
    exists (perf_counter (world s)).2, w1, ms. right. eauto.
Qed.

Lemma normalize_steps_registered steps :
  forall idx ns,
    normalize_steps idx steps = Ok ns ->
    exists ds, ns = VDict <$> ds /\ Forall registered_step ds.
Proof.
  induction steps as [|step steps IH]; intros idx ns; cbn [normalize_steps].
  - intros [= <-]. exists []. split; [reflexivity|constructor].
  - destruct (normalize_step idx step) as [n|e] eqn:Hn; [|discriminate].
    destruct (normalize_steps (S idx) steps) as [ns'|e] eqn:Hns'; [|discriminate].
    intros [= <-].
    destruct (normalize_step_ok idx step n Hn) as (d & name & fn & -> & Htool & Hfn & ->).
    destruct (IH (S idx) ns' Hns') as (ds & -> & Hall).
    eexists (_ :: ds). split; [reflexivity|]. constructor; [|exact Hall].
    split; [|discriminate]. exists name, fn. split; [exact Htool|exact Hfn].
Qed.

Lemma normalized_plan_registered plan task p :
  _normalize_plan plan task = Ok p ->
  exists steps, plan_steps p steps /\ steps <> [] /\ Forall registered_step steps.
Proof.
  intros Hp. unfold _normalize_plan in Hp.
  destruct plan as [| | | | |pd]; try discriminate.
  destruct (Py.get pd "steps") as [| | | |[|first others]|] eqn:Hsteps; try discriminate.
  destruct (normalize_steps 1 (first :: others)) as [ns|e] eqn:Hns; [|discriminate].
  injection Hp as <-.
  pose proof (normalize_steps_length _ _ _ Hns) as Hlen.
  destruct (normalize_steps_registered _ _ _ Hns) as (ds & -> & Hall).
  exists ds. split; [reflexivity|]. split; [|exact Hall].
  intros ->. discriminate.
Qed.

Lemma fmap_VDict_inj (a b : list dict) : VDict <$> a = VDict <$> b -> a = b.
Proof.
  revert b. induction a as [|x a IH]; intros [|y b]; simpl; try discriminate; [reflexivity|].
  intros [= -> Hrest]. f_equal. apply IH. exact Hrest.
Qed.

Lemma call_of_registered steps :
  Forall registered_step steps -> length (steps ≫= call_of) = length steps.
Proof.
  induction 1 as [|step steps [(name & fn & Htool & _) _] _ IH]; [reflexivity|].
  rewrite bind_cons, length_app, IH. unfold call_of. rewrite Htool. reflexivity.
Qed.

Lemma build_step_map_ok steps :
  forall m m', build_step_map m (VDict <$> steps) = Ok m' ->
               Forall (fun step => hashable (Py.get step "id") = true) steps.
Proof.
  induction steps as [|step steps IH]; intros m m'; [constructor|].
  rewrite fmap_cons. cbn [build_step_map].
  destruct (step_map_add m (VDict step)) as [m1|e] eqn:Hadd; [|discriminate].
  intros Hrest. constructor; [|eapply IH; exact Hrest].
  unfold step_map_add, subscript_id in Hadd. unfold Py.get, Py.get_default.
  destruct (Py.lookup step "id") as [id|]; [|reflexivity].
  destruct id; simpl in Hadd; try discriminate; reflexivity.
Qed.

Lemma registered_step_key step :
  registered_step step -> hashable (Py.get step "id") = true -> is_Some (step_key step).
Proof.
  intros [_ Hid] Hh. unfold step_key. unfold Py.get, Py.get_default in Hh.
  destruct (Py.lookup step "id") as [id|]; [|congruence].
  destruct (hashable_key id Hh) as [k ->]. eauto.
Qed.

Lemma tool_was_called_step_id step r :
  tool_was_called step r -> Py.get r "step_id" = Py.get step "id".
Proof.
  intros (name & fn & _ & _ & w & w' & ms & [(output & _ & ->)|(msg & _ & ->)]);
    reflexivity.
Qed.

End AcceptedPlans.

Section VerifierEdges.
Context `{Host}.

Lemma trim_items_ok items :
  forall ts, trim_items items = Ok ts ->
             exists ds, items = VDict <$> ds /\ ts = VDict <$> (trimmed <$> ds).
Proof.
  induction items as [|item items IH]; intros ts; cbn [trim_items].
  - intros [= <-]. exists []. split; reflexivity.
  - destruct (trim_item item) as [t|e] eqn:Ht; [|discriminate].
    destruct (trim_items items) as [ts'|e] eqn:Hts; [|discriminate].
    intros [= <-]. destruct (IH ts' eq_refl) as (ds & -> & ->).
    unfold trim_item in Ht. destruct item as [| | | | |d]; simpl in Ht; try discriminate.
    injection Ht as <-. exists (d :: ds). split; reflexivity.
Qed.

Lemma get_default_contains o k d :
  Py.contains o k = true -> Py.get_default o k d = Py.get o k.
Proof.
  unfold Py.contains, Py.get, Py.get_default. destruct (Py.lookup o k); [reflexivity|discriminate].
Qed.

Lemma slice_to_length n items first :
  slice_to n items = Ok first -> (length first <= n)%nat.
Proof.
  destruct items; simpl; try discriminate; intros [= <-]; rewrite length_take; lia.
Qed.

Lemma compact_output_ok output compact :
  compact_output output = Ok compact -> compacted_output output compact.
Proof.
  unfold compact_output, compacted_output. destruct output as [| | | | |o]; try (intros [= <-]; reflexivity).
  destruct (Py.contains o "items") eqn:Hc; [|intros [= <-]; reflexivity].
  rewrite (get_default_contains o "items" _ Hc).
  destruct (slice_to 5 (Py.get o "items")) as [first|e] eqn:Hs; [|discriminate].
  destruct (trim_items first) as [ts|e] eqn:Ht; [|discriminate].
  intros [= <-]. destruct (trim_items_ok first ts Ht) as (ds & -> & ->).
  exists (VDict <$> ds), ds. split; [reflexivity|]. split; [reflexivity|].
  split; [|reflexivity]. apply slice_to_length in Hs. rewrite length_fmap in Hs. exact Hs.
Qed.

Lemma still_missing_nil repaired :
  still_missing repaired = [] <-> Forall (fun r => Py.get r "status" = VStr "success") repaired.
Proof.
  unfold still_missing. induction repaired as [|r repaired IH].
  - split; [constructor|reflexivity].
  - rewrite filter_cons. destruct (Py.eq_str (Py.get r "status") "success") eqn:Hs.
    + apply eq_str_true in Hs. rewrite decide_False by (simpl; tauto).
      rewrite IH. split; [constructor; assumption|]. inversion 1; assumption.
    + rewrite decide_True by (simpl; tauto). split; [discriminate|].
      inversion 1 as [|? ? Hr]; subst. apply eq_str_true in Hr. congruence.
Qed.

Lemma enrich_other tools_used repaired allowed oracle k :
  k ∉ written_by_verify ->
  Py.get (enrich tools_used repaired allowed oracle) k = Py.get oracle k.
Proof.
  intros Hk. unfold written_by_verify in Hk.
  assert (k <> "final_answer" /\ k <> "data" /\ k <> "sources" /\ k <> "limitations"
          /\ k <> "completeness") as (H1 & H2 & H3 & H4 & H5).
  { repeat split; intros ->; apply Hk; set_solver. }
  unfold enrich. rewrite downgrade_other by assumption.
  rewrite get_set_ne by congruence. rewrite narration_other by assumption.
  apply speech_other; assumption.
Qed.

Lemma enrich_verdict tools_used repaired allowed oracle k :
  still_missing repaired = [] ->
  k = "completeness" \/ k = "limitations" ->
  Py.get (enrich tools_used repaired allowed oracle) k = Py.get oracle k.
Proof.
  intros Hnil Hk. unfold enrich. rewrite Hnil. cbn [downgrade].
  rewrite get_set_ne by (destruct Hk as [-> | ->]; discriminate).
  rewrite narration_other by (destruct Hk as [-> | ->]; discriminate).
  apply speech_other; destruct Hk as [-> | ->]; discriminate.
Qed.

Lemma find_speech_stripped repaired : stripped (find_speech repaired).
Proof.
  induction repaired as [|r repaired IH]; [split; reflexivity|]. cbn [find_speech].
  destruct (Py.eq_str (Py.get r "tool") "llm_generate"
            && Py.eq_str (Py.get r "status") "success"); [|exact IH].
  destruct (Py.get r "output"); try exact IH. apply strip_stripped.
Qed.

Lemma split_go_word s : forall w, Py.split_go (Some w) s <> [].
Proof.
  induction s as [|a rest IH]; intros w; cbn [Py.split_go]; [discriminate|].
  pose proof (IH (String a (default EmptyString (Some w)))) as Hmore.
  destruct (Py.is_space a); [discriminate|].
  destruct rest as [|b rest2]; [exact Hmore|].
  destruct (Py.is_space2 a b); [discriminate|].
  destruct rest2 as [|c rest3]; [exact Hmore|].
  destruct (Py.is_space3 a b c); [discriminate|exact Hmore].
Qed.

(** A text that is not empty and has no whitespace in front has a word. *)
Lemma split_stripped text : text <> "" -> stripped text -> Py.split text <> [].
Proof.
  intros Hne [Hl _].
  destruct text as [|a rest]; [congruence|].
  unfold Py.split. cbn [Py.split_go]. cbn [leading] in Hl.
  apply orb_false_elim in Hl as [-> Hl].
  pose proof (split_go_word rest (String a (default EmptyString None))) as Hmore.
  destruct rest as [|b rest2]; [exact Hmore|].
  apply orb_false_elim in Hl as [Hb Hl]. unfold Py.space2 in Hb. rewrite Hb.
  destruct rest2 as [|c rest3]; [exact Hmore|].
  unfold Py.space3 in Hl. rewrite Hl. exact Hmore.
Qed.

End VerifierEdges.

Section OrchestratorEdges.
Context `{Host}.

Lemma extract_step_errors_nil steps :
  _extract_step_errors steps = []
  <-> Forall (fun step => Py.get step "status" <> VStr "error") steps.
Proof.
  unfold _extract_step_errors. induction steps as [|step steps IH]; cbn [omap list_omap].
  - split; [constructor|reflexivity].
  - destruct (Py.eq_str (Py.get step "status") "error") eqn:He.
    + split; [discriminate|]. inversion 1 as [|? ? Hne]; subst.
      apply eq_str_true in He. congruence.
    + apply eq_str_false in He. rewrite IH. split; [constructor; assumption|].
      inversion 1; assumption.
Qed.

Lemma replan_task_none_iff task steps final :
  _build_replan_task task steps final = Ok None
  <-> Forall (fun step => Py.get step "status" <> VStr "error") steps
      /\ Py.truthy (Py.get_default final "limitations" (VList [])) = false.
Proof.
  rewrite <- extract_step_errors_nil. unfold _build_replan_task.
  destruct (_extract_step_errors steps) as [|e errors];
    destruct (Py.truthy (Py.get_default final "limitations" (VList []))) eqn:Ht.
  - split; [|intros [_ ?]; discriminate].
    destruct (Py.iter _); discriminate.
  - split; auto.
  - split; [|intros [? _]; discriminate]. destruct (Py.iter _); discriminate.
  - split; [discriminate|intros [? _]; discriminate].
Qed.

(** The events of a pass: the call of the planner, then tool calls and
    calls of the verifier about the task. *)
Lemma pass_ran_trace planned task s p s' :
  pass_ran planned task s p s' ->
  exists evs, trace s' = trace s ++ EvPlanner planned :: evs /\ Forall (pass_event task) evs.
Proof.
  intros (s1 & s2 & Hplan & Hexec & Hverify).
  apply create_plan_trace in Hplan.
  apply execute_adds in Hexec as (e1 & He1 & Hall1).
  apply verify_adds in Hverify as (e2 & He2 & Hall2).
  exists (e1 ++ e2). split.
  - rewrite He2, He1, Hplan. rewrite <- !app_assoc. reflexivity.
  - apply Forall_app. split; [|exact Hall2].
    eapply Forall_impl; [exact Hall1|]. intros ev. apply tool_event_pass.
Qed.

Lemma planner_calls_pass planned task evs :
  Forall (pass_event task) evs -> planner_calls (EvPlanner planned :: evs) = 1%nat.
Proof.
  intros Hall. change (EvPlanner planned :: evs) with ([EvPlanner planned] ++ evs).
  rewrite planner_calls_app, (pass_events_planner task evs Hall). reflexivity.
Qed.

(** The metrics of a response. *)
Lemma run_body_metrics task s resp s' :
  run_body task s = (Ok resp, s') ->
  resp_tool_count resp = length (resp_steps resp)
  /\ exists plan s1 steps s2,
       create_plan task s = (Ok plan, s1)
       /\ execute plan s1 = (Ok steps, s2)
       /\ tool_time steps = Ok (resp_tool_execution_ms resp).
Proof.
  unfold run_body. intros Hrun.
  apply bind_ok in Hrun as (plan & s1 & Hplan & Hrun).
  apply bind_ok in Hrun as (steps & s2 & Hexec & Hrun).
  apply bind_ok in Hrun as (final & s3 & Hverify & Hrun).
  apply bind_ok in Hrun as (tool_time_ms & s3' & Htime & Hrun).
  apply lift_ok in Htime as [Htime ->].
  apply bind_ok in Hrun as ([[[plan' steps'] final'] auto_replan] & s4 & Hreplan & Hrun).
  apply ret_ok in Hrun as [<- ->]. cbn [resp_tool_count resp_steps resp_tool_execution_ms].
  split; [reflexivity|]. exists plan, s1, steps, s2. auto.
Qed.

Lemma inline_produced steps :
  forall s results s',
    mapM run_step_of (VDict <$> steps) s = (Ok results, s') ->
    Forall2 produced steps results.
Proof.
  induction steps as [|step steps IH]; intros s results s'.
  - intros [= <- <-]. constructor.
  - rewrite fmap_cons. cbn [mapM]. rewrite run_step_of_dict. intros Hrun.
    apply bind_ok in Hrun as (r & s1 & Hr & Hrun).
    apply bind_ok in Hrun as (rs & s2 & Hrs & Hrun).
    apply ret_ok in Hrun as [<- ->]. constructor; [exists s, s1; exact Hr|].
    eapply IH. exact Hrs.
Qed.

Lemma timed_result step r :
  pooled_or_run step r ->
  exists ms, py_int (Py.get_default r "duration_ms" (VInt 0)) = Ok ms.
Proof.
  intros [(st & st' & Hrun)|[msg ->]].
  - destruct (run_step_describes _ _ _ _ Hrun) as [_ [[ms Hms] _]].
    unfold Py.get, Py.get_default in *.
    destruct (Py.lookup r "duration_ms") as [v|]; [|discriminate].
    rewrite Hms. exists ms. reflexivity.
  - exists 0. reflexivity.
Qed.

End OrchestratorEdges.

(** ** The monad of the services *)

Section IOLemmas.
Context `{Host}.

Lemma io_bind_step {A B} (m : IO A) (k : A -> IO B) w a w1 :
  m w = (Ok a, w1) -> io_bind m k w = k a w1.
Proof. intros Hm. unfold io_bind. rewrite Hm. reflexivity. Qed.

Lemma io_bind_raised {A B} (m : IO A) (k : A -> IO B) w e w1 :
  m w = (Raised e, w1) -> io_bind m k w = (Raised e, w1).
Proof. intros Hm. unfold io_bind. rewrite Hm. reflexivity. Qed.

Lemma io_bind_ok {A B} (m : IO A) (k : A -> IO B) w b w' :
  io_bind m k w = (Ok b, w') <-> exists a w1, m w = (Ok a, w1) /\ k a w1 = (Ok b, w').
Proof.
  unfold io_bind. destruct (m w) as [[a|e] w1]; split.
  - eauto.
  - intros (a' & w1' & [= <- <-] & Hk). exact Hk.
  - discriminate.
  - intros (a' & w1' & [=] & _).
Qed.

Lemma io_lift_ok {A} (r : outcome A) w a w' :
  io_lift r w = (Ok a, w') <-> r = Ok a /\ w' = w.
Proof.
  destruct r as [a'|e]; simpl; unfold io_ret, io_raise; split.
  - intros [= <- <-]. auto.
  - intros [[= <-] ->]. reflexivity.
  - discriminate.
  - intros [[=] _].
Qed.

Lemma io_read_ok {A} (f : W -> A) w a w' :
  io_read f w = (Ok a, w') <-> a = f w /\ w' = w.
Proof.
  unfold io_read. split; [intros [= <- <-]; auto|intros [-> ->]; reflexivity].
Qed.

Lemma io_ret_ok {A} (a b : A) w w' :
  io_ret a w = (Ok b, w') <-> a = b /\ w' = w.
Proof.
  unfold io_ret. split; [intros [= <- <-]; auto|intros [-> ->]; reflexivity].
Qed.

End IOLemmas.

Section ClientLemmas.
Context `{Services}.

Lemma from_first_brace_lacks text :
  lacks "{" text = true -> from_first_brace text = None.
Proof.
  induction text as [|c text IH]; [reflexivity|]. cbn [lacks from_first_brace].
  destruct (Ascii.eqb c "{"); [discriminate|]. exact IH.
Qed.

Lemma upto_last_brace_lacks text :
  lacks "}" text = true -> upto_last_brace text = None.
Proof.
  induction text as [|c text IH]; [reflexivity|]. cbn [lacks upto_last_brace].
  destruct (Ascii.eqb c "}"); [discriminate|]. intros Hl. rewrite (IH Hl). reflexivity.
Qed.

Lemma from_first_brace_app prose rest :
  lacks "{" prose = true ->
  from_first_brace (prose +:+ "{" +:+ rest) = Some ("{" +:+ rest).
Proof.
  induction prose as [|c prose IH]; [reflexivity|]. cbn [lacks].
  change (String c prose +:+ "{" +:+ rest) with (String c (prose +:+ "{" +:+ rest)).
  cbn [from_first_brace]. destruct (Ascii.eqb c "{"); [discriminate|]. exact IH.
Qed.

Lemma upto_last_brace_app text tail :
  lacks "}" tail = true ->
  upto_last_brace (text +:+ "}" +:+ tail) = Some (text +:+ "}").
Proof.
  intros Hl. induction text as [|c text IH].
  - change ("" +:+ "}" +:+ tail) with (String "}" tail). cbn [upto_last_brace].
    rewrite (upto_last_brace_lacks tail Hl). reflexivity.
  - change (String c text +:+ "}" +:+ tail) with (String c (text +:+ "}" +:+ tail)).
    cbn [upto_last_brace]. rewrite IH. reflexivity.
Qed.

Lemma brace_match_app prose body tail :
  lacks "{" prose = true -> lacks "}" tail = true ->
  brace_match (prose +:+ "{" +:+ body +:+ "}" +:+ tail) = Some ("{" +:+ body +:+ "}").
Proof.
  intros Hp Ht. unfold brace_match. rewrite (from_first_brace_app prose _ Hp).
  change ("{" +:+ body +:+ "}" +:+ tail) with (String "{" body +:+ "}" +:+ tail).
  rewrite (upto_last_brace_app (String "{" body) tail Ht). reflexivity.
Qed.

Lemma replies_app conn req w rs w1 rs' w' :
  replies conn req w rs w1 -> replies conn req w1 rs' w' ->
  replies conn req w (rs ++ rs') w'.
Proof.
  induction 1 as [|w r w0 rs w1 Hcall _ IH]; intros Hrest; [exact Hrest|].
  simpl. econstructor; [exact Hcall|]. apply IH. exact Hrest.
Qed.

(** The loop of [chat_json], reply by reply. *)
Lemma chat_json_loop_spec self system_prompt user_prompt attempts :
  forall w o w',
    chat_json_loop self system_prompt user_prompt attempts w = (o, w') ->
    exists rs,
      replies (self_client self) (json_request self system_prompt user_prompt) w rs w'
      /\ (length rs <= attempts)%nat
      /\ match o with
         | Ok v =>
             exists before last,
               rs = before ++ [last] /\ Forall undecodable before
               /\ decoded last = Some v
         | Raised e =>
             (exists before,
                 rs = before ++ [Raised e] /\ Forall undecodable before)
             \/ (e = "LLM did not return valid JSON"
                 /\ Forall undecodable rs /\ length rs = attempts)
         end.
Proof.
  induction attempts as [|rest IH]; intros w o w'; cbn [chat_json_loop].
  - intros [= <- <-]. exists []. split; [constructor|]. split; [reflexivity|].
    right. repeat split. constructor.
  - unfold io_bind. fold (json_request self system_prompt user_prompt).
    destruct (completions_create (self_client self)
                (json_request self system_prompt user_prompt) w) as [[reply|e] w1] eqn:Hcall.
    + destruct (json_loads (or_else reply "")) as [parsed|] eqn:Hloads.
      * intros [= <- <-]. exists [Ok reply]. split; [econstructor; [exact Hcall|constructor]|].
        split; [simpl; lia|]. exists [], (Ok reply). repeat split; [constructor|].
        unfold decoded. rewrite Hloads. reflexivity.
      * destruct (_extract_json (or_else reply "")) as [extracted|] eqn:Hextract.
        -- intros [= <- <-]. exists [Ok reply].
           split; [econstructor; [exact Hcall|constructor]|].
           split; [simpl; lia|]. exists [], (Ok reply). repeat split; [constructor|].
           unfold decoded. rewrite Hloads. exact Hextract.
        -- intros Hloop. destruct (IH w1 o w' Hloop) as (rs & Hrs & Hlen & Hout).
           assert (Hun : undecodable (Ok reply)).
           { split; [eauto|]. unfold decoded. rewrite Hloads. exact Hextract. }
           exists (Ok reply :: rs). split; [econstructor; eassumption|].
           split; [simpl; lia|]. destruct o as [v|e].
           ++ destruct Hout as (before & last & -> & Hbefore & Hlast).
              exists (Ok reply :: before), last. repeat split; [constructor|]; assumption.
           ++ destruct Hout as [(before & -> & Hbefore)|(-> & Hall & Hn)].
              ** left. exists (Ok reply :: before). split; [reflexivity|]. constructor; assumption.
              ** right. repeat split; [constructor; assumption|simpl; f_equal; exact Hn].
    + intros [= <- <-]. exists [Raised e]. split; [econstructor; [exact Hcall|constructor]|].
      split; [simpl; lia|]. left. exists []. split; [reflexivity|constructor].
Qed.

(** The loop of [chat_text], reply by reply. *)
Lemma chat_text_loop_spec self system_prompt user_prompt attempts :
  forall w o w',
    chat_text_loop self system_prompt user_prompt attempts w = (o, w') ->
    exists rs,
      replies (self_client self) (text_request self system_prompt user_prompt) w rs w'
      /\ (length rs <= attempts)%nat
      /\ match o with
         | Ok text =>
             exists before content,
               rs = before ++ [Ok content] /\ Forall failed before
               /\ text = or_else content ""
         | Raised e =>
             e = "LLM did not return text" /\ Forall failed rs /\ length rs = attempts
         end.
Proof.
  induction attempts as [|rest IH]; intros w o w'; cbn [chat_text_loop].
  - intros [= <- <-]. exists []. split; [constructor|]. split; [reflexivity|].
    repeat split. constructor.
  - fold (text_request self system_prompt user_prompt).
    destruct (completions_create (self_client self)
                (text_request self system_prompt user_prompt) w) as [[reply|e] w1] eqn:Hcall.
    + intros [= <- <-]. exists [Ok reply]. split; [econstructor; [exact Hcall|constructor]|].
      split; [simpl; lia|]. exists [], reply. repeat split. constructor.
    + intros Hloop. destruct (IH w1 o w' Hloop) as (rs & Hrs & Hlen & Hout).
      assert (Hf : failed (Raised e)) by (exists e; reflexivity).
      exists (Raised e :: rs). split; [econstructor; eassumption|].
      split; [simpl; lia|]. destruct o as [text|e'].
      * destruct Hout as (before & content & -> & Hbefore & ->).
        exists (Raised e :: before), content. repeat split. constructor; assumption.
      * destruct Hout as (-> & Hall & Hn).
        repeat split; [constructor; assumption|simpl; f_equal; exact Hn].
Qed.

End ClientLemmas.

Section ToolLemmas.
Context `{Services}.

Lemma or_else_nonempty a b : b <> "" -> or_else a b <> "".
Proof.
  intros Hb. unfold or_else. destruct a as [s|]; [|exact Hb].
  destruct (String.eqb s "") eqn:Hs; [exact Hb|]. apply String.eqb_neq. exact Hs.
Qed.

Lemma or_else_absorb a b : or_else a b = or_else a (or_else a b).
Proof.
  unfold or_else. destruct a as [s|]; [|reflexivity].
  destruct (String.eqb s ""); reflexivity.
Qed.

Lemma default_model_nonempty base_url : _default_model base_url <> "".
Proof.
  unfold _default_model. destruct base_url as [url|]; [|discriminate].
  destruct (negb (String.eqb url "") && contains_text "api.groq.com" url); discriminate.
Qed.

(** The constructor of the client: the environment is read, then the
    [OpenAI] object is created, always with a base url. *)
Lemma new_client_cases model w :
  exists api_key base_url model_name,
    base_url <> "" /\ model_name <> ""
    /\ model_name = or_else model model_name
    /\ new_LLMClient model w
       = match OpenAI api_key (Some base_url) w with
         | (Ok conn, w1) => (Ok {| self_model := model_name; self_client := conn |}, w1)
         | (Raised e, w1) => (Raised e, w1)
         end.
Proof.
  set (base_url := or_else (getenv "LLM_BASE_URL" w)
                     (or_else (getenv "OPENAI_BASE_URL" w) _default_base_url)).
  set (model_env := or_str (getenv "LLM_MODEL" w) (getenv "OPENAI_MODEL" w)).
  set (model_name := or_else model (or_else model_env (_default_model (Some base_url)))).
  assert (Hbase : base_url <> "").
  { apply or_else_nonempty, or_else_nonempty. discriminate. }
  assert (Hmodel : model_name <> "").
  { apply or_else_nonempty, or_else_nonempty, default_model_nonempty. }
  exists (or_str (getenv "LLM_API_KEY" w) (getenv "OPENAI_API_KEY" w)), base_url, model_name.
  split; [exact Hbase|]. split; [exact Hmodel|]. split.
  - apply or_else_absorb.
  - unfold new_LLMClient, io_bind, io_read, io_ret. fold base_url. fold model_env.
    fold model_name.
    assert (Hne : String.eqb base_url "" = false) by (apply String.eqb_neq; exact Hbase).
    rewrite Hne. cbn [negb].
    destruct (OpenAI _ (Some base_url) w) as [[conn|e] w1]; reflexivity.
Qed.

Lemma repository_entries_ok items :
  forall entries,
    repository_entries items = Ok entries ->
    exists es, entries = VDict <$> es /\ length es = length items
               /\ Forall (fun e => keys e = entry_keys) es.
Proof.
  induction items as [|item items IH]; intros entries; cbn [repository_entries].
  - intros [= <-]. exists []. repeat split. constructor.
  - destruct (repository_entry item) as [entry|e] eqn:He; [|discriminate].
    destruct (repository_entries items) as [rest|e] eqn:Hrest; [|discriminate].
    intros [= <-]. destruct (IH rest eq_refl) as (es & -> & Hlen & Hkeys).
    unfold repository_entry in He. destruct (as_dict item) as [d|e]; [|discriminate].
    injection He as <-. eexists (_ :: es). split; [reflexivity|].
    split; [simpl; f_equal; exact Hlen|]. constructor; [reflexivity|exact Hkeys].
Qed.

Lemma list_upto_length {A} n (xs : list A) :
  0 <= n -> Z.of_nat (length (list_upto n xs)) <= n.
Proof.
  intros Hn. unfold list_upto. destruct (n <? 0) eqn:Hneg; [lia|].
  rewrite length_take. lia.
Qed.

Lemma slice_upto_length n items first :
  slice_upto n items = Ok first -> 0 <= n -> Z.of_nat (length first) <= n.
Proof.
  destruct items; simpl; try discriminate; intros [= <-]; apply list_upto_length.
Qed.

Lemma trim_items_dicts (ds : list dict) :
  trim_items (VDict <$> ds) = Ok (VDict <$> (trimmed <$> ds)).
Proof.
  induction ds as [|d ds IH]; [reflexivity|].
  rewrite !fmap_cons. cbn [trim_items trim_item as_dict]. rewrite IH. reflexivity.
Qed.

Lemma known_summary_nonempty summary : known_summary summary -> summary <> "".
Proof.
  intros [->|[code Hcode]]; [discriminate|].
  unfold WEATHER_CODE_MAP in Hcode. apply elem_of_list_to_map_2 in Hcode.
  repeat (apply elem_of_cons in Hcode as [Hcode|Hcode]; [injection Hcode as _ ->; discriminate|]).
  apply elem_of_nil in Hcode. destruct Hcode.
Qed.

Lemma weather_summary_known code summary :
  weather_summary_of code = Ok summary -> known_summary summary.
Proof.
  unfold weather_summary_of. destruct (Py.hash_key code) as [[|n|s]|e].
  - intros [= <-]. left. reflexivity.
  - destruct (WEATHER_CODE_MAP !! n) as [found|] eqn:Hn; cbn [default]; intros [= <-].
    + right. exists n. exact Hn.
    + left. reflexivity.
  - intros [= <-]. left. reflexivity.
  - intros [=].
Qed.

Lemma location_nonempty (a b : string) : a +:+ ", " +:+ b <> "".
Proof. destruct a; discriminate. Qed.

End ToolLemmas.

Section EndpointLemmas.
Context `{Services}.

Lemma cleaned_of_clean suggestions :
  Forall (fun text => text <> "" /\ stripped text) (cleaned_of suggestions).
Proof.
  unfold cleaned_of. apply Forall_forall. intros text Hin.
  apply list_elem_of_filter in Hin as [Hne Hin].
  apply list_elem_of_fmap in Hin as (s & -> & _). split.
  - intros Hempty. rewrite Hempty in Hne. exact Hne.
  - apply strip_stripped.
Qed.

End EndpointLemmas.

(** * More of the code: theorems *)

(** ** Executor: edges of [execute] and [retry_failed] *)

(** X1. On a plan of two or more steps (dicts, with any tool value)
    [execute] does not raise and returns one result per step, in the order
    of the steps.  A step whose tool is a list or a dict, which cannot be
    looked up in the registry, gets the result the handler of the pool
    builds: an error with the message of the [TypeError] and no
    [duration_ms]; every other step gets the result of its own run. *)
Theorem execute_pool_absorbs_unhashable_tool `{Host}
    (plan : dict) (steps : list dict) (s : state) :
  plan_steps plan steps ->
  (2 <= length steps)%nat ->
  exists results s',
    execute plan s = (Ok results, s')
    /\ length results = length steps
    /\ forall i step,
         steps !! i = Some step ->
         exists result,
           results !! i = Some result
           /\ match unhashable_message (Py.get step "tool") with
              | Some msg =>
                  result = handler_result step msg
                  /\ Py.get result "status" = VStr "error"
                  /\ Py.get result "error" = VStr msg
                  /\ Py.contains result "duration_ms" = false
              | None => produced step result
              end.
Proof.
  intros Hplan Hlen.
  destruct (execute_pool_returns plan steps s Hplan Hlen) as (results & s' & Hex & Hall & _).
  exists results, s'. split; [exact Hex|]. split.
  - symmetry. eapply Forall2_length. exact Hall.
  - intros i step Hstep.
    destruct (Forall2_lookup_l _ _ _ _ _ Hall Hstep) as (result & Hres & Hpooled).
    exists result. split; [exact Hres|]. unfold pooled in Hpooled.
    destruct (unhashable_message (Py.get step "tool")) as [msg|]; [|exact Hpooled].
    subst result. repeat split; reflexivity.
Qed.

Lemma execute_pool_absorbs_unhashable_tool_witness :
  plan_steps (Demo.plan_of Cases.odd_steps) Cases.odd_steps
  /\ (2 <= length Cases.odd_steps)%nat
  /\ exists results s',
       execute (H:=Demo.host) (Demo.plan_of Cases.odd_steps) Demo.start = (Ok results, s')
       /\ length results = length Cases.odd_steps
       /\ forall i step,
            Cases.odd_steps !! i = Some step ->
            exists result,
              results !! i = Some result
              /\ match unhashable_message (Py.get step "tool") with
                 | Some msg =>
                     result = handler_result step msg
                     /\ Py.get result "status" = VStr "error"
                     /\ Py.get result "error" = VStr msg
                     /\ Py.contains result "duration_ms" = false
                 | None => produced (H:=Demo.host) step result
                 end.
Proof.
  split; [reflexivity|]. split; [simpl; lia|].
  apply (execute_pool_absorbs_unhashable_tool (H:=Demo.host)
           (Demo.plan_of Cases.odd_steps) Cases.odd_steps Demo.start).
  - reflexivity.
  - simpl. lia.
Defined.

(** X2. A plan of a single step runs the step inline, outside the pool:
    when the tool of that step is a list or a dict, [execute] raises the
    [TypeError] of the lookup instead of returning an error result, and no
    tool has been called. *)
Theorem execute_single_step_unhashable_tool_raises `{Host}
    (plan : dict) (step : dict) (msg : string) (s : state) :
  plan_steps plan [step] ->
  unhashable_message (Py.get step "tool") = Some msg ->
  exists s', execute plan s = (Raised msg, s') /\ trace s' = trace s.
Proof.
  intros Hplan Hmsg. unfold execute. rewrite Hplan. simpl Py.len. simpl Py.iter.
  rewrite !bind_lift_ok. simpl.
  destruct (run_step_unhashable step s msg Hmsg) as (w' & Hrun).
  exists {| world := w'; trace := trace s |}. split; [|reflexivity].
  rewrite run_step_of_dict. apply bind_raised. exact Hrun.
Qed.

Lemma execute_single_step_unhashable_tool_raises_witness :
  plan_steps (Demo.plan_of [Cases.listed_tool_step]) [Cases.listed_tool_step]
  /\ unhashable_message (Py.get Cases.listed_tool_step "tool")
     = Some "unhashable type: 'list'"
  /\ exists s',
       execute (H:=Demo.host) (Demo.plan_of [Cases.listed_tool_step]) Demo.start
       = (Raised "unhashable type: 'list'", s')
       /\ trace s' = trace Demo.start.
Proof.
  split; [reflexivity|]. split; [reflexivity|].
  apply (execute_single_step_unhashable_tool_raises (H:=Demo.host)
           (Demo.plan_of [Cases.listed_tool_step]) Cases.listed_tool_step).
  - reflexivity.
  - reflexivity.
Defined.

(** X3. [retry_failed] indexes the steps of the plan by [step["id"]]
    before it looks at any result: when a step of the plan has no ["id"]
    key it raises the [KeyError] of that key, whatever the results are
    (also when none of them is an error), and nothing has been run. *)
Theorem retry_failed_needs_step_ids `{Host}
    (plan : dict) (before : list dict) (step : dict) (after : list dict)
    (step_results : list dict) (s : state) :
  plan_steps plan (before ++ step :: after) ->
  ids_hashable before ->
  Py.lookup step "id" = None ->
  retry_failed plan step_results s = (Raised "'id'", s).
Proof.
  intros Hplan Hids Hno. unfold retry_failed. rewrite Hplan. simpl Py.iter.
  rewrite bind_lift_ok.
  rewrite (build_step_map_missing_id before step after ∅ Hids Hno).
  apply bind_lift_raised.
Qed.

Lemma retry_failed_needs_step_ids_witness :
  plan_steps (Demo.plan_of (Demo.speech_steps ++ Cases.anonymous_step :: []))
             (Demo.speech_steps ++ Cases.anonymous_step :: [])
  /\ ids_hashable Demo.speech_steps
  /\ Py.lookup Cases.anonymous_step "id" = None
  /\ retry_failed (H:=Demo.host)
       (Demo.plan_of (Demo.speech_steps ++ Cases.anonymous_step :: []))
       [Demo.good_speech] Demo.start
     = (Raised "'id'", Demo.start).
Proof.
  assert (Hids : ids_hashable Demo.speech_steps).
  { repeat constructor. vm_compute. eauto. }
  split; [reflexivity|]. split; [exact Hids|]. split; [reflexivity|].
  apply (retry_failed_needs_step_ids (H:=Demo.host)
           (Demo.plan_of (Demo.speech_steps ++ Cases.anonymous_step :: []))
           Demo.speech_steps Cases.anonymous_step [] [Demo.good_speech] Demo.start).
  - reflexivity.
  - exact Hids.
  - reflexivity.
Defined.

(** X4. When several steps of the plan share an id, the last of them has
    the entry of that id: an error result with that step id is retried by
    running the last step with the id, not the step that failed. *)
Theorem retry_runs_last_step_with_id `{Host}
    (plan : dict) (before : list dict) (step : dict) (after : list dict)
    (result : dict) (k : Py.hkey) (s : state) :
  plan_steps plan (before ++ step :: after) ->
  ids_hashable (before ++ step :: after) ->
  step_key step = Some k ->
  Forall (fun later => step_key later <> Some k) after ->
  Py.get result "status" = VStr "error" ->
  Py.hash_key (Py.get result "step_id") = Ok k ->
  retry_failed plan [result] s = (fresh <- _run_step step ;; ret [fresh]) s.
Proof.
  intros Hplan Hids Hk Hafter Herr Hkey. unfold retry_failed. rewrite Hplan. simpl Py.iter.
  rewrite bind_lift_ok.
  destruct (build_step_map_last before step after k ∅ Hids Hk Hafter) as (m' & Hm' & Hlook).
  rewrite Hm', bind_lift_ok. simpl mapM. unfold retry_one at 1.
  rewrite Herr. simpl Py.eq_str. cbv iota. rewrite Hkey.
  unfold bind, lift, ret. cbv beta iota. rewrite Hlook.
  rewrite (step_key_truthy step k Hk). rewrite run_step_of_dict.
  destruct (_run_step step s) as [[fresh|e] s1]; reflexivity.
Qed.

Lemma retry_runs_last_step_with_id_witness :
  retry_failed (H:=Demo.host) (Demo.plan_of Cases.twin_steps) [Cases.failed_twin] Demo.start
  = (fresh <- _run_step (Demo.step "a" "llm_generate" [("instruction", VStr "intro")]) ;;
     ret [fresh]) Demo.start.
Proof.
  apply (retry_runs_last_step_with_id (H:=Demo.host)
           (Demo.plan_of Cases.twin_steps)
           [Demo.step "a" "github_search" [("query", VStr "down")]]
           (Demo.step "a" "llm_generate" [("instruction", VStr "intro")])
           [] Cases.failed_twin (Py.KStr "a") Demo.start).
  - reflexivity.
  - repeat constructor; vm_compute; eauto.
  - reflexivity.
  - constructor.
  - reflexivity.
  - reflexivity.
Defined.

(** In the small world: the search named ["a"] failed, and the retry
    runs the speech that has the same id and reports its success. *)
Example twin_retry_runs_the_speech :
  (fun r => (Py.get r "tool", Py.get r "status"))
    <$> Demo.returned [] (retry_failed (H:=Demo.host) (Demo.plan_of Cases.twin_steps)
                                       [Cases.failed_twin] Demo.start)
  = [(VStr "llm_generate", VStr "success")].
Proof. vm_compute. reflexivity. Qed.

(** ** Planner: what [_normalize_plan] accepts *)

(** X5. [_normalize_plan] accepts exactly the replies that are a dict
    whose ["steps"] is a list, not empty, of dicts whose ["tool"] is the
    (non-empty) name of a registered tool; args, purpose, id and goal are
    never a reason to refuse a plan. *)
Theorem normalize_plan_accepts_exactly `{Host} (plan : value) (task : string) :
  (exists p, _normalize_plan plan task = Ok p) <-> acceptable plan.
Proof.
  split.
  - intros [p Hp]. unfold _normalize_plan in Hp.
    destruct plan as [| | | | |pd]; try discriminate.
    destruct (Py.get pd "steps") as [| | | |[|first others]|] eqn:Hsteps; try discriminate.
    destruct (normalize_steps 1 (first :: others)) as [ns|e] eqn:Hns; [|discriminate].
    exists pd, (first :: others). split; [reflexivity|]. split; [exact Hsteps|].
    split; [discriminate|]. apply (normalize_steps_accepts _ 1%nat). eauto.
  - intros (pd & steps & -> & Hsteps & Hne & Hall).
    apply (normalize_steps_accepts _ 1%nat) in Hall as [ns Hns].
    unfold _normalize_plan. rewrite Hsteps.
    destruct steps as [|first others]; [congruence|]. rewrite Hns. eauto.
Qed.

Lemma normalize_plan_accepts_exactly_witness :
  acceptable (H:=Demo.host) Demo.reply_without_ids.
Proof.
  apply (proj1 (normalize_plan_accepts_exactly (H:=Demo.host) Demo.reply_without_ids "t")).
  exists Demo.normalized_without_ids. reflexivity.
Defined.

(** X6. A plan is refused at its first step whose tool is empty or not
    registered, with the message ["Unknown tool in plan: <tool>"] that
    names the tool of that step; the steps after it are not examined. *)
Theorem normalize_plan_names_first_unknown_tool `{Host}
    (oracle : dict) (before : list value) (d : dict) (after : list value)
    (task : string) :
  Py.get oracle "steps" = VList (before ++ VDict d :: after) ->
  Forall acceptable_step before ->
  unregistered (Py.get d "tool") ->
  _normalize_plan (VDict oracle) task
  = Raised ("Unknown tool in plan: " +:+ py_str (Py.get d "tool")).
Proof.
  intros Hsteps Hbefore Hbad. unfold _normalize_plan. rewrite Hsteps.
  destruct (before ++ VDict d :: after) as [|first others] eqn:Happ.
  - destruct before; discriminate.
  - rewrite <- Happ, (normalize_steps_rejects before d after Hbefore Hbad). reflexivity.
Qed.

Lemma normalize_plan_names_first_unknown_tool_witness :
  _normalize_plan (H:=Demo.host)
    (VDict [("steps", VList ([VDict Cases.anonymous_step]
                             ++ VDict [("tool", VStr "translate")]
                             :: [VInt 7]))])
    "t"
  = Raised "Unknown tool in plan: translate".
Proof.
  apply (normalize_plan_names_first_unknown_tool (H:=Demo.host)
           [("steps", VList ([VDict Cases.anonymous_step]
                             ++ VDict [("tool", VStr "translate")]
                             :: [VInt 7]))]
           [VDict Cases.anonymous_step] [("tool", VStr "translate")] [VInt 7] "t").
  - reflexivity.
  - repeat constructor. exists Cases.anonymous_step, "llm_generate".
    split; [reflexivity|]. split; [reflexivity|]. split; [discriminate|].
    vm_compute. eauto.
  - right. exists (Py.KStr "translate"). split; reflexivity.
Defined.

(** X7. Normalizing is idempotent: a plan that [_normalize_plan]
    returned is accepted again, for the same task, and comes back
    unchanged. *)
Theorem normalize_plan_idempotent `{Host} (plan : value) (task : string) (p : dict) :
  _normalize_plan plan task = Ok p ->
  _normalize_plan (VDict p) task = Ok p.
Proof.
  intros Hp. unfold _normalize_plan in Hp.
  destruct plan as [| | | | |pd]; try discriminate.
  destruct (Py.get pd "steps") as [| | | |[|first others]|] eqn:Hsteps; try discriminate.
  destruct (normalize_steps 1 (first :: others)) as [ns|e] eqn:Hns; [|discriminate].
  injection Hp as <-.
  pose proof (normalize_steps_length _ _ _ Hns) as Hlen.
  pose proof (normalize_steps_fix _ _ _ Hns) as Hfix.
  destruct ns as [|n ns]; [discriminate|].
  unfold _normalize_plan.
  change (Py.get [("goal", _); ("steps", _)] "steps") with (VList (n :: ns)).
  cbv iota. rewrite Hfix.
  change (Py.get [("goal", _); ("steps", _)] "goal")
    with (Py.or (Py.get pd "goal") (VStr task)).
  rewrite or_or. reflexivity.
Qed.

Lemma normalize_plan_idempotent_witness :
  _normalize_plan (H:=Demo.host) Demo.reply_without_ids "t" = Ok Demo.normalized_without_ids
  /\ _normalize_plan (H:=Demo.host) (VDict Demo.normalized_without_ids) "t"
     = Ok Demo.normalized_without_ids.
Proof.
  split; [reflexivity|].
  apply (normalize_plan_idempotent (H:=Demo.host) Demo.reply_without_ids "t"). reflexivity.
Defined.

(** X8. Executing a plan that [_normalize_plan] accepted never raises
    and never meets an unknown tool: every step has its result, the one
    its own run produced, and that result reports what the tool of the
    step did when it was applied to the args of the step -- a success
    with the output the tool returned, or an error with the message of
    the exception the tool raised.  The tool of every step has been
    called exactly once, with the args of the step (the calls appear in
    the order in which the pool ran the steps). *)
Theorem accepted_plan_calls_every_tool_once `{Host}
    (plan : value) (task : string) (p : dict) (s : state) :
  _normalize_plan plan task = Ok p ->
  exists steps results s' calls,
    plan_steps p steps
    /\ execute p s = (Ok results, s')
    /\ Forall2 (fun step result =>
                  tool_was_called step result /\ produced step result)
               steps results
    /\ trace s' = trace s ++ calls
    /\ calls ≡ₚ steps ≫= call_of
    /\ length calls = length steps.
Proof.
  intros Hp.
  destruct (normalized_plan_registered plan task p Hp) as (steps & Hplan & _ & Hreg).
  destruct (execute_stepwise
              (fun step result => tool_was_called step result /\ produced step result)
              call_of steps) with (plan := p) (s := s)
    as (results & s' & calls & Hex & Hall & Ht & Hperm).
  - intros step st Hin.
    destruct (proj1 (Forall_forall _ _) Hreg step Hin) as [(name & fn & Htool & Hfn) _].
    apply (run_step_registered step st name fn Htool Hfn).
  - exact Hplan.
  - exists steps, results, s', calls. repeat split; try assumption.
    rewrite Hperm. apply call_of_registered. exact Hreg.
Qed.

Lemma accepted_plan_calls_every_tool_once_witness :
  exists steps results s' calls,
    plan_steps Demo.normalized_without_ids steps
    /\ execute (H:=Demo.host) Demo.normalized_without_ids Demo.start = (Ok results, s')
    /\ Forall2 (fun step result =>
                  tool_was_called (H:=Demo.host) step result
                  /\ produced (H:=Demo.host) step result)
               steps results
    /\ trace s' = trace Demo.start ++ calls
    /\ calls ≡ₚ steps ≫= call_of
    /\ length calls = length steps.
Proof.
  apply (accepted_plan_calls_every_tool_once (H:=Demo.host) Demo.reply_without_ids "t").
  reflexivity.
Defined.

(** In the small world: the speech is generated and the weather service
    times out on the first call; each result reports what its own tool
    did. *)
Example accepted_plan_in_the_small_world :
  (fun r => (Py.get r "tool", Py.get r "status", Py.get r "output", Py.get r "error"))
    <$> Demo.returned [] Cases.executed_normalized
  = [(VStr "llm_generate", VStr "success", VDict [("text", VStr "Hello World")], VNone);
     (VStr "weather_current", VStr "error", VNone, VStr "request timed out")].
Proof. vm_compute. reflexivity. Qed.

(** X9. The planner does not check the ids the oracle supplies: for the
    results of executing an accepted plan, the repair pass [retry_failed]
    returns exactly when the id of every step of the plan is hashable; an
    id that is a list or a dict makes it raise. *)
Theorem accepted_plan_repair_needs_hashable_ids `{Host}
    (plan : value) (task : string) (p : dict) (steps : list dict)
    (results : list dict) (s s1 : state) :
  _normalize_plan plan task = Ok p ->
  plan_steps p steps ->
  execute p s = (Ok results, s1) ->
  (exists updated s2, retry_failed p results s1 = (Ok updated, s2))
  <-> Forall (fun step => hashable (Py.get step "id") = true) steps.
Proof.
  intros Hp Hplan Hex.
  destruct (normalized_plan_registered plan task p Hp) as (steps' & Hplan' & _ & Hreg).
  assert (steps' = steps) as ->.
  { unfold plan_steps in Hplan, Hplan'. rewrite Hplan in Hplan'.
    injection Hplan' as Heq. symmetry. apply fmap_VDict_inj. exact Heq. }
  split.
  - intros (updated & s2 & Hretry). unfold retry_failed in Hretry.
    rewrite Hplan in Hretry. simpl Py.iter in Hretry. rewrite bind_lift_ok in Hretry.
    destruct (build_step_map ∅ (VDict <$> steps)) as [m|e] eqn:Hmap.
    + eapply build_step_map_ok. exact Hmap.
    + rewrite bind_lift_raised in Hretry. discriminate.
  - intros Hids.
    destruct (execute_stepwise
                (fun step result => tool_was_called step result /\ produced step result)
                call_of steps) with (plan := p) (s := s)
      as (results' & s' & calls & Hex' & Hall & _).
    { intros step st Hin.
      destruct (proj1 (Forall_forall _ _) Hreg step Hin) as [(name & fn & Htool & Hfn) _].
      apply (run_step_registered step st name fn Htool Hfn). }
    { exact Hplan. }
    rewrite Hex in Hex'. injection Hex' as <- <-.
    destruct (retry_failed_returns p steps results s1) as (updated & s2 & Hretry & _).
    + exact Hplan.
    + apply Forall_forall. intros step Hin. apply registered_step_key.
      * exact (proj1 (Forall_forall _ _) Hreg step Hin).
      * exact (proj1 (Forall_forall _ _) Hids step Hin).
    + apply Forall_forall. intros step Hin.
      destruct (proj1 (Forall_forall _ _) Hreg step Hin) as [(name & fn & -> & _) _].
      reflexivity.
    + apply Forall_forall. intros r Hin.
      apply list_elem_of_lookup in Hin as [i Hi].
      destruct (Forall2_lookup_r _ _ _ _ _ Hall Hi) as (step & Hstep & Hcalled & _).
      rewrite (tool_was_called_step_id step r Hcalled).
      apply (proj1 (Forall_forall _ _) Hids step). eapply list_elem_of_lookup_2. exact Hstep.
    + eauto.
Qed.

Lemma accepted_plan_repair_needs_hashable_ids_witness :
  (exists updated s2,
      retry_failed (H:=Demo.host) Demo.normalized_without_ids
                   (Demo.returned [] Cases.executed_normalized)
                   Cases.executed_normalized.2
      = (Ok updated, s2))
  <-> Forall (fun step => hashable (Py.get step "id") = true) Cases.normalized_steps.
Proof.
  apply (accepted_plan_repair_needs_hashable_ids (H:=Demo.host)
           Demo.reply_without_ids "t" Demo.normalized_without_ids
           Cases.normalized_steps
           (Demo.returned [] Cases.executed_normalized)
           Demo.start Cases.executed_normalized.2).
  - reflexivity.
  - reflexivity.
  - reflexivity.
Defined.

(** In the small world: a step whose id is the list [["a"]] is accepted
    and executed, and the repair pass of its results raises. *)
Example list_id_accepted_then_breaks_repair :
  exists p results s1,
    _normalize_plan (H:=Demo.host) Cases.reply_with_list_id "t" = Ok p
    /\ execute p Demo.start = (Ok results, s1)
    /\ retry_failed p results s1 = (Raised "unhashable type: 'list'", s1).
Proof. eexists _, _, _. split; [reflexivity|]. split; vm_compute; reflexivity. Qed.

(** ** Verifier: what the oracle is shown and what is kept of its reply *)

(** X10. [_compact_step_results] gives one compact result per result, in
    the same order, with exactly the keys [step_id], [tool], [status],
    [output], [error] copied from the result.  An output that has items
    is cut to [query], [total_count], [source_url] and at most five
    items, each reduced to [name], [full_name], [url], [stars] and
    [language]; any other output is handed on unchanged. *)
Theorem compact_results_cut_to_five_items (step_results compacted : list dict) :
  _compact_step_results step_results = Ok compacted ->
  length compacted = length step_results
  /\ Forall2 (fun result compact =>
                keys compact = ["step_id"; "tool"; "status"; "output"; "error"]
                /\ Py.get compact "step_id" = Py.get result "step_id"
                /\ Py.get compact "tool" = Py.get result "tool"
                /\ Py.get compact "status" = Py.get result "status"
                /\ Py.get compact "error" = Py.get result "error"
                /\ compacted_output (Py.get result "output") (Py.get compact "output"))
             step_results compacted.
Proof.
  revert compacted. induction step_results as [|result rest IH]; intros compacted;
    cbn [_compact_step_results].
  - intros [= <-]. split; [reflexivity|constructor].
  - destruct (compact_output (Py.get result "output")) as [out|e] eqn:Hout; [|discriminate].
    destruct (_compact_step_results rest) as [cs|e] eqn:Hcs; [|discriminate].
    intros [= <-]. destruct (IH cs eq_refl) as [Hlen Hall].
    split; [simpl; f_equal; exact Hlen|]. constructor; [|exact Hall].
    pose proof (compact_output_ok _ _ Hout) as Hshape.
    repeat split; try reflexivity. exact Hshape.
Qed.

Lemma compact_results_cut_to_five_items_witness :
  exists compacted,
    _compact_step_results [Demo.good_search; Demo.failed_search] = Ok compacted
    /\ length compacted = 2%nat
    /\ (fun c => keys c) <$> compacted
       = [["step_id"; "tool"; "status"; "output"; "error"];
          ["step_id"; "tool"; "status"; "output"; "error"]].
Proof.
  eexists. split; [reflexivity|].
  destruct (compact_results_cut_to_five_items
              [Demo.good_search; Demo.failed_search] _ eq_refl) as [Hlen Hall].
  split; [exact Hlen|]. reflexivity.
Defined.

(** In the small world: of six repositories found the oracle is shown
    five, without their descriptions. *)
Example six_found_five_shown :
  _compact_step_results [Cases.six_found] = Ok Cases.compacted_six
  /\ (fun c => match Py.get c "output" with
               | VDict o => match Py.get o "items" with
                            | VList items =>
                                (fun i => match i with VDict d => keys d | _ => [] end)
                                  <$> items
                            | _ => []
                            end
               | _ => []
               end) <$> Cases.compacted_six
     = [replicate 5 ["name"; "full_name"; "url"; "stars"; "language"]].
Proof. split; reflexivity. Qed.

(** X11. [verify] writes five keys of the object the oracle returned --
    [final_answer], [data], [sources], [limitations], [completeness] --
    and no other: under every other key the verification returned holds
    what the oracle put there. *)
Theorem verify_writes_five_keys `{Host}
    (task : string) (plan : dict) (step_results : list dict) (s : state)
    (v : dict) (s' : state) :
  verify task plan step_results s = (Ok v, s') ->
  exists repaired s1 compact oracle w2,
    retry_failed plan step_results s = (Ok repaired, s1)
    /\ _compact_step_results repaired = Ok compact
    /\ verifier_chat_json task plan compact (world s1) = (Ok (VDict oracle), w2)
    /\ forall k, k ∉ written_by_verify -> Py.get v k = Py.get oracle k.
Proof.
  intros Hv.
  destruct (verify_returned _ _ _ _ _ _ Hv)
    as (repaired & s1 & compact & oracle & w2 & allowed & steps & tools_used
        & Hretry & Hcompact & Horacle & _ & _ & _ & _ & ->).
  exists repaired, s1, compact, oracle, w2. repeat split; try assumption.
  intros k Hk. apply enrich_other. exact Hk.
Qed.

Lemma verify_writes_five_keys_witness :
  exists repaired s1 compact oracle w2,
    retry_failed (H:=Demo.host) (Demo.plan_of Demo.search_steps)
                 [Demo.good_search; Demo.good_search; Demo.good_weather] Demo.start
    = (Ok repaired, s1)
    /\ _compact_step_results repaired = Ok compact
    /\ @verifier_chat_json Demo.host "repos and weather" (Demo.plan_of Demo.search_steps)
                           compact (world s1)
       = (Ok (VDict oracle), w2)
    /\ forall k, k ∉ written_by_verify ->
                 Py.get Demo.verified_search k = Py.get oracle k.
Proof.
  eapply (verify_writes_five_keys (H:=Demo.host) "repos and weather"
            (Demo.plan_of Demo.search_steps)
            [Demo.good_search; Demo.good_search; Demo.good_weather] Demo.start
            Demo.verified_search).
  vm_compute. reflexivity.
Defined.

(** X12. When every result is a success after the repair pass, [verify]
    leaves the verdict to the oracle: the completeness and the
    limitations of the verification returned are the ones the oracle
    gave, also when it judged the answer partial or gave none. *)
Theorem verify_keeps_verdict_when_all_succeeded `{Host}
    (task : string) (plan : dict) (step_results : list dict) (s : state)
    (v : dict) (s' : state) (repaired : list dict) (s1 : state) :
  verify task plan step_results s = (Ok v, s') ->
  retry_failed plan step_results s = (Ok repaired, s1) ->
  Forall (fun r => Py.get r "status" = VStr "success") repaired ->
  exists compact oracle w2,
    verifier_chat_json task plan compact (world s1) = (Ok (VDict oracle), w2)
    /\ Py.get v "completeness" = Py.get oracle "completeness"
    /\ Py.get v "limitations" = Py.get oracle "limitations".
Proof.
  intros Hv Hretry Hall.
  destruct (verify_returned _ _ _ _ _ _ Hv)
    as (repaired' & s1' & compact & oracle & w2 & allowed & steps & tools_used
        & Hretry' & Hcompact & Horacle & _ & _ & _ & _ & ->).
  rewrite Hretry in Hretry'. injection Hretry' as <- <-.
  apply still_missing_nil in Hall.
  exists compact, oracle, w2. split; [exact Horacle|].
  split; apply enrich_verdict; auto.
Qed.

Lemma verify_keeps_verdict_when_all_succeeded_witness :
  exists compact oracle w2,
    @verifier_chat_json Demo.host "intro" (Demo.plan_of Demo.speech_steps) compact
                        (world Demo.start)
    = (Ok (VDict oracle), w2)
    /\ Py.get Demo.verified_speech "completeness" = Py.get oracle "completeness"
    /\ Py.get Demo.verified_speech "limitations" = Py.get oracle "limitations".
Proof.
  eapply (verify_keeps_verdict_when_all_succeeded (H:=Demo.host) "intro"
            (Demo.plan_of Demo.speech_steps) [Demo.good_speech] Demo.start
            Demo.verified_speech _ [Demo.good_speech] Demo.start).
  - vm_compute. reflexivity.
  - vm_compute. reflexivity.
  - repeat constructor.
Defined.

(** X13. [verify] assigns into the reply of the oracle without checking
    what it is: when the reply is not a JSON object (an array, a string,
    a number, [null]), [verify] raises, after the repair pass has run and
    the oracle has been called. *)
Theorem verify_needs_an_object `{Host}
    (task : string) (plan : dict) (step_results : list dict) (s : state)
    (repaired : list dict) (s1 : state) (compact : list dict)
    (reply : value) (w2 : W) :
  retry_failed plan step_results s = (Ok repaired, s1) ->
  _compact_step_results repaired = Ok compact ->
  verifier_chat_json task plan compact (world s1) = (Ok reply, w2) ->
  (forall d, reply <> VDict d) ->
  exists msg,
    verify task plan step_results s
    = (Raised msg,
       {| world := w2; trace := trace s1 ++ [EvVerifier task plan compact] |}).
Proof.
  intros Hretry Hcompact Horacle Hnot. unfold verify.
  rewrite (bind_step _ _ _ _ _ Hretry). rewrite Hcompact, bind_lift_ok.
  assert (Hext : external (EvVerifier task plan compact)
                          (verifier_chat_json task plan compact) s1
                 = (Ok reply, {| world := w2; trace := trace s1 ++ [EvVerifier task plan compact] |})).
  { rewrite external_eq, Horacle. reflexivity. }
  rewrite (bind_step _ _ _ _ _ Hext).
  destruct (fromkeys _) as [allowed|e]; [rewrite bind_lift_ok|rewrite bind_lift_raised; eauto].
  destruct (Py.iter _) as [steps|e]; [rewrite bind_lift_ok|rewrite bind_lift_raised; eauto].
  destruct (tools_of steps) as [tools_used|e]; [rewrite bind_lift_ok|rewrite bind_lift_raised; eauto].
  destruct reply as [| | | | |d]; cbn [as_assignable];
    try (rewrite bind_lift_raised; eauto).
  exfalso. apply (Hnot d). reflexivity.
Qed.

Lemma verify_needs_an_object_witness :
  exists msg,
    verify (H:=Cases.array_host) "intro" (Demo.plan_of Demo.speech_steps)
           [Demo.good_speech] (@St Cases.array_host 0%nat [])
    = (Raised msg,
       @St Cases.array_host 0%nat
           [EvVerifier "intro" (Demo.plan_of Demo.speech_steps)
                       (match _compact_step_results [Demo.good_speech] with
                        | Ok c => c | Raised _ => [] end)]).
Proof.
  apply (verify_needs_an_object (H:=Cases.array_host) "intro"
           (Demo.plan_of Demo.speech_steps) [Demo.good_speech]
           (@St Cases.array_host 0%nat []) [Demo.good_speech]
           (@St Cases.array_host 0%nat []) _ (VList [VStr "done"]) 0%nat).
  - vm_compute. reflexivity.
  - reflexivity.
  - reflexivity.
  - discriminate.
Defined.

(** X29. When the single-tool narration applies (the tools of the plan
    are exactly the text-generation tool and a generated text is found),
    the answer is that text, it has no whitespace character (of whatever
    kind) at either end, and the word count reported with it is at least
    one. *)
Theorem speech_word_count_is_positive `{Host}
    (task : string) (plan : dict) (step_results : list dict) (s : state)
    (v : dict) (s' : state) (repaired : list dict) (s1 : state)
    (steps : list value) :
  verify task plan step_results s = (Ok v, s') ->
  retry_failed plan step_results s = (Ok repaired, s1) ->
  Py.iter (Py.get_default plan "steps" (VList [])) = Ok steps ->
  tools_of steps = Ok {[Py.KStr "llm_generate"]} ->
  find_speech repaired <> "" ->
  exists words,
    1 <= words
    /\ Py.get v "data" = VDict [("kind", VStr "introduction_speech");
                                ("word_count", VInt words)]
    /\ Py.get v "final_answer" = VStr (find_speech repaired)
    /\ stripped (find_speech repaired).
Proof.
  intros Hv Hretry Hsteps Htools Hspeech.
  destruct (verify_returned _ _ _ _ _ _ Hv)
    as (repaired' & s1' & compact & oracle & w2 & allowed & steps' & tools_used
        & Hretry' & _ & _ & _ & _ & Hsteps' & Htools' & ->).
  rewrite Hretry in Hretry'. injection Hretry' as <- <-.
  rewrite Hsteps in Hsteps'. injection Hsteps' as <-.
  rewrite Htools in Htools'. injection Htools' as <-.
  destruct (enrich_speech repaired allowed oracle (find_speech repaired) eq_refl Hspeech)
    as (Hanswer & Hdata & _).
  exists (Z.of_nat (length (Py.split (find_speech repaired)))).
  split; [|split; [exact Hdata|split; [exact Hanswer|apply find_speech_stripped]]].
  pose proof (split_stripped _ Hspeech (find_speech_stripped repaired)) as Hwords.
  destruct (Py.split (find_speech repaired)); [congruence|]. cbn [length]. lia.
Qed.

Lemma speech_word_count_is_positive_witness :
  exists words,
    1 <= words
    /\ Py.get Demo.verified_speech "data"
       = VDict [("kind", VStr "introduction_speech"); ("word_count", VInt words)]
    /\ Py.get Demo.verified_speech "final_answer"
       = VStr (find_speech (H:=Demo.host) [Demo.good_speech])
    /\ stripped (find_speech (H:=Demo.host) [Demo.good_speech]).
Proof.
  eapply (speech_word_count_is_positive (H:=Demo.host) "intro"
            (Demo.plan_of Demo.speech_steps) [Demo.good_speech] Demo.start
            Demo.verified_speech _ [Demo.good_speech] Demo.start).
  - vm_compute. reflexivity.
  - vm_compute. reflexivity.
  - reflexivity.
  - cbn. f_equal; try set_solver.
  - vm_compute. discriminate.
Defined.

(** ** Orchestrator: when a replan is asked for, and what the metrics count *)

(** X14. [_build_replan_task] gives no corrective task exactly when no
    step has the status ["error"] and the limitations of the verification
    are empty or absent; otherwise it gives a task or raises. *)
Theorem no_corrective_task_iff_nothing_to_fix `{Host}
    (task : string) (steps : list dict) (final : dict) :
  _build_replan_task task steps final = Ok None
  <-> Forall (fun step => Py.get step "status" <> VStr "error") steps
      /\ Py.truthy (Py.get_default final "limitations" (VList [])) = false.
Proof.
  rewrite <- extract_step_errors_nil. unfold _build_replan_task.
  destruct (_extract_step_errors steps) as [|e errors];
    destruct (Py.truthy (Py.get_default final "limitations" (VList []))) eqn:Ht.
  - split; [|intros [_ ?]; discriminate].
    destruct (Py.iter _); discriminate.
  - split; auto.
  - split; [|intros [? _]; discriminate]. destruct (Py.iter _); discriminate.
  - split; [discriminate|intros [? _]; discriminate].
Qed.

Lemma no_corrective_task_iff_nothing_to_fix_witness :
  _build_replan_task (H:=Demo.host) "intro" [Demo.good_speech] Demo.verified_speech
  = Ok None.
Proof.
  apply (proj2 (no_corrective_task_iff_nothing_to_fix (H:=Demo.host) "intro"
                  [Demo.good_speech] Demo.verified_speech)).
  split; [repeat constructor; discriminate|reflexivity].
Defined.

(** X15. A tool that still fails after the repair pass of the first pass
    always leads to a replan: when [run_task] returns, the response
    carries the envelope of a replan and the planner has been called
    exactly twice. *)
Theorem failed_tool_forces_replan `{Host}
    (task : string) (s : state) (resp : response) (s' : state)
    (plan : dict) (s1 : state) (steps : list dict) (s2 : state)
    (repaired : list dict) (s3 : state) (r : dict) :
  run_task task s = (Ok resp, s') ->
  create_plan task s = (Ok plan, s1) ->
  execute plan s1 = (Ok steps, s2) ->
  retry_failed plan steps s2 = (Ok repaired, s3) ->
  r ∈ repaired ->
  Py.get r "status" <> VStr "success" ->
  (exists replan_task second,
      resp_auto_replan resp = Some (envelope_of replan_task second))
  /\ exists evs, trace s' = trace s ++ evs /\ planner_calls evs = 2%nat.
Proof.
  intros Hrun Hplan Hexec Hretry Hr Hfail. rewrite run_task_body in Hrun.
  destruct (run_body_returned _ _ _ _ Hrun) as (first & s4 & Hpass & _ & Hcases).
  pose proof Hpass as (s1' & s2' & Hplan' & Hexec' & Hverify).
  rewrite Hplan in Hplan'. injection Hplan' as Hp <-.
  rewrite <- Hp in Hexec', Hverify. rewrite Hexec in Hexec'. injection Hexec' as Hs <-.
  rewrite <- Hs in Hverify.
  destruct (verify_returned _ _ _ _ _ _ Hverify)
    as (repaired' & s3' & compact & oracle & w2 & allowed & psteps & tools_used
        & Hretry' & _ & _ & _ & _ & _ & _ & Hfinal).
  rewrite Hretry in Hretry'. injection Hretry' as <- <-.
  pose proof (still_missing_nonempty repaired r Hr Hfail) as Hmissing.
  destruct (enrich_limitations tools_used repaired allowed oracle Hmissing) as [Hpartial Hlim].
  rewrite <- Hfinal in Hpartial, Hlim.
  destruct Hcases as [(_ & _ & _ & [Hnot|Hnone])|(replan_task & second & _ & _ & Hsecond & Henv & _)].
  - rewrite Hpartial in Hnot. discriminate.
  - apply replan_task_none_iff in Hnone as [_ Hfalsy].
    unfold Py.get, Py.get_default in Hlim. unfold Py.get_default in Hfalsy.
    destruct (Py.lookup (pass_final first) "limitations") as [l|]; [|discriminate].
    rewrite Hlim in Hfalsy. cbn [Py.truthy] in Hfalsy.
    match type of Hfalsy with
    | context [?l ++ [?x]] => destruct l; discriminate
    end.
  - split; [eauto|].
    destruct (pass_ran_trace _ _ _ _ _ Hpass) as (e1 & He1 & Hall1).
    destruct (pass_ran_trace _ _ _ _ _ Hsecond) as (e2 & He2 & Hall2).
    exists ((EvPlanner task :: e1) ++ EvPlanner replan_task :: e2). split.
    + rewrite He2, He1. rewrite <- !app_assoc. reflexivity.
    + rewrite planner_calls_app, (planner_calls_pass task task e1 Hall1),
        (planner_calls_pass replan_task task e2 Hall2). reflexivity.
Qed.

Lemma failed_tool_forces_replan_witness :
  (exists replan_task second,
      resp_auto_replan Demo.status_response = Some (envelope_of replan_task second))
  /\ exists evs, trace Demo.status_run.2 = trace Demo.start ++ evs
                 /\ planner_calls evs = 2%nat.
Proof.
  eapply (failed_tool_forces_replan (H:=Demo.host) "status" Demo.start
            Demo.status_response Demo.status_run.2).
  - vm_compute. reflexivity.
  - vm_compute. reflexivity.
  - vm_compute. reflexivity.
  - vm_compute. reflexivity.
  - left.
  - vm_compute. discriminate.
Defined.

(** X16. The metrics of a response: [tool_count] is the number of steps
    the response returns, while [tool_execution_ms] is the sum of the
    durations of the steps of the first pass -- also when the steps
    returned are those of the replan. *)
Theorem metrics_time_the_first_pass `{Host}
    (task : string) (s : state) (resp : response) (s' : state) :
  run_task task s = (Ok resp, s') ->
  resp_tool_count resp = length (resp_steps resp)
  /\ exists plan s1 steps s2,
       create_plan task s = (Ok plan, s1)
       /\ execute plan s1 = (Ok steps, s2)
       /\ tool_time steps = Ok (resp_tool_execution_ms resp).
Proof.
  intros Hrun. rewrite run_task_body in Hrun. unfold run_body in Hrun.
  apply bind_ok in Hrun as (plan & s1 & Hplan & Hrun).
  apply bind_ok in Hrun as (steps & s2 & Hexec & Hrun).
  apply bind_ok in Hrun as (final & s3 & Hverify & Hrun).
  apply bind_ok in Hrun as (tool_time_ms & s3' & Htime & Hrun).
  apply lift_ok in Htime as [Htime ->].
  apply bind_ok in Hrun as ([[[plan' steps'] final'] auto_replan] & s4 & Hreplan & Hrun).
  apply ret_ok in Hrun as [<- ->]. cbn [resp_tool_count resp_steps resp_tool_execution_ms].
  split; [reflexivity|]. exists plan, s1, steps, s2. auto.
Qed.

Lemma metrics_time_the_first_pass_witness :
  resp_tool_count Cases.recovering_response = length (resp_steps Cases.recovering_response)
  /\ exists plan s1 steps s2,
       create_plan (H:=Cases.recovering_host) "status" (@St Cases.recovering_host 0%nat [])
       = (Ok plan, s1)
       /\ execute (H:=Cases.recovering_host) plan s1 = (Ok steps, s2)
       /\ tool_time (H:=Cases.recovering_host) steps
          = Ok (resp_tool_execution_ms Cases.recovering_response).
Proof.
  eapply (metrics_time_the_first_pass (H:=Cases.recovering_host) "status"
            (@St Cases.recovering_host 0%nat []) Cases.recovering_response).
  vm_compute. reflexivity.
Defined.

(** In the small world: the first pass ran two steps of 1 ms each and
    stayed partial, the replan ran one step of 1 ms and was complete.
    The response returns the step of the replan, counts one tool, and
    reports 2 ms. *)
Example replan_adopted_first_pass_timed :
  Cases.recovering_run.1 = Ok Cases.recovering_response
  /\ (exists env, resp_auto_replan Cases.recovering_response = Some env
                  /\ resp_steps Cases.recovering_response = env_steps env)
  /\ resp_tool_count Cases.recovering_response = 1%nat
  /\ tool_time (H:=Cases.recovering_host) (resp_steps Cases.recovering_response) = Ok 1
  /\ resp_tool_execution_ms Cases.recovering_response = 2.
Proof.
  split; [reflexivity|]. split; [eexists; split; reflexivity|].
  split; [reflexivity|]. split; reflexivity.
Qed.

(** X27. The metrics cannot make a run fail: on the results [execute]
    returned for a plan whose steps are dicts, the sum of the durations
    is defined -- a result of a run carries an integer [duration_ms], and
    the result the pool builds for a worker that raised carries none and
    counts for [0]. *)
Theorem metrics_defined_on_executed_steps `{Host}
    (plan : dict) (steps : list dict) (s : state) (results : list dict) (s' : state) :
  plan_steps plan steps ->
  execute plan s = (Ok results, s') ->
  exists total, tool_time results = Ok total.
Proof.
  intros Hplan Hexec.
  assert (Hall : Forall2 pooled_or_run steps results).
  { destruct (decide (2 <= length steps)%nat) as [Hlen|Hlen].
    - destruct (execute_pool_returns plan steps s Hplan Hlen) as (rs & s2 & Hex & Hp & _).
      rewrite Hexec in Hex. injection Hex as <- <-.
      eapply Forall2_impl; [exact Hp|]. intros step r Hpooled. unfold pooled in Hpooled.
      destruct (unhashable_message (Py.get step "tool")) as [msg|]; [right; eauto|left; exact Hpooled].
    - assert (Hinline : execute plan s = mapM run_step_of (VDict <$> steps) s).
      { unfold execute. unfold plan_steps in Hplan. rewrite !Hplan.
        simpl Py.len. simpl Py.iter.
        rewrite !bind_lift_ok, length_fmap.
        destruct (length steps <=? 1)%nat eqn:Hn; [reflexivity|].
        apply Nat.leb_gt in Hn. lia. }
      rewrite Hinline in Hexec. apply inline_produced in Hexec.
      eapply Forall2_impl; [exact Hexec|]. intros step r Hp. left. exact Hp. }
  clear Hexec Hplan.
  induction Hall as [|step r steps results Hr _ IH]; [exists 0; reflexivity|].
  destruct IH as [total Htotal]. destruct (timed_result step r Hr) as [ms Hms].
  exists (ms + total). cbn [tool_time]. rewrite Hms, Htotal. reflexivity.
Qed.

Lemma metrics_defined_on_executed_steps_witness :
  plan_steps (Demo.plan_of Cases.odd_steps) Cases.odd_steps
  /\ exists total,
       tool_time (H:=Demo.host)
         (Demo.returned [] (execute (H:=Demo.host) (Demo.plan_of Cases.odd_steps) Demo.start))
       = Ok total.
Proof.
  split; [reflexivity|].
  eapply (metrics_defined_on_executed_steps (H:=Demo.host) (Demo.plan_of Cases.odd_steps)
            Cases.odd_steps Demo.start).
  - reflexivity.
  - vm_compute. reflexivity.
Defined.

(** X28. A plan the planner refuses ends the run before anything else
    happens: when the reply of the planner's oracle is not acceptable,
    [run_task] raises (the endpoint answers 500 with the message of the
    planner), no tool has been called and the verifier's oracle has not
    been asked. *)
Theorem refused_plan_ends_the_run `{Host}
    (task : string) (s : state) (reply : value) (w1 : W) :
  planner_chat_json task (world s) = (Ok reply, w1) ->
  ~ acceptable reply ->
  exists msg,
    _normalize_plan reply task = Raised msg
    /\ run_task task s
       = (Raised msg, {| world := w1; trace := trace s ++ [EvPlanner task] |}).
Proof.
  intros Horacle Hrefused.
  destruct (_normalize_plan reply task) as [p|msg] eqn:Hnorm.
  - exfalso. apply Hrefused. unfold _normalize_plan in Hnorm.
    destruct reply as [| | | | |pd]; try discriminate.
    destruct (Py.get pd "steps") as [| | | |[|first others]|] eqn:Hsteps; try discriminate.
    destruct (normalize_steps 1 (first :: others)) as [ns|e] eqn:Hns; [|discriminate].
    exists pd, (first :: others). split; [reflexivity|]. split; [exact Hsteps|].
    split; [discriminate|]. apply (normalize_steps_accepts _ 1%nat). eauto.
  - exists msg. split; [reflexivity|]. rewrite run_task_body. unfold run_body.
    apply bind_raised. unfold create_plan.
    assert (Hext : external (EvPlanner task) (planner_chat_json task) s
                   = (Ok reply, {| world := w1; trace := trace s ++ [EvPlanner task] |})).
    { rewrite external_eq, Horacle. reflexivity. }
    rewrite (bind_step _ _ _ _ _ Hext), Hnorm. reflexivity.
Qed.

Lemma refused_plan_ends_the_run_witness :
  exists msg,
    _normalize_plan (H:=Cases.careless_host) (VDict [("goal", VStr "x")]) "status"
    = Raised msg
    /\ run_task (H:=Cases.careless_host) "status" (@St Cases.careless_host 0%nat [])
       = (Raised msg, @St Cases.careless_host 0%nat [EvPlanner "status"]).
Proof.
  apply (refused_plan_ends_the_run (H:=Cases.careless_host) "status"
           (@St Cases.careless_host 0%nat []) (VDict [("goal", VStr "x")]) 0%nat).
  - reflexivity.
  - intros (p & steps & Hp & Hsteps & _). injection Hp as <-. discriminate.
Defined.

(** ** LLM client: what counts as a reply *)

(** X17. [_extract_json] ignores the prose around a JSON object: of a
    text made of prose without an opening brace, an opening brace, a
    body, a closing brace and a tail without a closing brace, it decodes
    the part from the first opening brace to the last closing brace, and
    nothing else. *)
Theorem extract_json_ignores_surrounding_prose `{Srv : Services}
    (prose body tail : string) :
  lacks "{" prose = true ->
  lacks "}" tail = true ->
  _extract_json (prose +:+ "{" +:+ body +:+ "}" +:+ tail)
  = json_loads ("{" +:+ body +:+ "}").
Proof.
  intros Hp Ht. unfold _extract_json. rewrite (brace_match_app prose body tail Hp Ht).
  destruct (json_loads ("{" +:+ body +:+ "}")); reflexivity.
Qed.

Lemma extract_json_ignores_surrounding_prose_witness :
  _extract_json (H0:=Cases.services) ("Sure: " +:+ "{" +:+ "" +:+ "}" +:+ " -- done")
  = Some (VDict []).
Proof.
  apply (extract_json_ignores_surrounding_prose (Srv:=Cases.services) "Sure: " "" " -- done");
    reflexivity.
Defined.

(** X18. [chat_json] calls the API with one and the same request, at
    most [max_retries + 1] times, and stops at the first reply that holds
    a JSON value (the content as a whole, or else the part between its
    first and last brace): it returns that value, every reply before it
    having arrived without one.  An exception of the API is not retried:
    it ends the calls and is the exception of [chat_json].  Otherwise
    [chat_json] raises ["LLM did not return valid JSON"], after exactly
    [max_retries + 1] replies without a value (none when [max_retries] is
    negative). *)
Theorem chat_json_stops_at_first_json_reply `{Srv : Services}
    (self : LLMClient) (system_prompt user_prompt : string) (max_retries : Z)
    (w : W) (o : outcome value) (w' : W) :
  chat_json self system_prompt user_prompt max_retries w = (o, w') ->
  exists rs,
    replies (self_client self) (json_request self system_prompt user_prompt) w rs w'
    /\ Z.of_nat (length rs) <= Z.max 0 (max_retries + 1)
    /\ match o with
       | Ok v =>
           exists before last,
             rs = before ++ [last] /\ Forall undecodable before
             /\ decoded last = Some v
       | Raised e =>
           (exists before, rs = before ++ [Raised e] /\ Forall undecodable before)
           \/ (e = "LLM did not return valid JSON"
               /\ Forall undecodable rs
               /\ Z.of_nat (length rs) = Z.max 0 (max_retries + 1))
       end.
Proof.
  unfold chat_json. intros Hloop.
  destruct (chat_json_loop_spec _ _ _ _ _ _ _ Hloop) as (rs & Hrs & Hlen & Hout).
  exists rs. split; [exact Hrs|]. split; [lia|].
  destruct o as [v|e]; [exact Hout|].
  destruct Hout as [Hleft|(He & Hall & Hn)]; [left; exact Hleft|right].
  repeat split; try assumption. lia.
Qed.

Lemma chat_json_stops_at_first_json_reply_witness :
  exists rs,
    replies (H0:=Cases.services) tt (json_request Cases.llm "system" "user") 0%nat rs 2%nat
    /\ Z.of_nat (length rs) <= Z.max 0 (2 + 1)
    /\ exists before last,
         rs = before ++ [last] /\ Forall (undecodable (H0:=Cases.services)) before
         /\ decoded (H0:=Cases.services) last = Some (VDict []).
Proof.
  apply (chat_json_stops_at_first_json_reply (Srv:=Cases.services)
           Cases.llm "system" "user" 2 0%nat (Ok (VDict [])) 2%nat).
  vm_compute. reflexivity.
Defined.

(** X19. [chat_text] retries every exception of the API: it returns the
    content of the first call that does not raise (the empty text when
    the content is [None]), after at most [max_retries + 1] calls; the
    only exception it raises is ["LLM did not return text"], after
    exactly [max_retries + 1] calls that all raised -- the exceptions of
    the API themselves never reach the caller. *)
Theorem chat_text_retries_every_exception `{Srv : Services}
    (self : LLMClient) (system_prompt user_prompt : string) (max_retries : Z)
    (w : W) (o : outcome string) (w' : W) :
  chat_text self system_prompt user_prompt max_retries w = (o, w') ->
  exists rs,
    replies (self_client self) (text_request self system_prompt user_prompt) w rs w'
    /\ Z.of_nat (length rs) <= Z.max 0 (max_retries + 1)
    /\ match o with
       | Ok text =>
           exists before content,
             rs = before ++ [Ok content] /\ Forall failed before
             /\ text = or_else content ""
       | Raised e =>
           e = "LLM did not return text" /\ Forall failed rs
           /\ Z.of_nat (length rs) = Z.max 0 (max_retries + 1)
       end.
Proof.
  unfold chat_text. intros Hloop.
  destruct (chat_text_loop_spec _ _ _ _ _ _ _ Hloop) as (rs & Hrs & Hlen & Hout).
  exists rs. split; [exact Hrs|]. split; [lia|].
  destruct o as [text|e]; [exact Hout|].
  destruct Hout as (He & Hall & Hn). repeat split; try assumption. lia.
Qed.

Lemma chat_text_retries_every_exception_witness :
  exists rs,
    replies (H0:=Cases.services) tt (text_request Cases.llm "system" "user") 0%nat rs 2%nat
    /\ Z.of_nat (length rs) <= Z.max 0 (1 + 1)
    /\ exists before content,
         rs = before ++ [Ok content] /\ Forall failed before
         /\ Cases.greeting = or_else content "".
Proof.
  apply (chat_text_retries_every_exception (Srv:=Cases.services)
           Cases.llm "system" "user" 1 0%nat (Ok Cases.greeting) 2%nat).
  vm_compute. reflexivity.
Defined.

(** In the small world: the first JSON reply is prose and is passed
    over, the second holds an object between prose; the first text call
    raises and is made again. *)
Example replies_in_the_small_world :
  chat_json (H0:=Cases.services) Cases.llm "system" "user" 2 0%nat = (Ok (VDict []), 2%nat)
  /\ chat_json (H0:=Cases.services) Cases.llm "system" "user" 0 0%nat
     = (Raised "LLM did not return valid JSON", 1%nat)
  /\ chat_json (H0:=Cases.services) Cases.llm "system" "user" (-1) 0%nat
     = (Raised "LLM did not return valid JSON", 0%nat)
  /\ chat_text (H0:=Cases.services) Cases.llm "system" "user" 1 0%nat
     = (Ok Cases.greeting, 2%nat)
  /\ chat_text (H0:=Cases.services) Cases.llm "system" "user" 0 0%nat
     = (Raised "LLM did not return text", 1%nat).
Proof. repeat split; vm_compute; reflexivity. Qed.

(** ** Tools: what they hand to the agents *)

(** X20. [LLMClient(model)] always creates its [OpenAI] object with a
    base url (the environment's, or the default one: the keyword is never
    left out) and always has a model name that is not empty: the one it
    was given when that is not empty, otherwise the environment's or the
    default for the base url.  It raises only what [OpenAI] raises. *)
Theorem client_always_has_base_url_and_model `{Srv : Services}
    (model : option string) (w : W) :
  exists api_key base_url model_name,
    base_url <> "" /\ model_name <> ""
    /\ (forall given, model = Some given -> given <> "" -> model_name = given)
    /\ match OpenAI api_key (Some base_url) w with
       | (Ok conn, w') =>
           new_LLMClient model w
           = (Ok {| self_model := model_name; self_client := conn |}, w')
       | (Raised e, w') => new_LLMClient model w = (Raised e, w')
       end.
Proof.
  destruct (new_client_cases model w)
    as (api_key & base_url & model_name & Hbase & Hmodel & Habsorb & Hnew).
  exists api_key, base_url, model_name. split; [exact Hbase|]. split; [exact Hmodel|]. split.
  - intros given -> Hgiven. rewrite Habsorb. unfold or_else.
    apply String.eqb_neq in Hgiven. rewrite Hgiven. reflexivity.
  - rewrite Hnew. destruct (OpenAI api_key (Some base_url) w) as [[conn|e] w']; reflexivity.
Qed.

(** In the small world, where no variable of the environment is set:
    the default base url is Groq's and the default model the one for it. *)
Example client_without_environment :
  new_LLMClient (H0:=Cases.services) None 0%nat = (Ok Cases.llm, 0%nat)
  /\ new_LLMClient (H0:=Cases.services) (Some "gpt-4o") 0%nat
     = (Ok (@Client Demo.host Cases.services "gpt-4o" tt), 0%nat).
Proof. split; reflexivity. Qed.

(** X21. The text [generate_text] returns is the text the verifier reads
    back: the output is [{"text": t}] with [t] stripped (no whitespace
    character, of whatever kind, at either end), and for a successful
    [llm_generate] result with that output [find_speech] gives exactly
    [t] -- so the single-tool narration applies unless the model answered
    with nothing but whitespace.  When [generate_text] raises, it is with
    the exception of the [OpenAI] constructor or with
    ["LLM did not return text"]. *)
Theorem generated_text_is_read_back `{Srv : Services}
    (instruction : string) (w : W) (o : outcome value) (w' : W) :
  generate_text instruction w = (o, w') ->
  match o with
  | Ok out =>
      exists text,
        out = VDict [("text", VStr text)]
        /\ stripped text
        /\ forall result rest,
             llm_success result ->
             Py.get result "output" = out ->
             find_speech (result :: rest) = text
  | Raised e =>
      e = "LLM did not return text"
      \/ exists api_key base_url, OpenAI api_key base_url w = (Raised e, w')
  end.
Proof.
  unfold generate_text. intros Hgen.
  destruct (new_client_cases None w)
    as (api_key & base_url & model_name & _ & _ & _ & Hnew).
  unfold io_bind in Hgen at 1. rewrite Hnew in Hgen.
  destruct (OpenAI api_key (Some base_url) w) as [[conn|e] w1] eqn:Hopen.
  - unfold io_bind in Hgen.
    match type of Hgen with
    | context [chat_text ?c ?sp ?up ?n w1] =>
        destruct (chat_text c sp up n w1) as [[text|e] w2] eqn:Hchat
    end.
    + unfold io_ret in Hgen. injection Hgen as <- <-.
      exists (Py.strip text). split; [reflexivity|]. split; [apply strip_stripped|].
      intros result rest Hsuccess Hout.
      rewrite (find_speech_first [] result rest [("text", VStr (Py.strip text))]
                 (Forall_nil_2 _) Hsuccess Hout).
      unfold generated_text.
      change (Py.get [("text", VStr (Py.strip text))] "text") with (VStr (Py.strip text)).
      unfold Py.or. cbn [Py.truthy].
      destruct (String.eqb (Py.strip text) "") eqn:Hempty; cbn [negb py_str].
      * apply String.eqb_eq in Hempty. rewrite Hempty. reflexivity.
      * apply strip_idem.
    + injection Hgen as <- <-. left.
      unfold chat_text in Hchat.
      destruct (chat_text_loop_spec _ _ _ _ _ _ _ Hchat) as (rs & _ & _ & -> & _).
      reflexivity.
  - injection Hgen as <- <-. right. eauto.
Qed.

Lemma generated_text_is_read_back_witness :
  exists text,
    VDict [("text", VStr "Hello World")] = VDict [("text", VStr text)]
    /\ stripped text
    /\ forall result rest,
         llm_success result ->
         Py.get result "output" = VDict [("text", VStr "Hello World")] ->
         find_speech (H:=Demo.host) (result :: rest) = text.
Proof.
  apply (generated_text_is_read_back (Srv:=Cases.services) "Write an introduction" 0%nat
           (Ok (VDict [("text", VStr "Hello World")])) 2%nat).
  vm_compute. reflexivity.
Defined.

(** In the small world: the model's answer comes with a no-break space
    in front and an em space behind; neither is part of the text. *)
Example generated_text_in_the_small_world :
  snd (chat_text (H0:=Cases.services) Cases.llm "system" "Write an introduction" 1 0%nat)
  = 2%nat
  /\ fst (chat_text (H0:=Cases.services) Cases.llm "system" "Write an introduction" 1 0%nat)
     = Ok (Demo.nbsp +:+ " Hello World " +:+ Demo.em_space)
  /\ generate_text (H0:=Cases.services) "Write an introduction" 0%nat
     = (Ok (VDict [("text", VStr "Hello World")]), 2%nat).
Proof. repeat split; vm_compute; reflexivity. Qed.

(** X22. Whatever GitHub answers, a result [search_repositories] returns
    has the keys [query], [total_count], [items], [source_url]; its items
    are dicts with exactly the keys [name], [full_name], [url], [stars],
    [description], [language], at most [top_n] of them when [top_n] is
    not negative ([5] when [top_n] cannot be read as an integer).  The
    compaction of the verifier therefore never raises on it: it keeps the
    first five items, trimmed. *)
Theorem search_output_fits_the_verifier `{Srv : Services}
    (query top_n : value) (w : W) (out : value) (w' : W) :
  search_repositories query top_n w = (Ok out, w') ->
  exists total url entries,
    out = VDict [("query", query);
                 ("total_count", total);
                 ("items", VList (VDict <$> entries));
                 ("source_url", VStr url)]
    /\ Forall (fun entry => keys entry = entry_keys) entries
    /\ (0 <= requested top_n -> Z.of_nat (length entries) <= requested top_n)
    /\ compact_output out
       = Ok (VDict [("query", query);
                    ("total_count", total);
                    ("items", VList (VDict <$> (trimmed <$> take 5 entries)));
                    ("source_url", VStr url)]).
Proof.
  unfold search_repositories. fold (requested top_n). intros Hrun.
  apply io_bind_ok in Hrun as (token & w0 & Htoken & Hrun).
  apply io_read_ok in Htoken as [_ ->].
  apply io_bind_ok in Hrun as (response & w1 & Hget & Hrun).
  apply io_bind_ok in Hrun as (data & w2 & Hdata & Hrun).
  apply io_lift_ok in Hdata as [Hdata ->].
  apply io_bind_ok in Hrun as (d & w2 & Hd & Hrun).
  apply io_lift_ok in Hd as [Hd ->].
  apply io_bind_ok in Hrun as (first & w2 & Hfirst & Hrun).
  apply io_lift_ok in Hfirst as [Hfirst ->].
  apply io_bind_ok in Hrun as (items & w2 & Hitems & Hrun).
  apply io_lift_ok in Hitems as [Hitems ->].
  apply io_ret_ok in Hrun as [<- ->].
  destruct (repository_entries_ok first items Hitems) as (entries & -> & Hlen & Hkeys).
  exists (Py.get d "total_count"), (final_url response), entries.
  split; [reflexivity|]. split; [exact Hkeys|]. split.
  - intros Hn. rewrite Hlen. eapply slice_upto_length; eassumption.
  - unfold compact_output.
    change (Py.contains _ "items") with true. cbv iota.
    change (Py.get_default [("query", query); ("total_count", Py.get d "total_count");
                            ("items", VList (VDict <$> entries));
                            ("source_url", VStr (final_url response))] "items" (VList []))
      with (VList (VDict <$> entries)).
    cbn [slice_to]. rewrite <- fmap_take, trim_items_dicts. reflexivity.
Qed.

Lemma search_output_fits_the_verifier_witness :
  exists total url entries,
    (search_repositories (H0:=Cases.services) (VStr "rocq") (VStr "many") 0%nat).1
    = Ok (VDict [("query", VStr "rocq");
                 ("total_count", total);
                 ("items", VList (VDict <$> entries));
                 ("source_url", VStr url)])
    /\ Forall (fun entry => keys entry = entry_keys) entries
    /\ (0 <= requested (H:=Demo.host) (VStr "many") ->
        Z.of_nat (length entries) <= requested (H:=Demo.host) (VStr "many")).
Proof.
  destruct (search_output_fits_the_verifier (Srv:=Cases.services) (VStr "rocq") (VStr "many")
              0%nat
              (match (search_repositories (H0:=Cases.services) (VStr "rocq") (VStr "many")
                        0%nat).1 with Ok out => out | Raised _ => VNone end)
              1%nat)
    as (total & url & entries & Hout & Hkeys & Hlen & _).
  - vm_compute. reflexivity.
  - exists total, url, entries. split; [|split; assumption].
    rewrite <- Hout. vm_compute. reflexivity.
Defined.

(** In the small world: the second repository GitHub lists has neither
    stars nor language; its entry has all six keys all the same. *)
Example search_in_the_small_world :
  (search_repositories (H0:=Cases.services) (VStr "rocq") (VInt 5) 0%nat).1
  = Ok (VDict
          [("query", VStr "rocq");
           ("total_count", VInt 2);
           ("items",
            VList [VDict [("name", VStr "rocq"); ("full_name", VStr "rocq-prover/rocq");
                          ("url", VStr "https://github.com/rocq-prover/rocq");
                          ("stars", VInt 100); ("description", VStr "a proof assistant");
                          ("language", VStr "OCaml")];
                   VDict [("name", VStr "stdlib"); ("full_name", VNone);
                          ("url", VStr "https://github.com/rocq-prover/stdlib");
                          ("stars", VNone); ("description", VNone);
                          ("language", VNone)]]);
           ("source_url", VStr "https://api.github.com/search/repositories?q=rocq")])
  /\ (search_repositories (H0:=Cases.services) (VStr "rocq") (VInt (-1)) 0%nat).1
     = Ok (VDict
             [("query", VStr "rocq");
              ("total_count", VInt 2);
              ("items",
               VList [VDict [("name", VStr "rocq"); ("full_name", VStr "rocq-prover/rocq");
                             ("url", VStr "https://github.com/rocq-prover/rocq");
                             ("stars", VInt 100); ("description", VStr "a proof assistant");
                             ("language", VStr "OCaml")]]);
              ("source_url", VStr "https://api.github.com/search/repositories?q=rocq")]).
Proof. split; vm_compute; reflexivity. Qed.

(** X23. A result [get_current_weather] returns always lets the verifier
    narrate: its location is a text that is not empty (the [str] of the
    geocoder's name and country, joined by a comma, also when they are
    missing), its summary is one of the fixed summaries or
    ["Unknown conditions"], and the sentence the verifier composes from
    it is ["Current weather in <location>: <summary>...."]. *)
Theorem weather_output_always_narrates `{Srv : Services}
    (city : value) (w : W) (out : value) (w' : W) :
  get_current_weather city w = (Ok out, w') ->
  exists info location summary details,
    out = VDict info
    /\ keys info = ["location"; "temperature_c"; "wind_kph"; "weather_code";
                    "weather_summary"; "source_url"]
    /\ Py.get info "location" = VStr location /\ location <> ""
    /\ Py.get info "weather_summary" = VStr summary /\ known_summary summary
    /\ weather_sentence info
       = "Current weather in " +:+ location +:+ ": "
         +:+ Py.join ", " (summary :: details) +:+ ".".
Proof.
  unfold get_current_weather. intros Hrun.
  apply io_bind_ok in Hrun as (geo & w0 & Hgeo & Hrun).
  apply io_bind_ok in Hrun as (response & w1 & Hget & Hrun).
  apply io_bind_ok in Hrun as (data & w2 & Hdata & Hrun).
  apply io_lift_ok in Hdata as [Hdata ->].
  apply io_bind_ok in Hrun as (d & w2 & Hd & Hrun).
  apply io_lift_ok in Hd as [Hd ->].
  apply io_bind_ok in Hrun as (current & w2 & Hcurrent & Hrun).
  apply io_lift_ok in Hcurrent as [Hcurrent ->].
  apply io_bind_ok in Hrun as (summary & w2 & Hsummary & Hrun).
  apply io_lift_ok in Hsummary as [Hsummary ->].
  apply io_ret_ok in Hrun as [<- ->].
  pose proof (weather_summary_known _ _ Hsummary) as Hknown.
  pose proof (known_summary_nonempty _ Hknown) as Hsum.
  set (location := py_str (Py.get geo "name") +:+ ", " +:+ py_str (Py.get geo "country")).
  assert (Hloc : location <> "") by apply location_nonempty.
  set (temp := Py.get current "temperature_2m").
  set (wind := Py.get current "wind_speed_10m").
  exists [("location", VStr location); ("temperature_c", temp); ("wind_kph", wind);
          ("weather_code", Py.get current "weather_code");
          ("weather_summary", VStr summary); ("source_url", VStr (final_url response))],
    location, summary,
    ((if Py.is_not_none temp then [py_str temp +:+ "°C"] else [])
     ++ (if Py.is_not_none wind then ["wind " +:+ py_str wind +:+ " kph"] else [])).
  split; [reflexivity|]. split; [reflexivity|]. split; [reflexivity|].
  split; [exact Hloc|]. split; [reflexivity|]. split; [exact Hknown|].
  unfold weather_sentence.
  change (Py.get _ "location") with (VStr location).
  change (Py.get _ "weather_summary") with (VStr summary).
  change (Py.get _ "temperature_c") with temp.
  change (Py.get _ "wind_kph") with wind.
  assert (Htl : Py.truthy (VStr location) = true) by (apply truthy_str; exact Hloc).
  assert (Hts : Py.truthy (VStr summary) = true) by (apply truthy_str; exact Hsum).
  rewrite Htl, Hts. cbn [orb py_str]. reflexivity.
Qed.

Lemma weather_output_always_narrates_witness :
  exists info location summary details,
    (get_current_weather (H0:=Cases.services) (VStr "Pune") 0%nat).1 = Ok (VDict info)
    /\ Py.get info "location" = VStr location /\ location <> ""
    /\ Py.get info "weather_summary" = VStr summary /\ known_summary summary
    /\ weather_sentence (H:=Demo.host) info
       = "Current weather in " +:+ location +:+ ": "
         +:+ Py.join ", " (summary :: details) +:+ ".".
Proof.
  destruct (weather_output_always_narrates (Srv:=Cases.services) (VStr "Pune") 0%nat
              (match (get_current_weather (H0:=Cases.services) (VStr "Pune") 0%nat).1 with
               | Ok out => out | Raised _ => VNone end)
              2%nat)
    as (info & location & summary & details & Hout & _ & Hloc & Hne & Hsum & Hknown & Hsent).
  - vm_compute. reflexivity.
  - exists info, location, summary, details. split; [|repeat split; assumption].
    rewrite <- Hout. vm_compute. reflexivity.
Defined.

(** In the small world. *)
Example weather_in_the_small_world :
  (get_current_weather (H0:=Cases.services) (VStr "Pune") 0%nat).1
  = Ok (VDict [("location", VStr "Pune, India"); ("temperature_c", VInt 30);
               ("wind_kph", VInt 12); ("weather_code", VInt 3);
               ("weather_summary", VStr "Overcast");
               ("source_url", VStr "https://api.open-meteo.com/v1/forecast?latitude=18")]).
Proof. vm_compute. reflexivity. Qed.

(** X24. A city the geocoder has no result for: when the reply of the
    geocoder has no ["results"], or an empty one, [get_current_weather]
    raises ["No geocoding results for city: <city>"] and the forecast is
    not requested -- the world is left as the geocoding request left it. *)
Theorem unknown_city_stops_before_forecast `{Srv : Services}
    (city : value) (w : W) (response : http_response) (w1 : W) (reply : dict) :
  requests_get "https://geocoding-api.open-meteo.com/v1/search"
               [("name", city); ("count", VInt 1); ("language", VStr "en");
                ("format", VStr "json")]
               None 20 w
  = (Ok response, w1) ->
  checked_json response = Ok (VDict reply) ->
  Py.truthy (Py.get_default reply "results" (VList [])) = false ->
  get_current_weather city w
  = (Raised ("No geocoding results for city: " +:+ py_str city), w1).
Proof.
  intros Hget Hjson Hnone. unfold get_current_weather.
  apply io_bind_raised. unfold _geocode_city.
  rewrite (io_bind_step _ _ _ _ _ Hget). rewrite Hjson.
  unfold io_bind at 1. cbn [io_lift io_ret as_dict].
  unfold io_bind at 1. cbn [io_lift io_ret]. rewrite Hnone. reflexivity.
Qed.

Lemma unknown_city_stops_before_forecast_witness :
  get_current_weather (H0:=Cases.services) (VStr "Atlantis") 0%nat
  = (Raised "No geocoding results for city: Atlantis", 1%nat).
Proof.
  eapply (unknown_city_stops_before_forecast (Srv:=Cases.services) (VStr "Atlantis") 0%nat
            _ 1%nat []).
  - reflexivity.
  - reflexivity.
  - reflexivity.
Defined.

(** ** The other endpoints *)

(** X25. [/suggest] returns the first five of the clean suggestions, in
    the order of the oracle's list: every entry of the list is replaced
    by its [str], stripped; the entries that are then empty are dropped;
    and of what is left the first five are returned (blank entries do not
    count among the five).  So no suggestion returned is empty or has a
    whitespace character at either end.  A reply whose ["suggestions"] is
    not a list gives no suggestion. *)
Theorem suggestions_are_at_most_five_clean_texts `{Srv : Services}
    (llm_client : LLMClient) (task : string) (w : W)
    (suggestions : list string) (w' : W) :
  suggest llm_client task w = (Ok suggestions, w') ->
  exists reply,
    chat_json llm_client SUGGEST_SYSTEM (build_suggest_user_prompt task TOOL_SPECS) 2 w
    = (Ok (VDict reply), w')
    /\ suggestions
       = take 5 (filter (fun text => text <> "")
                        ((fun s => Py.strip (py_str s))
                           <$> match Py.get reply "suggestions" with
                               | VList listed => listed
                               | _ => []
                               end))
    /\ (length suggestions <= 5)%nat
    /\ Forall (fun text => text <> "" /\ stripped text) suggestions.
Proof.
  unfold suggest. intros Hrun.
  apply io_bind_ok in Hrun as (data & w1 & Hchat & Hrun).
  apply io_bind_ok in Hrun as (d & w2 & Hd & Hrun).
  apply io_lift_ok in Hd as [Hd ->].
  apply io_ret_ok in Hrun as [<- ->].
  destruct data as [| | | | |reply]; try discriminate. injection Hd as <-.
  exists reply. split; [exact Hchat|]. split; [|split].
  - unfold cleaned_of. f_equal. apply list_filter_iff. intros text.
    destruct (String.eqb text "") eqn:Htext; cbn [negb Is_true].
    + apply String.eqb_eq in Htext. tauto.
    + apply String.eqb_neq in Htext. tauto.
  - rewrite length_take. lia.
  - apply Forall_take. apply cleaned_of_clean.
Qed.

Lemma suggestions_are_at_most_five_clean_texts_witness :
  exists reply,
    chat_json (H0:=Cases.services) Cases.llm SUGGEST_SYSTEM
              (build_suggest_user_prompt (H0:=Cases.services) "forecast" TOOL_SPECS)
              2 0%nat
    = (Ok (VDict reply), 2%nat)
    /\ ["weather in Pune"; "7"; "a"; "b"; "c"]
       = take 5 (filter (fun text => text <> "")
                        ((fun s => Py.strip (py_str (H:=Demo.host) s))
                           <$> match Py.get reply "suggestions" with
                               | VList listed => listed
                               | _ => []
                               end))
    /\ (length ["weather in Pune"; "7"; "a"; "b"; "c"] <= 5)%nat
    /\ Forall (fun text => text <> "" /\ stripped text)
              ["weather in Pune"; "7"; "a"; "b"; "c"].
Proof.
  apply (suggestions_are_at_most_five_clean_texts (Srv:=Cases.services)
           Cases.llm "forecast" 0%nat ["weather in Pune"; "7"; "a"; "b"; "c"] 2%nat).
  vm_compute. reflexivity.
Defined.

(** In the small world: the oracle lists eight entries, one of them a
    no-break space and one empty; the two blank entries are dropped first
    and the first five of the other six are returned. *)
Example suggestions_in_the_small_world :
  Cases.loads Cases.suggestions_text
  = Some (VDict [("suggestions",
                  VList [VStr " weather in Pune "; VStr Demo.nbsp; VInt 7; VStr "a";
                         VStr EmptyString; VStr "b"; VStr "c"; VStr "d"])])
  /\ suggest (H0:=Cases.services) Cases.llm "forecast" 0%nat
     = (Ok ["weather in Pune"; "7"; "a"; "b"; "c"], 2%nat).
Proof. split; vm_compute; reflexivity. Qed.

(** X26. [/enhance] and [/explain] return a text without a whitespace
    character, of whatever kind, at either end; when the reply of the
    oracle is an object that lacks the key they read, they return the
    empty text instead of failing. *)
Theorem enhanced_and_explained_texts_are_stripped `{Srv : Services}
    (llm_client : LLMClient) (task : string) (final : dict) (w : W) :
  (forall text w',
      enhance llm_client task w = (Ok text, w') ->
      stripped text
      /\ exists reply,
           chat_json llm_client ENHANCE_SYSTEM (build_enhance_user_prompt task TOOL_SPECS) 2 w
           = (Ok (VDict reply), w')
           /\ (Py.lookup reply "enhanced_prompt" = None -> text = ""))
  /\ (forall text w',
        explain llm_client task final w = (Ok text, w') ->
        stripped text
        /\ exists reply,
             chat_json llm_client EXPLAIN_SYSTEM (build_explain_user_prompt task final) 2 w
             = (Ok (VDict reply), w')
             /\ (Py.lookup reply "explanation" = None -> text = "")).
Proof.
  split; intros text w' Hrun; [unfold enhance in Hrun|unfold explain in Hrun];
    apply io_bind_ok in Hrun as (data & w1 & Hchat & Hrun);
    apply io_bind_ok in Hrun as (d & w2 & Hd & Hrun);
    apply io_lift_ok in Hd as [Hd ->];
    apply io_ret_ok in Hrun as [<- ->];
    (destruct data as [| | | | |reply]; try discriminate); injection Hd as <-;
    (split; [apply strip_stripped|]); exists reply; (split; [exact Hchat|]);
    intros Hnone; unfold Py.get_default; rewrite Hnone; reflexivity.
Qed.

(** In the small world: the oracle's reply to the enhancing prompt is
    the empty object, wrapped in prose. *)
Example enhance_without_the_key :
  enhance (H0:=Cases.services) Cases.llm "forecast" 0%nat = (Ok "", 2%nat).
Proof. vm_compute. reflexivity. Qed.
